(** * A shallow embedding of the crawl engine of [Scripts/crawler.py]

  The development follows the class [EnhancedCrawler]: pure helpers on
  Python strings first, then [urllib.parse.urlparse], the domain
  derivation, the year resolution, the Redis frontier, the storage
  writer, URL processing and the crawl loop.  External collaborators
  (network, browser, PyMuPDF, BeautifulSoup, the regular-expression
  engine, the clock) are fields of an environment record, so every
  theorem holds whatever they answer. *)

From Stdlib Require Import String Ascii List Arith Lia Bool OrderedTypeEx.
From stdpp Require Import base option list strings gmap.
Import ListNotations.
Local Open Scope string_scope.
Local Open Scope nat_scope.

(** ** Python [str] operations

  A Python [str] is modelled by a Rocq [string] whose characters are the
  code points 0..255 (the Latin-1 block of Unicode); the copyright sign
  U+00A9 is the single character of code 169. *)
Module PyStr.

Definition chr (n : nat) : ascii := ascii_of_nat n.
Definition ord (c : ascii) : nat := nat_of_ascii c.

Definition char_eqb (a b : ascii) : bool := Ascii.eqb a b.

(** [str.lower] on one code point below 256: A-Z and the Latin-1
    capitals U+00C0..U+00DE (without the multiplication sign U+00D7)
    move up by 32, everything else is unchanged. *)
Definition lower_char (c : ascii) : ascii :=
  let n := ord c in
  if ((65 <=? n) && (n <=? 90)) || ((192 <=? n) && (n <=? 222) && negb (n =? 215))
  then chr (n + 32) else c.

Fixpoint lower (s : string) : string :=
  match s with
  | EmptyString => EmptyString
  | String c s' => String (lower_char c) (lower s')
  end.

(** [s.startswith(p)] *)
Definition startswith (s p : string) : bool := String.prefix p s.

(** [s[n:]] *)
Fixpoint drop (n : nat) (s : string) : string :=
  match n, s with
  | 0, _ => s
  | S _, EmptyString => EmptyString
  | S k, String _ s' => drop k s'
  end.

(** [s[:n]] *)
Fixpoint take (n : nat) (s : string) : string :=
  match n, s with
  | 0, _ => EmptyString
  | S _, EmptyString => EmptyString
  | S k, String c s' => String c (take k s')
  end.

(** [s.endswith(p)] *)
Definition endswith (s p : string) : bool :=
  (String.length p <=? String.length s)
  && String.eqb (drop (String.length s - String.length p) s) p.

(** [sub in s] *)
Fixpoint contains (sub s : string) : bool :=
  startswith s sub ||
  match s with
  | EmptyString => false
  | String _ s' => contains sub s'
  end.

(** [c in s] for one character *)
Fixpoint has_char (c : ascii) (s : string) : bool :=
  match s with
  | EmptyString => false
  | String d s' => char_eqb c d || has_char c s'
  end.

(** [s.find(c)]: the part before the first [c] and the part after it,
    or [None] when [find] returns -1. *)
Fixpoint cut (c : ascii) (s : string) : option (string * string) :=
  match s with
  | EmptyString => None
  | String d s' =>
      if char_eqb c d then Some (EmptyString, s')
      else match cut c s' with
           | Some (a, b) => Some (String d a, b)
           | None => None
           end
  end.

(** [s.split(c)] for a one-character separator: never the empty list. *)
Fixpoint split (c : ascii) (s : string) : list string :=
  match s with
  | EmptyString => [EmptyString]
  | String d s' =>
      let r := split c s' in
      if char_eqb c d then EmptyString :: r
      else match r with
           | h :: t => String d h :: t
           | [] => [String d EmptyString]
           end
  end.

(** [sep.join(l)] *)
Fixpoint join_with (sep : string) (l : list string) : string :=
  match l with
  | [] => EmptyString
  | [x] => x
  | x :: l' => x +:+ sep +:+ join_with sep l'
  end.

(** [s.replace(old, new)] for a non-empty [old]: left to right, without
    overlap.  [skip] counts the characters of a match still to drop. *)
Fixpoint replace_from (old new : string) (skip : nat) (s : string) : string :=
  match s with
  | EmptyString => EmptyString
  | String c s' =>
      match skip with
      | S k => replace_from old new k s'
      | 0 =>
          if startswith s old
          then new +:+ replace_from old new (String.length old - 1) s'
          else String c (replace_from old new 0 s')
      end
  end.

Definition replace (old new s : string) : string := replace_from old new 0 s.

Fixpoint rev_onto (s acc : string) : string :=
  match s with
  | EmptyString => acc
  | String c s' => rev_onto s' (String c acc)
  end.

Definition rev (s : string) : string := rev_onto s EmptyString.

(** [s.lstrip(chars)] with [chars] given as a predicate *)
Fixpoint lstrip_by (p : ascii -> bool) (s : string) : string :=
  match s with
  | EmptyString => EmptyString
  | String c s' => if p c then lstrip_by p s' else s
  end.

Definition rstrip_by (p : ascii -> bool) (s : string) : string :=
  rev (lstrip_by p (rev s)).

Definition strip_by (p : ascii -> bool) (s : string) : string :=
  rstrip_by p (lstrip_by p s).

(** [str.isspace] below 256: TAB..CR, FS..US, space, NEL and NBSP. *)
Definition isspace (c : ascii) : bool :=
  let n := ord c in
  ((9 <=? n) && (n <=? 13)) || ((28 <=? n) && (n <=? 32))
  || (n =? 133) || (n =? 160).

(** [s.strip()] *)
Definition strip (s : string) : string := strip_by isspace s.

(** [s.strip('/')] and the like *)
Definition strip_chars (chars s : string) : string :=
  strip_by (fun c => has_char c chars) s.

(** [s.rfind(c)]: the part before the last [c] and the part after it. *)
Definition rcut (c : ascii) (s : string) : option (string * string) :=
  match cut c (rev s) with
  | Some (a, b) => Some (rev b, rev a)
  | None => None
  end.

(** The ASCII digits. *)
Definition is_digit (c : ascii) : bool :=
  let n := ord c in (48 <=? n) && (n <=? 57).

(** Truthiness of a string: [if s]. *)
Definition nonempty (s : string) : bool :=
  match s with EmptyString => false | _ => true end.

(** [min] of two strings, as Python compares [str]: by code points,
    the first argument winning ties. *)
Definition ltb (a b : string) : bool := String.ltb a b.

End PyStr.

(** ** [urllib.parse.urlparse]

  The fields the crawler reads: [scheme], [netloc] and [path].  The
  function follows [urlsplit]: leading C0 controls and spaces are
  stripped, TAB, CR and LF are removed, the scheme is cut when the text
  before the first colon is made of scheme characters, the network
  location runs from [//] to the first of [/ ? #], and fragment, query
  and parameters are cut from the rest.  A network location with one
  square bracket without the other raises [ValueError]: the result is
  [None].  The further validation of a bracketed host done by recent
  versions of the library is not modelled. *)
Module UrlParse.
Import PyStr.

Record ParseResult := mkParse {
  scheme : string;
  netloc : string;
  path : string
}.

Definition is_c0_or_space (c : ascii) : bool := ord c <=? 32.

Definition is_ascii_alpha (c : ascii) : bool :=
  let n := ord c in
  ((65 <=? n) && (n <=? 90)) || ((97 <=? n) && (n <=? 122)).

Definition is_scheme_char (c : ascii) : bool :=
  let n := ord c in
  is_ascii_alpha c || ((48 <=? n) && (n <=? 57))
  || (n =? 43) || (n =? 45) || (n =? 46).

Fixpoint all_chars (p : ascii -> bool) (s : string) : bool :=
  match s with
  | EmptyString => true
  | String c s' => p c && all_chars p s'
  end.

Fixpoint remove_chars (p : ascii -> bool) (s : string) : string :=
  match s with
  | EmptyString => EmptyString
  | String c s' => if p c then remove_chars p s' else String c (remove_chars p s')
  end.

Definition is_unsafe (c : ascii) : bool :=
  let n := ord c in (n =? 9) || (n =? 13) || (n =? 10).

(** [i = url.find(':')]; the scheme is taken when [i > 0], the first
    character is an ASCII letter and [url[:i]] has scheme characters
    only. *)
Definition split_scheme (url : string) : string * string :=
  match cut ":" url with
  | Some (String c0 pre, rest) =>
      if is_ascii_alpha c0 && all_chars is_scheme_char (String c0 pre)
      then (lower (String c0 pre), rest)
      else (EmptyString, url)
  | _ => (EmptyString, url)
  end.

Definition is_netloc_delim (c : ascii) : bool :=
  let n := ord c in (n =? 47) || (n =? 63) || (n =? 35).

(** [_splitnetloc(url, 0)] on the text after [//] *)
Fixpoint splitnetloc (s : string) : string * string :=
  match s with
  | EmptyString => (EmptyString, EmptyString)
  | String c s' =>
      if is_netloc_delim c then (EmptyString, s)
      else let '(a, b) := splitnetloc s' in (String c a, b)
  end.

Definition uses_params : list string :=
  [""; "ftp"; "hdl"; "prospero"; "http"; "imap"; "https"; "shttp";
   "rtsp"; "rtspu"; "sip"; "sips"; "mms"; "sftp"; "tel"].

(** [_splitparams]: the parameters start at the first [;] of the last
    path segment. *)
Definition splitparams (url : string) : string :=
  match rcut "/" url with
  | Some (dir, last) =>
      match cut ";" last with
      | Some (a, _) => dir +:+ "/" +:+ a
      | None => url
      end
  | None =>
      match cut ";" url with
      | Some (a, _) => a
      | None => url
      end
  end.

Definition before (c : ascii) (s : string) : string :=
  match cut c s with
  | Some (a, _) => a
  | None => s
  end.

Definition urlparse (url0 : string) : option ParseResult :=
  let url := remove_chars is_unsafe (lstrip_by is_c0_or_space url0) in
  let '(sch, url) := split_scheme url in
  let '(loc, url) :=
    if startswith url "//" then splitnetloc (drop 2 url)
    else (EmptyString, url) in
  if xorb (has_char "[" loc) (has_char "]" loc) then None
  else
    let url := before "?" (before "#" url) in
    let url := if bool_decide (sch ∈ uses_params) then splitparams url else url in
    Some (mkParse sch loc url).

End UrlParse.

(** ** Domain derivation: [get_domain] *)
Module Domain.
Import PyStr UrlParse.

(** [parts[-2:]] *)
Definition last_two (parts : list string) : list string :=
  List.skipn (List.length parts - 2) parts.

(** The part of [get_domain] after [urlparse]. *)
Definition domain_of_netloc (loc : string) : string :=
  let netloc := match split ":" (replace "www." "" loc) with
                | h :: _ => h
                | [] => EmptyString
                end in
  let parts := split "." netloc in
  if 2 <=? List.length parts then join_with "." (last_two parts) else netloc.

(** [get_domain(url)]; [None] when [urlparse] raises. *)
Definition get_domain (url : string) : option string :=
  match urlparse url with
  | Some parsed => Some (domain_of_netloc (netloc parsed))
  | None => None
  end.

End Domain.



(** ** Year resolution: the last lines of the [try] block of [save_file]
    that choose [year] *)
Module Year.

(** [min(l)] on a non-empty list of [str]: the running minimum is
    replaced only by a strictly smaller item. *)
Fixpoint py_min (cur : string) (l : list string) : string :=
  match l with
  | [] => cur
  | y :: l' => py_min (if PyStr.ltb y cur then y else cur) l'
  end.

Fixpoint digits_of (fuel n : nat) (acc : string) : string :=
  match fuel with
  | 0 => acc
  | S f =>
      let acc' := String (PyStr.chr (48 + n mod 10)) acc in
      if n / 10 =? 0 then acc' else digits_of f (n / 10) acc'
  end.

(** [datetime.now().strftime('%Y')]: the year number in decimal, as glibc
    prints it. *)
Definition strftime_Y (year : nat) : string := digits_of (S year) year EmptyString.

(** A string of four ASCII digits. *)
Definition four_digits (s : string) : bool :=
  (String.length s =? 4) && UrlParse.all_chars PyStr.is_digit s.

(** The number a string of ASCII digits denotes, read from the left as
    Python's [int(s)] reads it: [None] for the empty string and for any
    other character. *)
Fixpoint value_from (acc : nat) (s : string) : option nat :=
  match s with
  | EmptyString => Some acc
  | String c s' =>
      if PyStr.is_digit c then value_from (10 * acc + (PyStr.ord c - 48)) s' else None
  end.

Definition decimal_value (s : string) : option nat :=
  if PyStr.nonempty s then value_from 0 s else None.

(** [[y for y in [...] if y is not None]] *)
Definition not_none (l : list (option string)) : list string := omap id l.

(** [min(year_candidates) if year_candidates else datetime.now().strftime('%Y')] *)
Definition resolve_year (candidates : list (option string)) (now_year : nat) : string :=
  match not_none candidates with
  | [] => strftime_Y now_year
  | y :: l => py_min y l
  end.

End Year.



(** ** The world the crawler runs in *)

(** Python [bytes]: one character per byte. *)
Abbreviation bytes := string (only parsing).

(** A document opened by PyMuPDF.  [page_texts] is [None] when reading
    the pages raises. *)
Record PdfDoc := mkPdfDoc {
  is_encrypted : bool;
  metadata : gmap string string;
  page_texts : option (list string)
}.

(** What the crawler reads from a [requests] response. *)
Record Response := mkResponse {
  status_code : nat;
  content_type_header : option string;
  content : bytes;
  text : string
}.

(** What the crawler reads from a parsed page: the [href] of every [a]
    tag that has one, and the [src] (if any) of every [iframe], [object],
    [embed] and [source] tag, in document order. *)
Record Soup := mkSoup {
  anchor_hrefs : list string;
  embed_srcs : list (option string)
}.

(** The dictionary built by [log_download]. *)
Record LogEntry := mkLogEntry {
  log_timestamp : string;
  log_url : string;
  log_domain : string;
  log_year : option string;
  log_file_path : option string
}.

(** External collaborators.  A [nat] argument is the clock of the world
    at the call, so that an answer may change from one call to the next;
    [None] stands for an exception raised by the collaborator. *)
Record Env := mkEnv {
  getcwd : string;
  fitz_open : bytes -> option PdfDoc;
  re_search : string -> bool -> string -> option string;
  md5_hexdigest : string -> string;
  json_dumps : LogEntry -> string;
  now_isoformat : nat -> string;
  now_year : nat -> nat;
  session_get : nat -> string -> option Response;
  render_page : nat -> string -> option string;
  BeautifulSoup : option string -> option Soup;
  urljoin : string -> string -> option string;
  robots_can_fetch : nat -> string -> string -> option bool;
  read_seed_lines : nat -> option (list string);
  shuffle : nat -> list string -> list string;
  launch_browser : nat -> bool
}.

(** A value stored under a Redis key. *)
Inductive rvalue :=
| RList (l : list string)
| RSet (s : gset string).

(** Commands sent to the outside, newest first in the trace. *)
Inductive event :=
| EvDelete (key : string)
| EvLPush (key val : string)
| EvRPush (key val : string)
| EvLPop (key : string) (res : option string)
| EvSAdd (key val : string)
| EvSleep
| EvGet (url : string)
| EvGoto (url : string)
| EvRobots (robots_url : string)
| EvBrowserClose.

(** The file system below the output directory: the directories that
    exist and the regular files with their contents.  A call fails on a
    clash of kinds (a file where a directory is needed or the reverse) or
    on a missing file; missing parents are not tracked, the code creates
    them right before. *)
Record FS := mkFS {
  dirs : gset string;
  files : gmap string bytes
}.

Record World := mkWorld {
  redis : gmap string rvalue;
  fs : FS;
  allowed_domains : gset string;
  clock : nat;
  trace : list event
}.

(** Python exceptions, by class name. *)
Inductive exn := Exn (name : string).

Inductive result (A : Type) :=
| Ok (a : A)
| Raise (e : exn).
Arguments Ok {A} a.
Arguments Raise {A} e.

(** A computation reads and changes the world and returns or raises; the
    changes made before a [raise] stay. *)
Definition M (A : Type) : Type := World -> result A * World.

Definition ret {A} (a : A) : M A := fun w => (Ok a, w).

Definition raise {A} (name : string) : M A := fun w => (Raise (Exn name), w).

Definition bind {A B} (m : M A) (k : A -> M B) : M B :=
  fun w => match m w with
           | (Ok a, w') => k a w'
           | (Raise e, w') => (Raise e, w')
           end.

(** [try: m except Exception as e: h e] *)
Definition catch {A} (m : M A) (h : exn -> M A) : M A :=
  fun w => match m w with
           | (Ok a, w') => (Ok a, w')
           | (Raise e, w') => h e w'
           end.

(** [try: m finally: f] *)
Definition finally {A} (m : M A) (f : M unit) : M A :=
  fun w => match m w with
           | (r, w') =>
               match f w' with
               | (Ok _, w'') => (r, w'')
               | (Raise e, w'') => (Raise e, w'')
               end
           end.

Declare Scope crawl_scope.
Delimit Scope crawl_scope with crawl.
Notation "'let*' x ':=' m 'in' k" := (bind m (fun x => k))
  (at level 10, x name, m at level 100, k at level 200) : crawl_scope.
Notation "m ;; k" := (bind m (fun _ => k))
  (at level 100, k at level 200, right associativity) : crawl_scope.
Local Open Scope crawl_scope.

(** [for x in l: body x] *)
Fixpoint for_each {A} (l : list A) (body : A -> M unit) : M unit :=
  match l with
  | [] => ret tt
  | x :: l' => body x ;; for_each l' body
  end.

Definition get_world : M World := fun w => (Ok w, w).

Definition emit (e : event) : M unit :=
  fun w => (Ok tt, mkWorld (redis w) (fs w) (allowed_domains w) (clock w) (e :: trace w)).

Definition tick : M nat :=
  fun w => (Ok (clock w), mkWorld (redis w) (fs w) (allowed_domains w) (S (clock w)) (trace w)).

Definition set_redis (db : gmap string rvalue) : M unit :=
  fun w => (Ok tt, mkWorld db (fs w) (allowed_domains w) (clock w) (trace w)).

(** The world with another file system. *)
Definition with_fs (w : World) (f : FS) : World :=
  mkWorld (redis w) f (allowed_domains w) (clock w) (trace w).

Definition set_fs (f : FS) : M unit := fun w => (Ok tt, with_fs w f).

Definition set_allowed_domains (d : gset string) : M unit :=
  fun w => (Ok tt, mkWorld (redis w) (fs w) d (clock w) (trace w)).

(** An optional answer of a collaborator: [None] raises. *)
Definition from_option {A} (name : string) (o : option A) : M A :=
  match o with
  | Some a => ret a
  | None => raise name
  end.

(** ** The Redis client: the commands the crawler sends

    A command on a key that holds the other kind of value raises
    (WRONGTYPE); a list that becomes empty disappears, as in Redis.  The
    connection is taken to be reliable and the crawler to be the only
    client of the store. *)
Module Redis.

Definition delete (key : string) : M unit :=
  let* w := get_world in
  set_redis (base.delete key (redis w)) ;;
  emit (EvDelete key).

Definition sismember (key val : string) : M bool :=
  let* w := get_world in
  match redis w !! key with
  | None => ret false
  | Some (RSet s) => ret (bool_decide (val ∈ s))
  | Some (RList _) => raise "ResponseError"
  end.

Definition sadd (key val : string) : M unit :=
  let* w := get_world in
  match redis w !! key with
  | None => set_redis (<[key := RSet {[val]}]> (redis w)) ;; emit (EvSAdd key val)
  | Some (RSet s) => set_redis (<[key := RSet ({[val]} ∪ s)]> (redis w)) ;; emit (EvSAdd key val)
  | Some (RList _) => raise "ResponseError"
  end.

Definition lpush (key val : string) : M unit :=
  let* w := get_world in
  match redis w !! key with
  | None => set_redis (<[key := RList [val]]> (redis w)) ;; emit (EvLPush key val)
  | Some (RList l) => set_redis (<[key := RList (val :: l)]> (redis w)) ;; emit (EvLPush key val)
  | Some (RSet _) => raise "ResponseError"
  end.

Definition rpush (key val : string) : M unit :=
  let* w := get_world in
  match redis w !! key with
  | None => set_redis (<[key := RList [val]]> (redis w)) ;; emit (EvRPush key val)
  | Some (RList l) => set_redis (<[key := RList (l ++ [val])]> (redis w)) ;; emit (EvRPush key val)
  | Some (RSet _) => raise "ResponseError"
  end.

Definition lpop (key : string) : M (option string) :=
  let* w := get_world in
  match redis w !! key with
  | None => emit (EvLPop key None) ;; ret None
  | Some (RList []) => emit (EvLPop key None) ;; ret None
  | Some (RList (x :: l)) =>
      set_redis (match l with
                 | [] => base.delete key (redis w)
                 | _ => <[key := RList l]> (redis w)
                 end) ;;
      emit (EvLPop key (Some x)) ;;
      ret (Some x)
  | Some (RSet _) => raise "ResponseError"
  end.

End Redis.

(** ** [os.path] on POSIX paths *)
Module Path.
Import PyStr.

(** [os.path.join(a, b)] *)
Definition join (a b : string) : string :=
  if startswith b "/" then b
  else if negb (nonempty a) || endswith a "/" then a +:+ b
  else a +:+ "/" +:+ b.

(** [os.path.basename(p)] *)
Definition basename (p : string) : string :=
  match rcut "/" p with
  | Some (_, b) => b
  | None => p
  end.

(** [os.path.splitext(p)[1]]: from the last dot of the base name, unless
    only dots come before it. *)
Definition splitext_ext (p : string) : string :=
  let b := basename p in
  match rcut "." b with
  | Some (stem, ext) =>
      if UrlParse.all_chars (fun c => char_eqb c ".") stem then EmptyString
      else "." +:+ ext
  | None => EmptyString
  end.

(** The prefixes of [p] that end right before a [/]. *)
Fixpoint cuts (p : string) : list string :=
  match p with
  | EmptyString => []
  | String c p' =>
      (if char_eqb c "/" then [EmptyString] else []) ++ map (String c) (cuts p')
  end.

(** The directories above [p]. *)
Definition ancestors (p : string) : list string :=
  List.filter nonempty (cuts p).

(** The directories [os.makedirs(p, exist_ok=True)] makes sure exist. *)
Definition creates (p : string) : list string := p :: ancestors p.

End Path.

(** ** [os] calls on the modelled file system *)
Module Os.

Definition is_file (f : FS) (p : string) : bool := bool_decide (is_Some (files f !! p)).
Definition is_dir (f : FS) (p : string) : bool := bool_decide (p ∈ dirs f).

(** [os.makedirs(p, exist_ok=True)] *)
Definition makedirs (p : string) : M unit :=
  let* w := get_world in
  if existsb (is_file (fs w)) (Path.creates p) then raise "FileExistsError"
  else set_fs (mkFS (list_to_set (Path.creates p) ∪ dirs (fs w)) (files (fs w))).

(** [with open(p, 'wb') as f: f.write(data)] *)
Definition write_file (p : string) (data : bytes) : M unit :=
  let* w := get_world in
  if is_dir (fs w) p then raise "IsADirectoryError"
  else set_fs (mkFS (dirs (fs w)) (<[p := data]> (files (fs w)))).

(** [os.path.getsize(p)] *)
Definition getsize (p : string) : M nat :=
  let* w := get_world in
  match files (fs w) !! p with
  | Some data => ret (String.length data)
  | None => raise "FileNotFoundError"
  end.

(** [os.remove(p)] *)
Definition remove (p : string) : M unit :=
  let* w := get_world in
  match files (fs w) !! p with
  | Some _ => set_fs (mkFS (dirs (fs w)) (base.delete p (files (fs w))))
  | None => raise "FileNotFoundError"
  end.

(** [os.rename(src, dst)] for a regular file [src]: [dst] is replaced in
    one step. *)
Definition rename (src dst : string) : M unit :=
  let* w := get_world in
  match files (fs w) !! src with
  | Some data =>
      if is_dir (fs w) dst then raise "IsADirectoryError"
      else set_fs (mkFS (dirs (fs w)) (<[dst := data]> (base.delete src (files (fs w)))))
  | None => raise "FileNotFoundError"
  end.

End Os.

(** ** The class [EnhancedCrawler] *)
Module Crawler.
Import PyStr UrlParse Domain Year.

Definition SUPPORTED_TYPES : list string :=
  ["application/pdf"; "text/xml"; "application/xml"; "text/html"].

(** The copyright sign, U+00A9. *)
Definition copyright_sign : string := String (chr 169) EmptyString.

Definition copyright_keywords : list string :=
  ["copyright"; copyright_sign; "all rights reserved"].

(** [check_copyright(content)] *)
Definition check_copyright (content : string) : bool :=
  existsb (fun keyword => contains keyword (lower content)) copyright_keywords.

(** The text of [doc[:min(3, len(doc))]]. *)
Definition first_pages_text (pages : list string) : string :=
  String.concat "" (List.firstn 3 pages).

(** [extract_year_from_filename(filename)] and the two searches shared
    with [extract_year_from_url]. *)
Definition version_pattern : string :=
  "(?:v|rev|version|ver)(?:\d{4}|(?:19|20)\d{2}-\d{2}-\d{2})".

Section WithEnv.
Context (env : Env).

(** [OUTPUT_DIR = os.path.join(os.getcwd(), 'data', 'raw')] *)
Definition OUTPUT_DIR : string := Path.join (Path.join (getcwd env) "data") "raw".

(** The year of a version token: the second half of
    [extract_year_from_url] and of [extract_year_from_filename]. *)
Definition version_year (s : string) : option string :=
  match re_search env version_pattern true s with
  | Some version => re_search env "(19|20)\d{2}" false version
  | None => None
  end.

(** The loop of [extract_year_from_pdf] over the two metadata keys.  The
    pattern has one group, so [year_match.group(2)] raises [IndexError]:
    the outer [None] is that exception. *)
Fixpoint metadata_year (md : gmap string string) (keys : list string) : option (option string) :=
  match keys with
  | [] => Some None
  | key :: keys' =>
      match md !! key with
      | Some v =>
          if nonempty v then
            match re_search env "D:?(19|20)\d{2}" false v with
            | Some _ => None
            | None => metadata_year md keys'
            end
          else metadata_year md keys'
      | None => metadata_year md keys'
      end
  end.

(** [extract_year_from_pdf(pdf_path)], given what the file holds
    ([None]: no such file). *)
Definition extract_year_from_pdf (file : option bytes) : option string :=
  match file ≫= fitz_open env with
  | Some doc =>
      if is_encrypted doc then None
      else match metadata_year (metadata doc) ["creationDate"; "modDate"] with
           | Some y => y
           | None => None
           end
  | None => None
  end.

(** [extract_year_from_content(pdf_path)] *)
Definition extract_year_from_content (file : option bytes) : option string :=
  match file ≫= fitz_open env with
  | Some doc =>
      match page_texts doc with
      | Some pages =>
          let text := first_pages_text pages in
          match re_search env "\b(19|20)\d{2}\b" false text with
          | Some y => Some y
          | None =>
              match re_search env
                      "(?:19|20)\d{2}-(?:0[1-9]|1[0-2])-(?:0[1-9]|[12][0-9]|3[01])"
                      false text with
              | Some d => List.head (split "-" d)
              | None => None
              end
          end
      | None => None
      end
  | None => None
  end.

(** [extract_year_from_url(url)], after [urlparse]. *)
Definition year_from_path (p : string) : option string :=
  match re_search env "/(?:19|20)\d{2}/" false p with
  | Some m => Some (strip_chars "/" m)
  | None => version_year p
  end.

(** [extract_year_from_url(url)] *)
Definition extract_year_from_url (url : string) : M (option string) :=
  let* parsed := from_option "ValueError" (urlparse url) in
  ret (year_from_path (path parsed)).

(** [extract_year_from_filename(filename)] *)
Definition extract_year_from_filename (filename : string) : option string :=
  if negb (nonempty filename) then None
  else match re_search env "\b(19|20)\d{2}\b" false filename with
       | Some y => Some y
       | None => version_year filename
       end.

(** [log_download(url, domain, year, file_path)] *)
Definition log_download (url domain : string) (year file_path : option string) : M unit :=
  let* t := tick in
  let log_entry := mkLogEntry (now_isoformat env t) url domain year file_path in
  Redis.lpush "downloaded_files" (json_dumps env log_entry).

(** The file name chosen by [save_file]. *)
Definition save_filename (parsed : ParseResult) (url content_type : string) : string :=
  let filename := Path.basename (path parsed) in
  let filename := if nonempty filename then filename else md5_hexdigest env url in
  match re_search env "\.\w+$" false filename with
  | Some _ => filename
  | None =>
      if contains "pdf" content_type then filename +:+ ".pdf"
      else if contains "xml" content_type then filename +:+ ".xml"
      else
        let ext := Path.splitext_ext (path parsed) in
        filename +:+ (if nonempty ext then ext else ".bin")
  end.

(** [save_file(content, domain, url, content_type)] *)
Definition save_file (content : bytes) (domain url content_type : string)
  : M (option string * option string) :=
  catch
    (let domain_dir := Path.join OUTPUT_DIR domain in
     Os.makedirs domain_dir ;;
     let* parsed := from_option "ValueError" (urlparse url) in
     let filename := save_filename parsed url content_type in
     let temp_path := Path.join domain_dir "temp_download" in
     Os.write_file temp_path content ;;
     let* file_size := Os.getsize temp_path in
     if file_size <? 50 then
       Os.remove temp_path ;;
       ret (None, None)
     else
       let* file_size := Os.getsize temp_path in
       let* w := get_world in
       let year_metadata := extract_year_from_pdf (files (fs w) !! temp_path) in
       let year_content := extract_year_from_content (files (fs w) !! temp_path) in
       let* year_url := extract_year_from_url url in
       let year_filename := extract_year_from_filename filename in
       let* t := tick in
       let year := resolve_year [year_metadata; year_content; year_url; year_filename]
                     (now_year env t) in
       let year_dir := Path.join domain_dir year in
       Os.makedirs year_dir ;;
       let final_path := Path.join year_dir filename in
       Os.rename temp_path final_path ;;
       ret (Some final_path, Some year))
    (fun _ => ret (None, None)).

(** [handle_javascript_content(url)]: the rendered markup, or [None]
    after any failure of the browser. *)
Definition handle_javascript_content (url : string) : M (option string) :=
  emit (EvGoto url) ;;
  let* t := tick in
  ret (render_page env t url).

(** [self.session.get(url, headers=..., timeout=30, allow_redirects=True)] *)
Definition session_get_url (url : string) : M Response :=
  emit (EvGet url) ;;
  let* t := tick in
  from_option "RequestException" (session_get env t url).

(** [should_download(url, content_type, content)] *)
Definition should_download (url content_type : string) (content : bytes) : bool :=
  if String.eqb content_type "application/pdf" then
    match fitz_open env content with
    | Some doc =>
        if is_encrypted doc then false
        else match page_texts doc with
             | Some pages =>
                 if check_copyright (first_pages_text pages) then false
                 else bool_decide (content_type ∈ SUPPORTED_TYPES)
             | None => false
             end
    | None => false
    end
  else bool_decide (content_type ∈ SUPPORTED_TYPES).

(** [get_domain(url)] inside a computation. *)
Definition get_domain_m (url : string) : M string :=
  from_option "ValueError" (get_domain url).

(** Modelled from the spec: [get_robots_txt_url], which [can_fetch] calls
    and the class does not define; the politeness gate of the spec
    fetches [https://<domain>/robots.txt]. *)
Definition get_robots_txt_url (domain : string) : string :=
  "https://" +:+ domain +:+ "/robots.txt".

(** [can_fetch(url)]: the verdict of the robots file, or Python's [None]
    when fetching or parsing it fails. *)
Definition can_fetch (url : string) : M (option bool) :=
  let* domain := get_domain_m url in
  let robots_url := get_robots_txt_url domain in
  catch
    (emit (EvRobots robots_url) ;;
     let* t := tick in
     let* verdict := from_option "URLError" (robots_can_fetch env t robots_url url) in
     ret (Some verdict))
    (fun _ => ret None).

(** [extract_links(soup, base_url)]: the loop over the [a] tags. *)
Fixpoint extract_links_from (hrefs : list string) (base_url : string) : M (list string) :=
  match hrefs with
  | [] => ret []
  | href :: rest =>
      let* link := from_option "ValueError" (urljoin env base_url href) in
      let* parsed := from_option "ValueError" (urlparse link) in
      let* keep :=
        if negb (startswith (scheme parsed) "http" || startswith (scheme parsed) "https")
        then ret false
        else if negb (nonempty (netloc parsed))
                || bool_decide (scheme parsed ∈ ["mailto"; "javascript"])
        then ret false
        else
          let* link_domain := get_domain_m link in
          let* w := get_world in
          ret (bool_decide (link_domain ∈ allowed_domains w)) in
      let* links := extract_links_from rest base_url in
      ret (if keep then link :: links else links)
  end.

Definition extract_links (soup : Soup) (base_url : string) : M (list string) :=
  extract_links_from (anchor_hrefs soup) base_url.

(** [any(ext in s.lower() for ext in ['.pdf', '.xml'])] *)
Definition mentions_document (s : string) : bool :=
  existsb (fun ext => contains ext (lower s)) [".pdf"; ".xml"].

(** The two collecting loops of [check_for_embedded_documents]. *)
Fixpoint embedded_from_srcs (srcs : list (option string)) (url : string) : M (list string) :=
  match srcs with
  | [] => ret []
  | src :: rest =>
      let* here :=
        match src with
        | Some s =>
            if nonempty s && mentions_document s
            then let* l := from_option "ValueError" (urljoin env url s) in ret [l]
            else ret []
        | None => ret []
        end in
      let* more := embedded_from_srcs rest url in
      ret (here ++ more)%list
  end.

Fixpoint embedded_from_hrefs (hrefs : list string) (url : string) : M (list string) :=
  match hrefs with
  | [] => ret []
  | href :: rest =>
      let* here :=
        if mentions_document href
        then let* l := from_option "ValueError" (urljoin env url href) in ret [l]
        else ret [] in
      let* more := embedded_from_hrefs rest url in
      ret (here ++ more)%list
  end.

(** The body of the enqueueing loop of [process_url]. *)
Definition enqueue_link (link : string) : M unit :=
  let* seen := Redis.sismember "seen_urls" link in
  if seen then ret tt
  else
    Redis.rpush "url_queue" link ;;
    Redis.sadd "seen_urls" link.

(** [download_pdf_direct(url, domain)] *)
Definition download_pdf_direct (url domain : string) : M bool :=
  let* response := session_get_url url in
  if negb (status_code response =? 200) then ret false
  else
    let content_type := default EmptyString (content_type_header response) in
    if should_download url content_type (content response) then
      let* saved := save_file (content response) domain url content_type in
      log_download url domain (snd saved) (fst saved) ;;
      ret true
    else ret false.

(** [check_for_embedded_documents(content, domain, url)]; [process] is
    [self.process_url]. *)
Definition check_for_embedded_documents (process : string -> M bool)
    (content : option string) (domain url : string) : M unit :=
  let* soup := from_option "TypeError" (BeautifulSoup env content) in
  let* from_tags := embedded_from_srcs (embed_srcs soup) url in
  let* from_anchors := embedded_from_hrefs (anchor_hrefs soup) url in
  for_each (from_tags ++ from_anchors)%list
    (fun doc_url =>
       let* seen := Redis.sismember "seen_urls" doc_url in
       if seen then ret tt
       else let* success := process doc_url in ret tt).

(** The [try] block of [process_url]. *)
Definition process_url_body (process : string -> M bool) (url : string) : M bool :=
  let* domain := get_domain_m url in
  emit EvSleep ;;
  if endswith (lower url) ".pdf" || endswith (lower url) ".xml" then
    download_pdf_direct url domain
  else
    let* html := handle_javascript_content url in
    let rendered := match html with Some h => nonempty h | None => false end in
    let* soup :=
      if rendered then
        let* s := from_option "ParserError" (BeautifulSoup env html) in ret (Some s)
      else
        let* response := session_get_url url in
        if negb (status_code response =? 200) then ret None
        else
          let* s := from_option "ParserError" (BeautifulSoup env (Some (text response))) in
          ret (Some s) in
    match soup with
    | None => ret false
    | Some soup =>
        let* all_links := extract_links soup url in
        for_each all_links enqueue_link ;;
        check_for_embedded_documents process html domain url ;;
        ret true
    end.

(** [process_url(url)].  [depth] is the room left on the Python stack for
    nested calls of [process_url]; when none is left the interpreter
    raises [RecursionError] inside the [try] block. *)
Fixpoint process_url (depth : nat) (url : string) : M bool :=
  catch
    (match depth with
     | 0 => raise "RecursionError"
     | S d => process_url_body (process_url d) url
     end)
    (fun _ => ret false).

(** [init_browser()] and [cleanup()] *)
Definition init_browser : M unit :=
  let* t := tick in
  if launch_browser env t then ret tt else raise "Error".

Definition cleanup : M unit := emit EvBrowserClose.

(** The body of the seeding loop of [run]. *)
Definition seed_url (url : string) : M unit :=
  if negb (nonempty url) then ret tt
  else
    let* seen := Redis.sismember "seen_urls" url in
    if seen then ret tt
    else
      (if endswith (lower url) ".pdf" then Redis.lpush "url_queue" url
       else Redis.rpush "url_queue" url) ;;
      Redis.sadd "seen_urls" url.

(** [{self.get_domain(url) for url in urls if url}] *)
Fixpoint seed_domains (urls : list string) : M (gset string) :=
  match urls with
  | [] => ret ∅
  | url :: rest =>
      if nonempty url then
        let* d := get_domain_m url in
        let* ds := seed_domains rest in
        ret ({[d]} ∪ ds)
      else seed_domains rest
  end.

(** The fresh-run reset at the top of [run]. *)
Definition reset_frontier : M unit :=
  Redis.delete "url_queue" ;;
  Redis.delete "seen_urls".

(** The seeding part of [run], after the reset. *)
Definition seed_frontier : M unit :=
  let* t := tick in
  let* lines := from_option "OSError" (read_seed_lines env t) in
  let urls := shuffle env t (map strip lines) in
  let* domains := seed_domains urls in
  set_allowed_domains domains ;;
  for_each urls seed_url.

(** One turn of the [while True] loop of [run]. *)
Definition crawl_step (depth : nat) : M unit :=
  let* url := Redis.lpop "url_queue" in
  match url with
  | Some u =>
      if nonempty u then
        let* success := process_url depth (strip u) in
        ret tt
      else emit EvSleep
  | None => emit EvSleep
  end.

(** The first [turns] turns of the loop. *)
Fixpoint crawl_loop (depth turns : nat) : M unit :=
  match turns with
  | 0 => ret tt
  | S k => crawl_step depth ;; crawl_loop depth k
  end.

(** [run()], observed for [turns] turns of its loop. *)
Definition run (depth turns : nat) : M unit :=
  init_browser ;;
  finally
    (reset_frontier ;;
     seed_frontier ;;
     crawl_loop depth turns)
    cleanup.

End WithEnv.
End Crawler.

(** ** The remaining methods of [EnhancedCrawler] *)
Module CrawlerAux.
Import PyStr.

(** [detect_content_type(content)] *)
Definition detect_content_type (content : bytes) : string :=
  if startswith content "%PDF-" then "application/pdf"
  else if startswith content "<?xml" || startswith content "<xml" then "application/xml"
  else if startswith content "<html" || contains "<HTML" (take 100 content) then "text/html"
  else "unknown".

Definition open_access_keywords : list string :=
  ["open access"; "Creative Commons"; "CC BY"; "free to read"].

(** [is_open_access_ieee(html_content)] *)
Definition is_open_access_ieee (html_content : string) : bool :=
  existsb (fun keyword => contains (lower keyword) (lower html_content))
    open_access_keywords.

(** [generate_etsi_pdf_link(standard_type, number_range, number, version,
    format)]; the caller passing no [format] gets ["en"]. *)
Definition generate_etsi_pdf_link
    (standard_type number_range number version format : string) : string :=
  "https://www.etsi.org/deliver/etsi_" +:+ standard_type +:+ "/" +:+ number_range
  +:+ "/" +:+ number +:+ "/" +:+ version +:+ "/" +:+ format
  +:+ "/en_" +:+ number +:+ "v" +:+ version +:+ "p.pdf".

End CrawlerAux.

(** ** What a step of the crawler may do to the frontier store

    Every computation of the crawler is a sequence of the following
    actions on the Redis store and on the trace of commands. *)
Module Steps.
Import Crawler.

(** Events that do not touch the store. *)
Definition local_event (e : event) : bool :=
  match e with
  | EvSleep | EvGet _ | EvGoto _ | EvBrowserClose => true
  | _ => false
  end.

(** The list held by a key that holds a list or nothing. *)
Definition list_at (db : gmap string rvalue) (key : string) : option (list string) :=
  match db !! key with
  | None => Some []
  | Some (RList l) => Some l
  | Some (RSet _) => None
  end.

(** The set held by a key that holds a set or nothing. *)
Definition set_at (db : gmap string rvalue) (key : string) : option (gset string) :=
  match db !! key with
  | None => Some ∅
  | Some (RSet s) => Some s
  | Some (RList _) => None
  end.

Definition push_event (front : bool) (url : string) : event :=
  if front then EvLPush "url_queue" url else EvRPush "url_queue" url.

Definition pushed (front : bool) (url : string) (q : list string) : list string :=
  if front then url :: q else q ++ [url].

Inductive action (w w' : World) : Prop :=
| ActLocal :
    redis w' = redis w -> trace w' = trace w -> action w w'
| ActEmit (e : event) :
    local_event e = true ->
    redis w' = redis w -> trace w' = e :: trace w -> action w w'
| ActLog (entry : string) (log : list string) :
    list_at (redis w) "downloaded_files" = Some log ->
    redis w' = <["downloaded_files" := RList (entry :: log)]> (redis w) ->
    trace w' = EvLPush "downloaded_files" entry :: trace w -> action w w'
| ActEnqueue (front : bool) (url : string) (q : list string) (s : gset string) :
    list_at (redis w) "url_queue" = Some q ->
    set_at (redis w) "seen_urls" = Some s ->
    url ∉ s ->
    redis w' = <["seen_urls" := RSet ({[url]} ∪ s)]>
                 (<["url_queue" := RList (pushed front url q)]> (redis w)) ->
    trace w' = EvSAdd "seen_urls" url :: push_event front url :: trace w ->
    action w w'
| ActDequeueEmpty :
    list_at (redis w) "url_queue" = Some [] ->
    redis w' = redis w -> trace w' = EvLPop "url_queue" None :: trace w -> action w w'
| ActDequeue (url : string) (q : list string) :
    redis w !! "url_queue" = Some (RList (url :: q)) ->
    list_at (redis w') "url_queue" = Some q ->
    (forall key, key <> "url_queue" -> redis w' !! key = redis w !! key) ->
    trace w' = EvLPop "url_queue" (Some url) :: trace w -> action w w'.

(** [does m]: running [m] amounts to a sequence of actions. *)
Definition does {A} (m : M A) : Prop := forall w, rtc action w (m w).2.

(** The URLs pushed on the pending queue and popped from it, newest
    first, read off a trace. *)
Definition enqueued_by (e : event) : option string :=
  match e with
  | EvLPush key url | EvRPush key url =>
      if String.eqb key "url_queue" then Some url else None
  | _ => None
  end.

Definition dequeued_by (e : event) : option string :=
  match e with
  | EvLPop key (Some url) => if String.eqb key "url_queue" then Some url else None
  | _ => None
  end.

Definition enqueued (t : list event) : list string := omap enqueued_by t.
Definition dequeued (t : list event) : list string := omap dequeued_by t.

Definition is_robots_check (e : event) : bool :=
  match e with EvRobots _ => true | _ => false end.

Definition is_fetch (e : event) : bool :=
  match e with EvGet _ | EvGoto _ => true | _ => false end.

(** The frontier invariant, for the events [t] sent since the reset: the
    queue key holds a list, the seen key a set, no URL was pushed twice,
    every pushed URL is in the seen set, and the pushed URLs are the
    popped ones together with those still waiting. *)
Definition frontier_inv (t0 : list event) (w : World) : Prop :=
  exists (t : list event) (q : list string) (s : gset string),
    trace w = (t ++ t0)%list /\
    list_at (redis w) "url_queue" = Some q /\
    set_at (redis w) "seen_urls" = Some s /\
    NoDup (enqueued t) /\
    (forall url, url ∈ enqueued t -> url ∈ s) /\
    enqueued t ≡ₚ (dequeued t ++ q)%list.

(** The events sent since [t0] satisfy [Q]. *)
Definition since (t0 : list event) (Q : list event -> Prop) (w : World) : Prop :=
  exists t : list event, trace w = (t ++ t0)%list /\ Q t.

(** [quiet m]: [m] changes neither the Redis store nor the trace. *)
Definition quiet {A} (m : M A) : Prop :=
  forall w, redis (m w).2 = redis w /\ trace (m w).2 = trace w.

(** The download log only grows at its head. *)
Definition log_extends (db0 db : gmap string rvalue) : Prop :=
  match list_at db0 "downloaded_files" with
  | Some log0 =>
      exists new : list string,
        list_at db "downloaded_files" = Some (new ++ log0)%list
  | None => db !! "downloaded_files" = db0 !! "downloaded_files"
  end.

End Steps.

(** ** What a computation leaves alone *)
Module Frame.
Import Crawler Steps.

(** The world once [session_get_url] has sent its request. *)
Definition after_get (url : string) (w : World) : World :=
  mkWorld (redis w) (fs w) (allowed_domains w) (S (clock w)) (EvGet url :: trace w).

(** [keeps_scope m]: [m] does not assign [self.allowed_domains]. *)
Definition keeps_scope {A} (m : M A) : Prop :=
  forall w, allowed_domains (m w).2 = allowed_domains w.

(** The three keys of the Redis store the crawler uses. *)
Definition crawler_keys : list string := ["url_queue"; "seen_urls"; "downloaded_files"].

(** The worlds agree on every other key. *)
Definition same_elsewhere (w w' : World) : Prop :=
  forall key, key ∉ crawler_keys -> redis w' !! key = redis w !! key.

(** The seen set only grows. *)
Definition seen_grows (w w' : World) : Prop :=
  forall s, set_at (redis w) "seen_urls" = Some s ->
    exists s', set_at (redis w') "seen_urls" = Some s' /\ s ⊆ s'.

(** [url.lower().endswith('.pdf')] and [url.lower().endswith(('.pdf', '.xml'))] *)
Definition is_pdf_url (url : string) : bool := PyStr.endswith (PyStr.lower url) ".pdf".
Definition is_direct_document (url : string) : bool :=
  PyStr.endswith (PyStr.lower url) ".pdf" || PyStr.endswith (PyStr.lower url) ".xml".

(** What has to go well for [process_url] to answer [True]: the URL
    parses; a direct document is fetched with status 200 and passes
    [should_download]; a page is rendered to markup that is not empty, or
    fetched by the fallback GET with status 200, and parsed. *)
Definition fetched_and_accepted (env : Env) (url : string) (w : World) : Prop :=
  exists domain : string,
    Domain.get_domain url = Some domain /\
    if is_direct_document url then
      exists response : Response,
        session_get env (clock w) url = Some response /\
        status_code response = 200 /\
        should_download env url (default EmptyString (content_type_header response))
          (content response) = true
    else
      (exists html : string,
         render_page env (clock w) url = Some html /\ PyStr.nonempty html = true /\
         is_Some (BeautifulSoup env (Some html))) \/
      (exists response : Response,
         session_get env (S (clock w)) url = Some response /\
         status_code response = 200 /\
         is_Some (BeautifulSoup env (Some (text response)))).

(** One poll of an empty queue, newest event first. *)
Definition idle_turn : list event := [EvSleep; EvLPop "url_queue" None].

Definition is_sleep (e : event) : bool :=
  match e with EvSleep => true | _ => false end.

(** The requests (GET or browser navigation) and the sleeps among the
    events [t]. *)
Definition requests (t : list event) : nat := length (List.filter is_fetch t).
Definition sleeps (t : list event) : nat := length (List.filter is_sleep t).

(** [paced k m]: [m] sends at most two requests for each of its sleeps,
    and [k] more. *)
Definition paced (k : nat) {A} (m : M A) : Prop :=
  forall w, exists t : list event,
    trace (m w).2 = (t ++ trace w)%list /\ requests t <= 2 * sleeps t + k.

End Frame.

(** ** A small world for the examples

    The collaborators answer as the real ones do on the inputs of the
    examples: one site with a page that links to a document, and a server
    that sends four bytes of XML. *)
Module Demo.
Import PyStr.

Definition dq : string := String (chr 34) EmptyString.
Definition quoted (s : string) : string := dq +:+ s +:+ dq.
Definition json_opt (o : option string) : string :=
  match o with Some s => quoted s | None => "null" end.

Definition demo_json_dumps (e : LogEntry) : string :=
  "{" +:+ quoted "timestamp" +:+ ": " +:+ quoted (log_timestamp e) +:+ ", "
  +:+ quoted "url" +:+ ": " +:+ quoted (log_url e) +:+ ", "
  +:+ quoted "domain" +:+ ": " +:+ quoted (log_domain e) +:+ ", "
  +:+ quoted "year" +:+ ": " +:+ json_opt (log_year e) +:+ ", "
  +:+ quoted "file_path" +:+ ": " +:+ json_opt (log_file_path e) +:+ "}".

Definition is_word_char (c : ascii) : bool :=
  let n := ord c in
  ((48 <=? n) && (n <=? 57)) || ((65 <=? n) && (n <=? 90))
  || ((97 <=? n) && (n <=? 122)) || (n =? 95).

(** A year segment [/19dd/] or [/20dd/] at the head of [s]. *)
Definition year_segment_here (s : string) : option string :=
  match s with
  | String s0 (String a (String b (String c (String d (String s1 _))))) =>
      if char_eqb s0 "/" && char_eqb s1 "/"
         && ((char_eqb a "1" && char_eqb b "9") || (char_eqb a "2" && char_eqb b "0"))
         && is_digit c && is_digit d
      then Some (String s0 (String a (String b (String c (String d (String s1 EmptyString))))))
      else None
  | _ => None
  end.

Fixpoint find_year_segment (s : string) : option string :=
  match year_segment_here s with
  | Some m => Some m
  | None => match s with
            | EmptyString => None
            | String _ s' => find_year_segment s'
            end
  end.

(** The two patterns the examples meet: a final extension and a year
    segment of a path. *)
Definition demo_re_search (pattern : string) (ignore_case : bool) (s : string)
  : option string :=
  if String.eqb pattern "\.\w+$" then
    match rcut "." s with
    | Some (_, ext) =>
        if nonempty ext && UrlParse.all_chars is_word_char ext
        then Some ("." +:+ ext) else None
    | None => None
    end
  else if String.eqb pattern "/(?:19|20)\d{2}/" then find_year_segment s
  else None.

Definition page_url : string := "https://example.com/index".
Definition other_url : string := "https://example.com/other".
Definition linked_pdf : string := "https://example.com/a.pdf".
Definition small_xml : string := "https://example.com/small.xml".
Definition page_markup : string := "<html><a href='/a.pdf'>report</a></html>".

Definition demo_env : Env := {|
  getcwd := "/srv";
  fitz_open := fun b =>
    if startswith b "%PDF-" then Some (mkPdfDoc false ∅ (Some ["Annual report"]))
    else None;
  re_search := demo_re_search;
  md5_hexdigest := fun _ => "d41d8cd98f00b204e9800998ecf8427e";
  json_dumps := demo_json_dumps;
  now_isoformat := fun _ => "2026-11-03T12:00:00";
  now_year := fun _ => 2026;
  session_get := fun _ url =>
    if String.eqb url small_xml
    then Some (mkResponse 200 (Some "text/xml") "<a/>" "<a/>")
    else None;
  render_page := fun _ url => if String.eqb url page_url then Some page_markup else None;
  BeautifulSoup := fun markup =>
    match markup with
    | Some m => if String.eqb m page_markup then Some (mkSoup ["/a.pdf"] []) else Some (mkSoup [] [])
    | None => None
    end;
  urljoin := fun base href =>
    if startswith href "/" then Some ("https://example.com" +:+ href) else Some href;
  robots_can_fetch := fun _ _ _ => Some true;
  read_seed_lines := fun _ => Some [page_url; page_url; linked_pdf];
  shuffle := fun _ l => l;
  launch_browser := fun _ => true
|}.

Definition empty_world : World := mkWorld ∅ (mkFS ∅ ∅) ∅ 0 [].

(** A frontier with one URL waiting. *)
Definition busy_world : World :=
  mkWorld (<["seen_urls" := RSet {[other_url; page_url]}]>
             (<["url_queue" := RList [other_url]]> ∅))
          (mkFS ∅ ∅) {["example.com"]} 0 [].

(** The same frontier after an earlier run left one entry in the log. *)
Definition logged_world : World :=
  mkWorld (<["downloaded_files" := RList ["{}"]]> (redis busy_world))
          (mkFS ∅ ∅) {["example.com"]} 0 [].

(** A dated document URL and two bodies around the size floor. *)
Definition dated_xml : string := "https://example.com/2022/doc.xml".
Definition fifty_bytes : string := "<?xml version='1.0'?><doc><id>A-1</id>....</doc>  ".
Definition forty_nine_bytes : string := "<?xml version='1.0'?><doc><id>A-1</id>....</doc> ".

(** A document of four pages whose fourth page carries the notice. *)
Definition four_page_env : Env :=
  mkEnv (getcwd demo_env)
    (fun _ => Some (mkPdfDoc false ∅ (Some ["Title"; "Scope"; "Terms"; "Copyright ACME"])))
    (re_search demo_env) (md5_hexdigest demo_env) (json_dumps demo_env)
    (now_isoformat demo_env) (now_year demo_env) (session_get demo_env)
    (render_page demo_env) (BeautifulSoup demo_env) (urljoin demo_env)
    (robots_can_fetch demo_env) (read_seed_lines demo_env) (shuffle demo_env)
    (launch_browser demo_env).

(** A seed whose host opens a bracket and never closes it, and a seed
    file that holds it. *)
Definition bad_seed : string := "http://[example.com/x".

Definition bad_seed_env : Env :=
  mkEnv (getcwd demo_env) (fitz_open demo_env)
    (re_search demo_env) (md5_hexdigest demo_env) (json_dumps demo_env)
    (now_isoformat demo_env) (now_year demo_env) (session_get demo_env)
    (render_page demo_env) (BeautifulSoup demo_env) (urljoin demo_env)
    (robots_can_fetch demo_env) (fun _ => Some [page_url; bad_seed]) (shuffle demo_env)
    (launch_browser demo_env).

(** A file system in which a regular file stands where the directory of
    the domain [example.com] should be. *)
Definition blocked_world : World :=
  mkWorld ∅ (mkFS ∅ {["/srv/data/raw/example.com" := "not a directory"]}) ∅ 0 [].

(** A site whose pages the browser cannot render and the plain GET
    can fetch. *)
Definition fallback_env : Env :=
  mkEnv (getcwd demo_env) (fitz_open demo_env)
    (re_search demo_env) (md5_hexdigest demo_env) (json_dumps demo_env)
    (now_isoformat demo_env) (now_year demo_env)
    (fun _ url =>
       if String.eqb url page_url
       then Some (mkResponse 200 (Some "text/html") page_markup page_markup)
       else None)
    (fun _ _ => None) (BeautifulSoup demo_env) (urljoin demo_env)
    (robots_can_fetch demo_env) (read_seed_lines demo_env) (shuffle demo_env)
    (launch_browser demo_env).

End Demo.

(** * Facts *)

(** ** Python strings: order, containment, lower case *)
Module StrFacts.

Lemma ltb_lt (a b : string) : String.ltb a b = true <-> String_as_OT.lt a b.
Proof.
  unfold String.ltb. rewrite <- String_as_OT.cmp_lt. unfold String_as_OT.cmp.
  destruct (String.compare a b); split; congruence.
Qed.

Lemma ltb_trans (a b c : string) :
  String.ltb a b = true -> String.ltb b c = true -> String.ltb a c = true.
Proof. rewrite !ltb_lt. apply String_as_OT.lt_trans. Qed.

(** [b <= c] and [a < b] give [a < c]. *)
Lemma ltb_leb_trans (a b c : string) :
  String.ltb a b = true -> String.ltb c b = false -> String.ltb a c = true.
Proof.
  intros Hab Hcb. unfold String.ltb in Hcb.
  destruct (String.compare c b) eqn:E; try discriminate.
  - apply String.compare_eq_iff in E. by subst.
  - rewrite String.compare_antisym in E.
    apply (ltb_trans a b c Hab). unfold String.ltb.
    destruct (String.compare b c); simpl in E; congruence.
Qed.

Lemma leb_ltb (a b : string) : String.leb a b = negb (String.ltb b a).
Proof.
  unfold String.leb, String.ltb. rewrite String.compare_antisym.
  by destruct (String.compare b a).
Qed.

Lemma app_cons (c : ascii) (a b : string) : String c a +:+ b = String c (a +:+ b).
Proof. reflexivity. Qed.

Lemma app_nil (b : string) : EmptyString +:+ b = b.
Proof. reflexivity. Qed.

Lemma prefix_app (p s : string) :
  String.prefix p s = true <-> exists post, s = p +:+ post.
Proof.
  revert s. induction p as [|c p IH]; intros s; simpl.
  - destruct s; split; eauto.
  - destruct s as [|d s]; simpl.
    + split; [done | intros [post H]; discriminate].
    + destruct (Ascii.ascii_dec c d) as [->|Hne].
      * rewrite IH. split; intros [post H]; exists post; rewrite app_cons in *; congruence.
      * split; [done|]. intros [post H]. rewrite app_cons in H. congruence.
Qed.

Lemma contains_app (sub s : string) :
  PyStr.contains sub s = true <-> exists pre post, s = pre +:+ sub +:+ post.
Proof.
  induction s as [|c s IH]; cbn [PyStr.contains]; unfold PyStr.startswith.
  - rewrite orb_false_r, prefix_app. split.
    + intros [post H]. by exists EmptyString, post.
    + intros (pre & post & H). destruct pre; [by exists post | discriminate].
  - rewrite orb_true_iff, prefix_app, IH. split.
    + intros [[post H]|(pre & post & H)].
      * by exists EmptyString, post.
      * exists (String c pre), post. by rewrite app_cons, H.
    + intros (pre & post & H). destruct pre as [|d pre].
      * left. by exists post.
      * right. exists pre, post. rewrite app_cons in H. congruence.
Qed.

Lemma lower_app (a b : string) :
  PyStr.lower (a +:+ b) = PyStr.lower a +:+ PyStr.lower b.
Proof. induction a as [|c a IH]; [done|]. rewrite app_cons. simpl. by rewrite IH. Qed.

Lemma lower_split (s x y : string) :
  PyStr.lower s = x +:+ y ->
  exists a b, s = a +:+ b /\ PyStr.lower a = x /\ PyStr.lower b = y.
Proof.
  revert s. induction x as [|c x IH]; intros s H.
  - by exists EmptyString, s.
  - rewrite app_cons in H. destruct s as [|d s]; simpl in H; [discriminate|].
    injection H as Hc Hs. destruct (IH s Hs) as (a & b & -> & Ha & Hb).
    exists (String d a), b. simpl. by rewrite Hc, Ha, Hb.
Qed.

(** Containment in the lower-cased text is containment up to case. *)
Lemma contains_lower (kw text : string) :
  PyStr.contains kw (PyStr.lower text) = true <->
  exists pre mid post, text = pre +:+ mid +:+ post /\ PyStr.lower mid = kw.
Proof.
  rewrite contains_app. split.
  - intros (x & y & H). apply lower_split in H as (pre & rest & -> & _ & H).
    apply lower_split in H as (mid & post & -> & Hm & _). by exists pre, mid, post.
  - intros (pre & mid & post & -> & <-).
    exists (PyStr.lower pre), (PyStr.lower post). by rewrite !lower_app.
Qed.

End StrFacts.

(** ** Year resolution *)
Module YearFacts.
Import Year StrFacts.

Ltac mem := eauto 6 using list_elem_of_here, list_elem_of_further.

Lemma py_min_spec (l : list string) (cur : string) :
  py_min cur l ∈ cur :: l /\
  forall c, c ∈ cur :: l -> String.ltb c (py_min cur l) = false.
Proof.
  revert cur. induction l as [|y l IH]; intros cur; simpl.
  - split; [mem|]. intros c ->%list_elem_of_singleton.
    destruct (String.ltb cur cur) eqn:E; [|done].
    apply ltb_lt, String_as_OT.lt_not_eq in E. by destruct E.
  - unfold PyStr.ltb. destruct (IH (if String.ltb y cur then y else cur)) as [Hin Hmin].
    set (m := if String.ltb y cur then y else cur) in *.
    split.
    + apply elem_of_cons in Hin as [Hin|Hin]; [|mem].
      rewrite Hin. subst m. destruct (String.ltb y cur); mem.
    + intros c Hc. apply elem_of_cons in Hc as [->|Hc].
      * destruct (String.ltb cur (py_min m l)) eqn:E; [|done].
        subst m. destruct (String.ltb y cur) eqn:Ey.
        -- rewrite <- (Hmin y) by mem. symmetry. by eapply ltb_trans.
        -- rewrite <- (Hmin cur) by mem. done.
      * apply elem_of_cons in Hc as [->|Hc]; [|apply Hmin; mem].
        destruct (String.ltb y (py_min m l)) eqn:E; [|done].
        subst m. destruct (String.ltb y cur) eqn:Ey.
        -- rewrite <- (Hmin y) by mem. done.
        -- rewrite <- Ey. symmetry. eapply ltb_leb_trans; [exact E|].
           apply Hmin. mem.
Qed.

Lemma strftime_Y_four_digits_table :
  forallb (fun y => Year.four_digits (strftime_Y y)) (seq (10 * 100) (90 * 100)) = true.
Proof. vm_compute. reflexivity. Qed.

Lemma strftime_Y_four_digits (y : nat) :
  10 * 100 <= y < 100 * 100 -> Year.four_digits (strftime_Y y) = true.
Proof.
  intros Hy. pose proof strftime_Y_four_digits_table as H.
  rewrite forallb_forall in H. apply H, in_seq. lia.
Qed.

End YearFacts.


(** ** Every computation of the crawler is a sequence of actions *)
Module StepFacts.
Import Crawler Steps.

Lemma does_ret {A} (a : A) : does (ret a).
Proof. intros w. apply rtc_refl. Qed.

Lemma does_raise {A} (name : string) : does (@raise A name).
Proof. intros w. apply rtc_refl. Qed.

Lemma does_get_world : does get_world.
Proof. intros w. apply rtc_refl. Qed.

Lemma does_bind {A B} (m : M A) (k : A -> M B) :
  does m -> (forall a, does (k a)) -> does (bind m k).
Proof.
  intros Hm Hk w. unfold bind. specialize (Hm w).
  destruct (m w) as [[a|e] w1]; simpl in *; [|exact Hm].
  etransitivity; [exact Hm | apply Hk].
Qed.

Lemma does_catch {A} (m : M A) (h : exn -> M A) :
  does m -> (forall e, does (h e)) -> does (catch m h).
Proof.
  intros Hm Hh w. unfold catch. specialize (Hm w).
  destruct (m w) as [[a|e] w1]; simpl in *; [exact Hm|].
  etransitivity; [exact Hm | apply Hh].
Qed.

Lemma does_finally {A} (m : M A) (f : M unit) :
  does m -> does f -> does (finally m f).
Proof.
  intros Hm Hf w. unfold finally. specialize (Hm w).
  destruct (m w) as [r w1]; simpl in *. specialize (Hf w1).
  destruct (f w1) as [[[]|e] w2]; simpl in *; etransitivity; eauto.
Qed.

Lemma does_for_each {A} (l : list A) (body : A -> M unit) :
  (forall x, does (body x)) -> does (for_each l body).
Proof.
  intros Hb. induction l as [|x l IH]; simpl.
  - apply does_ret.
  - apply does_bind; [apply Hb | intros _; exact IH].
Qed.

Lemma does_from_option {A} (name : string) (o : option A) : does (from_option name o).
Proof. destruct o; [apply does_ret | apply does_raise]. Qed.

Lemma does_local {A} (m : M A) :
  (forall w, redis (m w).2 = redis w /\ trace (m w).2 = trace w) -> does m.
Proof. intros H w. apply rtc_once. destruct (H w). by apply ActLocal. Qed.

Lemma does_tick : does tick.
Proof. by apply does_local. Qed.

Lemma does_set_fs (f : FS) : does (set_fs f).
Proof. by apply does_local. Qed.

Lemma does_set_allowed_domains (d : gset string) : does (set_allowed_domains d).
Proof. by apply does_local. Qed.

Lemma does_emit (e : event) : local_event e = true -> does (emit e).
Proof. intros He w. apply rtc_once. by apply (ActEmit _ _ e). Qed.

Create HintDb does discriminated.
#[export] Hint Resolve does_ret does_raise does_get_world does_from_option
  does_tick does_set_fs does_set_allowed_domains : does.

(** One structural step of a proof of [does]. *)
Ltac does_step :=
  lazymatch goal with
  | |- does (bind _ _) => apply does_bind; [|intros ?]
  | |- does (catch _ _) => apply does_catch; [|intros ?]
  | |- does (for_each _ _) => apply does_for_each; intros ?
  | |- does (emit _) => apply does_emit; reflexivity
  | |- does (if ?b then _ else _) => destruct b
  | |- does (match ?x with _ => _ end) => destruct x
  | |- does (let _ := _ in _) => cbv zeta
  | |- _ => solve [auto with does]
  end.

Ltac does_auto := repeat does_step.

Lemma does_makedirs (p : string) : does (Os.makedirs p).
Proof. unfold Os.makedirs. does_auto. Qed.

Lemma does_write_file (p : string) (data : bytes) : does (Os.write_file p data).
Proof. unfold Os.write_file. does_auto. Qed.

Lemma does_getsize (p : string) : does (Os.getsize p).
Proof. unfold Os.getsize. does_auto. Qed.

Lemma does_remove (p : string) : does (Os.remove p).
Proof. unfold Os.remove. does_auto. Qed.

Lemma does_rename (src dst : string) : does (Os.rename src dst).
Proof. unfold Os.rename. does_auto. Qed.

Lemma does_sismember (key val : string) : does (Redis.sismember key val).
Proof. unfold Redis.sismember. does_auto. Qed.

#[export] Hint Resolve does_makedirs does_write_file does_getsize does_remove
  does_rename does_sismember : does.


(** What the two commands of a guarded enqueue leave behind. *)
Lemma push_then_sadd (front : bool) (url : string) (w : World)
    (q : list string) (s : gset string) :
  list_at (redis w) "url_queue" = Some q ->
  set_at (redis w) "seen_urls" = Some s ->
  ((if front then Redis.lpush "url_queue" url else Redis.rpush "url_queue" url) ;;
   Redis.sadd "seen_urls" url) w
  = (Ok tt,
     mkWorld (<["seen_urls" := RSet ({[url]} ∪ s)]>
                (<["url_queue" := RList (pushed front url q)]> (redis w)))
             (fs w) (allowed_domains w) (clock w)
             (EvSAdd "seen_urls" url :: push_event front url :: trace w)).
Proof.
  unfold list_at, set_at. intros Hq Hs.
  assert (Hne : "url_queue" <> "seen_urls") by done.
  destruct front; unfold bind, Redis.lpush, Redis.rpush, Redis.sadd, bind, get_world,
    set_redis, emit, ret; cbn [redis fs allowed_domains clock trace];
    destruct (redis w !! "url_queue") as [[l|?]|] eqn:Eq; try discriminate;
    injection Hq as <-; cbn [redis fs allowed_domains clock trace];
    rewrite (lookup_insert_ne _ _ _ _ Hne);
    destruct (redis w !! "seen_urls") as [[?|s0]|] eqn:Es; try discriminate;
    injection Hs as <-; cbn [redis fs allowed_domains clock trace pushed push_event];
    rewrite ?union_empty_r_L; reflexivity.
Qed.

Lemma bind_eq {A B} (m : M A) (k : A -> M B) (w : World) :
  bind m k w = match m w with
               | (Ok a, w') => k a w'
               | (Raise e, w') => (Raise e, w')
               end.
Proof. reflexivity. Qed.

Lemma push_wrongtype (front : bool) (url : string) (w : World) :
  list_at (redis w) "url_queue" = None ->
  ((if front then Redis.lpush "url_queue" url else Redis.rpush "url_queue" url) ;;
   Redis.sadd "seen_urls" url) w
  = (Raise (Exn "ResponseError"), w).
Proof.
  unfold list_at. intros Hq.
  destruct front; unfold Redis.lpush, Redis.rpush, get_world, bind, raise;
    destruct (redis w !! "url_queue") as [[l|?]|]; try discriminate; reflexivity.
Qed.

Lemma sismember_run (key val : string) (w : World) :
  Redis.sismember key val w
  = (match set_at (redis w) key with
     | Some s => Ok (bool_decide (val ∈ s))
     | None => Raise (Exn "ResponseError")
     end, w).
Proof.
  unfold Redis.sismember, set_at, bind, get_world.
  destruct (redis w !! key) as [[l|s]|]; try reflexivity.
Qed.

Lemma does_lpush_log (entry : string) : does (Redis.lpush "downloaded_files" entry).
Proof.
  intros w. unfold Redis.lpush, bind, get_world, set_redis, emit, ret.
  destruct (redis w !! "downloaded_files") as [[l|s]|] eqn:E; cbn.
  - apply rtc_once, (ActLog _ _ entry l); try done. unfold list_at; by rewrite E.
  - apply rtc_refl.
  - apply rtc_once, (ActLog _ _ entry []); try done. unfold list_at; by rewrite E.
Qed.

Lemma does_guarded_push (front : bool) (url : string) :
  does (let* seen := Redis.sismember "seen_urls" url in
        if seen then ret tt
        else (if front then Redis.lpush "url_queue" url else Redis.rpush "url_queue" url) ;;
             Redis.sadd "seen_urls" url).
Proof.
  intros w. rewrite bind_eq, sismember_run.
  destruct (set_at (redis w) "seen_urls") as [s|] eqn:Hs; [|apply rtc_refl].
  case_bool_decide as Hin; [apply rtc_refl|].
  destruct (list_at (redis w) "url_queue") as [q|] eqn:Hq.
  - rewrite (push_then_sadd front url w q s Hq Hs).
    apply rtc_once, (ActEnqueue _ _ front url q s); done.
  - rewrite (push_wrongtype front url w Hq). apply rtc_refl.
Qed.

Lemma does_enqueue_link (link : string) : does (enqueue_link link).
Proof. apply (does_guarded_push false). Qed.

Lemma does_seed_url (url : string) : does (seed_url url).
Proof.
  unfold seed_url. destruct (negb (PyStr.nonempty url)); [apply does_ret|].
  destruct (PyStr.endswith (PyStr.lower url) ".pdf").
  - apply (does_guarded_push true).
  - apply (does_guarded_push false).
Qed.

Lemma does_lpop_queue : does (Redis.lpop "url_queue").
Proof.
  intros w. unfold Redis.lpop, bind, get_world, set_redis, emit, ret.
  destruct (redis w !! "url_queue") as [[[|x l]|s]|] eqn:E; cbn.
  - apply rtc_once, ActDequeueEmpty; try done. unfold list_at; by rewrite E.
  - apply rtc_once, (ActDequeue _ _ x l); try done; cbn.
    + unfold list_at. destruct l.
      * by rewrite lookup_delete_eq.
      * by rewrite lookup_insert_eq.
    + intros key Hkey. destruct l.
      * by rewrite lookup_delete_ne.
      * by rewrite lookup_insert_ne.
  - apply rtc_refl.
  - apply rtc_once, ActDequeueEmpty; try done. unfold list_at; by rewrite E.
Qed.

#[export] Hint Resolve does_lpush_log does_enqueue_link does_seed_url does_lpop_queue : does.

Section Traversal.
Context (env : Env).

Lemma does_log_download (url domain : string) (year file_path : option string) :
  does (log_download env url domain year file_path).
Proof. unfold log_download. does_auto. Qed.

Lemma does_extract_year_from_url (url : string) : does (extract_year_from_url env url).
Proof. unfold extract_year_from_url. does_auto. Qed.

Hint Resolve does_log_download does_extract_year_from_url : does.

Lemma does_save_file (data : bytes) (domain url content_type : string) :
  does (save_file env data domain url content_type).
Proof. unfold save_file. does_auto. Qed.

Lemma does_session_get_url (url : string) : does (session_get_url env url).
Proof. unfold session_get_url. does_auto. Qed.

Lemma does_handle_javascript_content (url : string) :
  does (handle_javascript_content env url).
Proof. unfold handle_javascript_content. does_auto. Qed.

Hint Resolve does_save_file does_session_get_url does_handle_javascript_content : does.

Lemma does_download_pdf_direct (url domain : string) :
  does (download_pdf_direct env url domain).
Proof. unfold download_pdf_direct. does_auto. Qed.

Lemma does_get_domain_m (url : string) : does (get_domain_m url).
Proof. unfold get_domain_m. does_auto. Qed.

Hint Resolve does_download_pdf_direct does_get_domain_m : does.

Lemma does_extract_links (soup : Soup) (base_url : string) :
  does (extract_links env soup base_url).
Proof.
  unfold extract_links. induction (anchor_hrefs soup) as [|href rest IH]; simpl.
  - apply does_ret.
  - does_auto.
Qed.

Lemma does_embedded_from_srcs (srcs : list (option string)) (url : string) :
  does (embedded_from_srcs env srcs url).
Proof. induction srcs as [|src rest IH]; simpl; does_auto. Qed.

Lemma does_embedded_from_hrefs (hrefs : list string) (url : string) :
  does (embedded_from_hrefs env hrefs url).
Proof. induction hrefs as [|href rest IH]; simpl; does_auto. Qed.

Hint Resolve does_extract_links does_embedded_from_srcs does_embedded_from_hrefs : does.

Lemma does_check_for_embedded_documents (process : string -> M bool)
    (markup : option string) (domain url : string) :
  (forall u, does (process u)) ->
  does (check_for_embedded_documents env process markup domain url).
Proof. intros Hp. unfold check_for_embedded_documents. does_auto. Qed.

Lemma does_process_url_body (process : string -> M bool) (url : string) :
  (forall u, does (process u)) -> does (process_url_body env process url).
Proof.
  intros Hp. unfold process_url_body.
  pose proof (does_check_for_embedded_documents process) as Hc.
  does_auto.
Qed.

Lemma does_process_url (depth : nat) (url : string) : does (process_url env depth url).
Proof.
  revert url. induction depth as [|d IH]; intros url; simpl.
  - does_auto.
  - apply does_catch; [|intros ?; apply does_ret].
    by apply does_process_url_body.
Qed.

Hint Resolve does_process_url : does.

Lemma does_seed_domains (urls : list string) : does (seed_domains urls).
Proof. induction urls as [|url rest IH]; simpl; does_auto. Qed.

Hint Resolve does_seed_domains : does.

Lemma does_seed_frontier : does (seed_frontier env).
Proof. unfold seed_frontier. does_auto. Qed.

Lemma does_crawl_step (depth : nat) : does (crawl_step env depth).
Proof. unfold crawl_step. does_auto. Qed.

Lemma does_crawl_loop (depth turns : nat) : does (crawl_loop env depth turns).
Proof.
  induction turns as [|k IH]; simpl; [apply does_ret|].
  apply does_bind; [apply does_crawl_step | intros _; exact IH].
Qed.

Lemma does_cleanup : does cleanup.
Proof. unfold cleanup. does_auto. Qed.

End Traversal.

(** ** The frontier invariant *)

Lemma action_frontier_inv t0 w w' : action w w' -> frontier_inv t0 w -> frontier_inv t0 w'.
Proof.
  intros Ha (t & q & s & Ht & Hq & Hs & Hnd & Hsub & Hperm).
  destruct Ha as [Hr Htr|e He Hr Htr|entry log Hlog Hr Htr|front url q0 s0 Hq0 Hs0 Hin Hr Htr|Hq0 Hr Htr|url q0 Hq0 Hq' Hother Htr].
  - exists t, q, s. rewrite Hr, Htr. done.
  - exists (e :: t), q, s. rewrite Hr, Htr, Ht.
    assert (enqueued_by e = None) by (by destruct e).
    assert (dequeued_by e = None) by (by destruct e).
    unfold enqueued, dequeued in *. simpl. rewrite H, H0. done.
  - exists (EvLPush "downloaded_files" entry :: t), q, s. rewrite Hr, Htr, Ht.
    unfold list_at, set_at in *. rewrite !lookup_insert_ne by done. done.
  - rewrite Hq in Hq0. rewrite Hs in Hs0. simplify_eq.
    exists (EvSAdd "seen_urls" url :: push_event front url :: t), (pushed front url q0), ({[url]} ∪ s0).
    rewrite Hr, Htr, Ht. unfold list_at, set_at.
    rewrite lookup_insert_eq, lookup_insert_ne, lookup_insert_eq by done.
    assert (He : enqueued (EvSAdd "seen_urls" url :: push_event front url :: t) = url :: enqueued t)
      by (by destruct front).
    assert (Hd : dequeued (EvSAdd "seen_urls" url :: push_event front url :: t) = dequeued t)
      by (by destruct front).
    rewrite He, Hd. repeat split; try done.
    + apply NoDup_cons. split; [|done]. intros Hu. by apply Hin, Hsub.
    + intros u [->|Hu]%elem_of_cons; set_solver.
    + rewrite Hperm. destruct front; simpl.
      * by rewrite Permutation_middle.
      * rewrite app_assoc. by rewrite <- Permutation_cons_append.
  - exists (EvLPop "url_queue" None :: t), q, s. rewrite Hr, Htr, Ht. done.
  - assert (q = url :: q0) as ->.
    { unfold list_at in Hq. rewrite Hq0 in Hq. by injection Hq. }
    exists (EvLPop "url_queue" (Some url) :: t), q0, s. rewrite Htr, Ht.
    unfold set_at in *. rewrite Hother by done.
    repeat split; try done. simpl.
    change (dequeued (EvLPop "url_queue" (Some url) :: t)) with (url :: dequeued t).
    change (enqueued (EvLPop "url_queue" (Some url) :: t)) with (enqueued t).
    rewrite Hperm. by rewrite Permutation_middle.
Qed.

Lemma actions_frontier_inv t0 w w' :
  rtc action w w' -> frontier_inv t0 w -> frontier_inv t0 w'.
Proof. induction 1; eauto using action_frontier_inv. Qed.

Lemma reset_frontier_inv (w : World) : frontier_inv (trace w) (reset_frontier w).2.
Proof.
  exists [EvDelete "seen_urls"; EvDelete "url_queue"], [], ∅.
  unfold list_at, set_at. cbn.
  rewrite lookup_delete_ne, !lookup_delete_eq by done.
  repeat split; try done.
  - constructor.
  - intros url Hu. by apply elem_of_nil in Hu.
Qed.

Lemma frontier_inv_dedup t0 w :
  frontier_inv t0 w ->
  exists t : list event,
    trace w = (t ++ t0)%list /\ NoDup (enqueued t) /\ NoDup (dequeued t) /\
    (forall url, url ∈ enqueued t ->
       exists s, set_at (redis w) "seen_urls" = Some s /\ url ∈ s).
Proof.
  intros (t & q & s & Ht & Hq & Hs & Hnd & Hsub & Hperm).
  exists t. repeat split; try done.
  - rewrite Hperm in Hnd. by apply NoDup_app in Hnd as [? _].
  - intros url Hu. exists s. split; [done | by apply Hsub].
Qed.

Lemma init_browser_run (env : Env) (w : World) :
  init_browser env w
  = (if launch_browser env (clock w) then Ok tt else Raise (Exn "Error"),
     mkWorld (redis w) (fs w) (allowed_domains w) (S (clock w)) (trace w)).
Proof. unfold init_browser. rewrite bind_eq. cbn. by destruct (launch_browser env (clock w)). Qed.


(** ** No action is a robots check, a log entry is only ever added *)

Lemma action_no_robots t0 w w' :
  action w w' ->
  since t0 (fun t => List.filter is_robots_check t = []) w ->
  since t0 (fun t => List.filter is_robots_check t = []) w'.
Proof.
  intros Ha (t & Ht & Hf).
  destruct Ha as [Hr Htr|e He Hr Htr|entry log Hlog Hr Htr
                 |front url q0 s0 Hq0 Hs0 Hin Hr Htr|Hq0 Hr Htr|url q0 Hq0 Hq' Hother Htr].
  - exists t. by rewrite Htr.
  - exists (e :: t). rewrite Htr, Ht. split; [done|]. by destruct e.
  - exists (EvLPush "downloaded_files" entry :: t). by rewrite Htr, Ht.
  - exists (EvSAdd "seen_urls" url :: push_event front url :: t).
    rewrite Htr, Ht. split; [done|]. by destruct front.
  - exists (EvLPop "url_queue" None :: t). by rewrite Htr, Ht.
  - exists (EvLPop "url_queue" (Some url) :: t). by rewrite Htr, Ht.
Qed.

Lemma actions_keep_no_robots t0 w w' :
  rtc action w w' ->
  since t0 (fun t => List.filter is_robots_check t = []) w ->
  since t0 (fun t => List.filter is_robots_check t = []) w'.
Proof. induction 1; eauto using action_no_robots. Qed.

Lemma actions_no_robots w w' :
  rtc action w w' ->
  exists t, trace w' = (t ++ trace w)%list /\ List.filter is_robots_check t = [].
Proof.
  intros H. apply (actions_keep_no_robots (trace w) w w' H). by exists [].
Qed.

Lemma action_log_extends db0 w w' :
  action w w' -> log_extends db0 (redis w) -> log_extends db0 (redis w').
Proof.
  unfold log_extends. intros Ha Hl.
  destruct Ha as [Hr Htr|e He Hr Htr|entry log Hlog Hr Htr
                 |front url q0 s0 Hq0 Hs0 Hin Hr Htr|Hq0 Hr Htr|url q0 Hq0 Hq' Hother Htr];
    rewrite ?Hr; try done.
  - destruct (list_at db0 "downloaded_files") as [log0|] eqn:E0.
    + destruct Hl as [new Hnew]. rewrite Hlog in Hnew. injection Hnew as ->.
      exists (entry :: new). unfold list_at. by rewrite lookup_insert_eq.
    + unfold list_at in Hlog, E0. rewrite Hl in Hlog. congruence.
  - unfold list_at in *. by rewrite !lookup_insert_ne.
  - unfold list_at in *. by rewrite Hother.
Qed.

Lemma actions_log_extends db0 w w' :
  rtc action w w' -> log_extends db0 (redis w) -> log_extends db0 (redis w').
Proof. induction 1; eauto using action_log_extends. Qed.

Lemma log_extends_refl db : log_extends db db.
Proof.
  unfold log_extends. destruct (list_at db "downloaded_files") eqn:E; [|done].
  by exists [].
Qed.

Lemma action_queue_typed w w' :
  action w w' ->
  is_Some (list_at (redis w) "url_queue") -> is_Some (list_at (redis w') "url_queue").
Proof.
  intros Ha Hl.
  destruct Ha as [Hr Htr|e He Hr Htr|entry log Hlog Hr Htr
                 |front url q0 s0 Hq0 Hs0 Hin Hr Htr|Hq0 Hr Htr|url q0 Hq0 Hq' Hother Htr];
    rewrite ?Hr; try done.
  - unfold list_at in *. by rewrite lookup_insert_ne.
  - unfold list_at. by rewrite lookup_insert_ne, lookup_insert_eq.
Qed.

Lemma actions_queue_typed w w' :
  rtc action w w' ->
  is_Some (list_at (redis w) "url_queue") -> is_Some (list_at (redis w') "url_queue").
Proof. induction 1; eauto using action_queue_typed. Qed.

(** ** [process_url] always returns *)

Lemma catch_ret_total {A} (m : M A) (a0 : A) (w : World) :
  exists a, (catch m (fun _ => ret a0) w).1 = Ok a.
Proof. unfold catch. destruct (m w) as [[a|e] w']; cbn; eauto. Qed.

Lemma process_url_returns (env : Env) (depth : nat) (url : string) (w : World) :
  exists success, (process_url env depth url w).1 = Ok success.
Proof. destruct depth; apply catch_ret_total. Qed.

Lemma lpop_run (w : World) (q : list string) :
  list_at (redis w) "url_queue" = Some q ->
  exists w', Redis.lpop "url_queue" w = (Ok (List.head q), w').
Proof.
  unfold list_at, Redis.lpop, bind, get_world, set_redis, emit, ret. intros Hq.
  destruct (redis w !! "url_queue") as [[[|x l]|s]|]; try discriminate;
    injection Hq as <-; cbn; eauto.
Qed.

Lemma crawl_step_run (env : Env) (depth : nat) (w : World) :
  is_Some (list_at (redis w) "url_queue") ->
  (crawl_step env depth w).1 = Ok tt.
Proof.
  intros [q Hq]. unfold crawl_step. rewrite bind_eq.
  destruct (lpop_run w q Hq) as [w1 ->].
  destruct (List.head q) as [u|]; [|done].
  destruct (PyStr.nonempty u); [|done].
  rewrite bind_eq.
  destruct (process_url_returns env depth (PyStr.strip u) w1) as [b Hb].
  destruct (process_url env depth (PyStr.strip u) w1) as [r w2]. cbn in Hb. by subst r.
Qed.

Lemma crawl_loop_run (env : Env) (depth turns : nat) (w : World) :
  is_Some (list_at (redis w) "url_queue") ->
  (crawl_loop env depth turns w).1 = Ok tt.
Proof.
  revert w. induction turns as [|k IH]; intros w Hq; [done|].
  cbn [crawl_loop]. rewrite bind_eq.
  pose proof (crawl_step_run env depth w Hq) as Hs.
  pose proof (does_crawl_step env depth w) as Hd.
  destruct (crawl_step env depth w) as [r w1]. cbn in Hs, Hd. subst r.
  apply IH. by eapply actions_queue_typed.
Qed.

(** A run is the start of the browser, then, if it started, the reset
    followed by a sequence of actions. *)
Lemma run_shape (env : Env) (depth turns : nat) (w : World) :
  let w1 := mkWorld (redis w) (fs w) (allowed_domains w) (S (clock w)) (trace w) in
  (run env depth turns w).2 = w1 \/
  rtc action (reset_frontier w1).2 (run env depth turns w).2.
Proof.
  cbv zeta. unfold run. rewrite bind_eq, init_browser_run.
  set (w1 := mkWorld _ _ _ _ _).
  destruct (launch_browser env (clock w)); [right|by left].
  unfold finally. rewrite bind_eq.
  change (reset_frontier w1) with (Ok tt, (reset_frontier w1).2).
  cbv iota beta.
  set (w2 := (reset_frontier w1).2).
  pose proof (does_bind (seed_frontier env) (fun _ => crawl_loop env depth turns)
                (does_seed_frontier env) (fun _ => does_crawl_loop env depth turns) w2)
    as Hrest.
  destruct (bind (seed_frontier env) _ w2) as [r w3]. cbn [snd] in Hrest.
  pose proof (does_cleanup w3) as Hc.
  destruct (cleanup w3) as [[[]|e] w4]; cbn [snd] in *; by etransitivity.
Qed.

Lemma run_no_robots (env : Env) (depth turns : nat) (w : World) :
  exists t : list event,
    trace (run env depth turns w).2 = (t ++ trace w)%list /\
    List.filter is_robots_check t = [].
Proof.
  destruct (run_shape env depth turns w) as [-> | Hacts].
  - by exists [].
  - apply (actions_keep_no_robots (trace w)) in Hacts; [exact Hacts|].
    by exists [EvDelete "seen_urls"; EvDelete "url_queue"].
Qed.

End StepFacts.

(** ** The storage writer *)
Module OsFacts.
Import StepFacts StrFacts.

Lemma makedirs_run (p : string) (w : World) :
  Os.makedirs p w
  = if existsb (Os.is_file (fs w)) (Path.creates p) then (Raise (Exn "FileExistsError"), w)
    else (Ok tt, with_fs w (mkFS (list_to_set (Path.creates p) ∪ dirs (fs w)) (files (fs w)))).
Proof.
  unfold Os.makedirs. rewrite bind_eq. cbn [get_world].
  by destruct (existsb _ _).
Qed.

Lemma write_file_run (p : string) (data : string) (w : World) :
  Os.write_file p data w
  = if Os.is_dir (fs w) p then (Raise (Exn "IsADirectoryError"), w)
    else (Ok tt, with_fs w (mkFS (dirs (fs w)) (<[p := data]> (files (fs w))))).
Proof.
  unfold Os.write_file. rewrite bind_eq. cbn [get_world]. by destruct (Os.is_dir _ _).
Qed.

Lemma getsize_run (p : string) (w : World) :
  Os.getsize p w
  = match files (fs w) !! p with
    | Some data => (Ok (String.length data), w)
    | None => (Raise (Exn "FileNotFoundError"), w)
    end.
Proof.
  unfold Os.getsize. rewrite bind_eq. cbn [get_world]. by destruct (_ !! _).
Qed.

Lemma remove_run (p : string) (w : World) :
  Os.remove p w
  = match files (fs w) !! p with
    | Some _ => (Ok tt, with_fs w (mkFS (dirs (fs w)) (delete p (files (fs w)))))
    | None => (Raise (Exn "FileNotFoundError"), w)
    end.
Proof.
  unfold Os.remove. rewrite bind_eq. cbn [get_world]. by destruct (_ !! _).
Qed.

Lemma rename_run (src dst : string) (w : World) :
  Os.rename src dst w
  = match files (fs w) !! src with
    | Some data =>
        if Os.is_dir (fs w) dst then (Raise (Exn "IsADirectoryError"), w)
        else (Ok tt, with_fs w (mkFS (dirs (fs w))
                                  (<[dst := data]> (delete src (files (fs w))))))
    | None => (Raise (Exn "FileNotFoundError"), w)
    end.
Proof.
  unfold Os.rename. rewrite bind_eq. cbn [get_world].
  destruct (_ !! _); [|done]. by destruct (Os.is_dir _ _).
Qed.

(** A path above [p] is shorter than [p]. *)
Lemma cuts_shorter (p d : string) : d ∈ Path.cuts p -> String.length d < String.length p.
Proof.
  revert d. induction p as [|c p IH]; intros d; simpl.
  - by intros ?%elem_of_nil.
  - intros [Hd|Hd]%elem_of_app.
    + destruct (PyStr.char_eqb c "/"); [|by apply elem_of_nil in Hd].
      apply list_elem_of_singleton in Hd as ->. simpl. lia.
    + apply list_elem_of_fmap in Hd as (d' & -> & Hd'). simpl.
      apply IH in Hd'. lia.
Qed.

Lemma creates_not_longer (p d : string) :
  d ∈ Path.creates p -> String.length d <= String.length p.
Proof.
  unfold Path.creates, Path.ancestors. intros [->|Hd]%elem_of_cons; [done|].
  apply list_elem_of_In, filter_In in Hd as [Hd _].
  apply list_elem_of_In, cuts_shorter in Hd. lia.
Qed.

Lemma string_length_app (a b : string) :
  String.length (a +:+ b) = String.length a + String.length b.
Proof. induction a as [|c a IH]; [done|]. rewrite app_cons. simpl. by rewrite IH. Qed.

(** Joining a relative name makes the path longer. *)
Lemma join_longer (a b : string) :
  PyStr.startswith b "/" = false -> 
  String.length a + String.length b <= String.length (Path.join a b).
Proof.
  intros Hb. unfold Path.join. rewrite Hb.
  destruct (negb (PyStr.nonempty a) || PyStr.endswith a "/"); rewrite !string_length_app; simpl; lia.
Qed.

End OsFacts.

Module SaveFacts.
Import Crawler StepFacts StrFacts OsFacts.

Ltac world_norm :=
  cbn [with_fs redis fs allowed_domains clock trace dirs files
       from_option ret get_world tick fst snd].

Section SaveFile.
Context (env : Env) (data : string) (domain url content_type : string) (w : World).

Local Abbreviation domain_dir := (Path.join (OUTPUT_DIR env) domain).
Local Abbreviation temp_path := (Path.join domain_dir "temp_download").

Lemma save_file_small_any :
  String.length data < 50 ->
  (save_file env data domain url content_type w).1 = Ok (None, None) /\
  (forall d, d ∈ dirs (fs (save_file env data domain url content_type w).2) ->
     d ∈ dirs (fs w) \/ d ∈ Path.creates domain_dir).
Proof.
  intros Hsmall. unfold save_file, catch.
  rewrite bind_eq, makedirs_run.
  destruct (existsb _ _); [cbn; eauto|].
  set (w1 := with_fs w _).
  assert (Hd1 : forall d, d ∈ dirs (fs w1) -> d ∈ dirs (fs w) \/ d ∈ Path.creates domain_dir).
  { intros d. change (dirs (fs w1)) with (list_to_set (Path.creates domain_dir) ∪ dirs (fs w)).
    rewrite elem_of_union, elem_of_list_to_set. tauto. }
  clearbody w1.
  rewrite bind_eq. destruct (UrlParse.urlparse url) as [parsed|]; [|cbn; eauto].
  cbn [from_option ret].
  rewrite bind_eq, write_file_run.
  destruct (Os.is_dir (fs w1) temp_path); [cbn; eauto|].
  rewrite bind_eq, getsize_run. cbn [with_fs fs files].
  rewrite lookup_insert_eq.
  replace (String.length data <? 50) with true by (symmetry; apply Nat.ltb_lt; lia).
  rewrite bind_eq, remove_run. cbn [with_fs fs files].
  rewrite lookup_insert_eq. cbn. eauto.
Qed.

Lemma temp_path_fresh : temp_path ∉ Path.creates domain_dir.
Proof.
  intros H%creates_not_longer.
  pose proof (join_longer domain_dir "temp_download" eq_refl) as Hl.
  simpl in Hl. lia.
Qed.

Lemma is_dir_false (f : FS) (p : string) : p ∉ dirs f -> Os.is_dir f p = false.
Proof. intros H. unfold Os.is_dir. by rewrite bool_decide_eq_false_2. Qed.

Lemma save_file_small_clean (parsed : UrlParse.ParseResult) :
  String.length data < 50 ->
  UrlParse.urlparse url = Some parsed ->
  existsb (Os.is_file (fs w)) (Path.creates domain_dir) = false ->
  temp_path ∉ dirs (fs w) ->
  save_file env data domain url content_type w
  = (Ok (None, None),
     with_fs w (mkFS (list_to_set (Path.creates domain_dir) ∪ dirs (fs w))
                  (delete temp_path (files (fs w))))).
Proof.
  intros Hsmall Hparse Hmk Htemp. unfold save_file, catch.
  rewrite bind_eq, makedirs_run, Hmk, bind_eq, Hparse. cbn [from_option ret].
  rewrite bind_eq, write_file_run, is_dir_false.
  2:{ cbn [with_fs fs dirs]. rewrite elem_of_union, elem_of_list_to_set.
      pose proof temp_path_fresh. tauto. }
  rewrite bind_eq, getsize_run. cbn [with_fs fs files dirs].
  rewrite lookup_insert_eq.
  replace (String.length data <? 50) with true by (symmetry; apply Nat.ltb_lt; lia).
  rewrite bind_eq, remove_run. cbn [with_fs fs files dirs].
  rewrite lookup_insert_eq. cbn [ret].
  unfold with_fs. cbn [redis fs allowed_domains clock trace].
  by rewrite delete_insert_eq.
Qed.

Lemma existsb_is_file_write (f f' : FS) (p x : string) (l : list string) :
  files f' = <[p := x]> (files f) -> p ∉ l ->
  existsb (Os.is_file f') l = existsb (Os.is_file f) l.
Proof.
  intros Hf. induction l as [|d l IH]; intros Hp; [done|].
  apply not_elem_of_cons in Hp as [Hne Hp]. simpl. rewrite (IH Hp). f_equal.
  unfold Os.is_file. by rewrite Hf, lookup_insert_ne.
Qed.

Lemma save_file_large_clean (parsed : UrlParse.ParseResult) :
  let filename := save_filename env parsed url content_type in
  let year :=
    Year.resolve_year
      [extract_year_from_pdf env (Some data); extract_year_from_content env (Some data);
       year_from_path env (UrlParse.path parsed); extract_year_from_filename env filename]
      (now_year env (clock w)) in
  let year_dir := Path.join domain_dir year in
  let final_path := Path.join year_dir filename in
  50 <= String.length data ->
  UrlParse.urlparse url = Some parsed ->
  existsb (Os.is_file (fs w)) (Path.creates domain_dir) = false ->
  temp_path ∉ dirs (fs w) ->
  existsb (Os.is_file (fs w)) (Path.creates year_dir) = false ->
  temp_path ∉ Path.creates year_dir ->
  final_path ∉ dirs (fs w) ->
  final_path ∉ Path.creates domain_dir ->
  final_path ∉ Path.creates year_dir ->
  save_file env data domain url content_type w
  = (Ok (Some final_path, Some year),
     mkWorld (redis w)
       (mkFS (list_to_set (Path.creates year_dir)
                ∪ (list_to_set (Path.creates domain_dir) ∪ dirs (fs w)))
             (<[final_path := data]> (delete temp_path (files (fs w)))))
       (allowed_domains w) (S (clock w)) (trace w)).
Proof.
  intros filename year year_dir final_path Hlarge Hparse Hmk Htemp Hmk2 Htemp2 Hf1 Hf2 Hf3.
  unfold save_file, catch.
  rewrite bind_eq, makedirs_run, Hmk, bind_eq, Hparse. world_norm.
  fold filename.
  rewrite bind_eq, write_file_run, is_dir_false.
  2:{ world_norm. rewrite elem_of_union, elem_of_list_to_set.
      pose proof temp_path_fresh. tauto. }
  rewrite bind_eq, getsize_run. world_norm.
  rewrite lookup_insert_eq.
  replace (String.length data <? 50) with false by (symmetry; apply Nat.ltb_ge; lia).
  rewrite bind_eq, getsize_run. world_norm.
  rewrite lookup_insert_eq.
  rewrite bind_eq. world_norm.
  rewrite lookup_insert_eq.
  rewrite bind_eq. unfold extract_year_from_url. rewrite bind_eq, Hparse.
  world_norm.
  rewrite bind_eq. world_norm.
  fold year. fold year_dir. fold final_path.
  rewrite bind_eq, makedirs_run. world_norm.
  rewrite (existsb_is_file_write (fs w) _ temp_path data), Hmk2 by done.
  rewrite bind_eq, rename_run. world_norm.
  rewrite lookup_insert_eq, is_dir_false.
  2:{ world_norm. rewrite !elem_of_union, !elem_of_list_to_set. tauto. }
  world_norm. by rewrite delete_insert_eq.
Qed.
End SaveFile.

End SaveFacts.

(** ** The storage writer leaves the store and the trace alone *)
Module QuietFacts.
Import Crawler Steps StepFacts.

Lemma quiet_ret {A} (a : A) : quiet (ret a).
Proof. by intros w. Qed.

Lemma quiet_raise {A} (name : string) : quiet (@raise A name).
Proof. by intros w. Qed.

Lemma quiet_bind {A B} (m : M A) (k : A -> M B) :
  quiet m -> (forall a, quiet (k a)) -> quiet (bind m k).
Proof.
  intros Hm Hk w. rewrite bind_eq. specialize (Hm w).
  destruct (m w) as [[a|e] w1]; cbn in *; [|done].
  destruct (Hk a w1) as [-> ->]. done.
Qed.

Lemma quiet_catch {A} (m : M A) (h : exn -> M A) :
  quiet m -> (forall e, quiet (h e)) -> quiet (catch m h).
Proof.
  intros Hm Hh w. unfold catch. specialize (Hm w).
  destruct (m w) as [[a|e] w1]; cbn in *; [done|].
  destruct (Hh e w1) as [-> ->]. done.
Qed.

Lemma quiet_from_option {A} (name : string) (o : option A) : quiet (from_option name o).
Proof. by destruct o. Qed.

Ltac quiet_step :=
  lazymatch goal with
  | |- quiet (bind _ _) => apply quiet_bind; [|intros ?]
  | |- quiet (catch _ _) => apply quiet_catch; [|intros ?]
  | |- quiet (ret _) => apply quiet_ret
  | |- quiet (raise _) => apply quiet_raise
  | |- quiet (from_option _ _) => apply quiet_from_option
  | |- quiet (if ?b then _ else _) => destruct b
  | |- quiet (match ?x with _ => _ end) => destruct x
  | |- quiet _ => by intros ?
  end.

Lemma quiet_save_file (env : Env) (data domain url content_type : string) :
  quiet (save_file env data domain url content_type).
Proof.
  unfold save_file, Os.makedirs, Os.write_file, Os.getsize, Os.remove, Os.rename,
    extract_year_from_url.
  repeat quiet_step.
Qed.

Lemma lpush_run (key val : string) (w : World) (l : list string) :
  list_at (redis w) key = Some l ->
  Redis.lpush key val w
  = (Ok tt, mkWorld (<[key := RList (val :: l)]> (redis w)) (fs w) (allowed_domains w)
              (clock w) (EvLPush key val :: trace w)).
Proof.
  unfold list_at, Redis.lpush, bind, get_world, set_redis, emit, ret. intros H.
  destruct (redis w !! key) as [[l0|s]|]; try discriminate; by injection H as <-.
Qed.

Lemma session_get_url_run (env : Env) (url : string) (w : World) :
  session_get_url env url w
  = (match session_get env (clock w) url with
     | Some response => Ok response
     | None => Raise (Exn "RequestException")
     end,
     mkWorld (redis w) (fs w) (allowed_domains w) (S (clock w)) (EvGet url :: trace w)).
Proof.
  unfold session_get_url, bind, emit, tick, from_option, ret, raise. cbn.
  by destruct (session_get env (clock w) url).
Qed.

(** Whenever a response of fewer than 50 bytes passes the accept gate,
    [download_pdf_direct] logs an entry without year and path and
    reports success. *)
Lemma refused_save_is_logged_in_general (env : Env) (url domain : string) (w : World)
    (response : Response) (log : list string) :
  session_get env (clock w) url = Some response ->
  status_code response = 200 ->
  should_download env url (default EmptyString (content_type_header response))
    (content response) = true ->
  String.length (content response) < 50 ->
  list_at (redis w) "downloaded_files" = Some log ->
  (download_pdf_direct env url domain w).1 = Ok true /\
  exists timestamp : string,
    list_at (redis (download_pdf_direct env url domain w).2) "downloaded_files"
    = Some (json_dumps env (mkLogEntry timestamp url domain None None) :: log).
Proof.
  intros Hget Hstatus Hgate Hsmall Hlog.
  unfold download_pdf_direct, log_download.
  rewrite bind_eq, session_get_url_run, Hget, Hstatus.
  cbn [Nat.eqb negb]. rewrite Hgate, bind_eq.
  set (w1 := mkWorld _ _ _ _ _).
  destruct (SaveFacts.save_file_small_any env (content response) domain url
              (default EmptyString (content_type_header response)) w1 Hsmall) as [Hr _].
  destruct (quiet_save_file env (content response) domain url
              (default EmptyString (content_type_header response)) w1) as [Hredis _].
  destruct (save_file env _ domain url _ w1) as [r w2]. cbn [fst snd] in *. subst r.
  rewrite !bind_eq. cbn [tick clock fst snd].
  rewrite (lpush_run _ _ _ log) by (cbn [redis]; by rewrite Hredis).
  cbn [ret fst snd redis]. split; [done|].
  eexists. unfold list_at. by rewrite lookup_insert_eq.
Qed.

End QuietFacts.

(** ** More on Python strings: slices, suffixes, lower case *)
Module SliceFacts.
Import StrFacts.

Lemma app_empty_r (s : string) : s +:+ EmptyString = s.
Proof. induction s as [|c s IH]; [done|]. by rewrite app_cons, IH. Qed.

Lemma app_assoc_str (a b c : string) : (a +:+ b) +:+ c = a +:+ (b +:+ c).
Proof. induction a as [|x a IH]; [done|]. by rewrite !app_cons, IH. Qed.

Lemma take_drop (n : nat) (s : string) : PyStr.take n s +:+ PyStr.drop n s = s.
Proof.
  revert s. induction n as [|n IH]; intros s; [done|].
  destruct s as [|c s]; [done|]. simpl. by rewrite app_cons, IH.
Qed.

Lemma drop_app_length (a b : string) : PyStr.drop (String.length a) (a +:+ b) = b.
Proof. induction a as [|c a IH]; [by destruct b|]. rewrite app_cons. simpl. exact IH. Qed.

Lemma take_take (n : nat) (s : string) : PyStr.take n (PyStr.take n s) = PyStr.take n s.
Proof.
  revert s. induction n as [|n IH]; intros s; [done|].
  destruct s as [|c s]; [done|]. simpl. by rewrite IH.
Qed.

(** A prefix no longer than the slice is seen in the slice. *)
Lemma prefix_take (p : string) (n : nat) (s : string) :
  String.length p <= n -> String.prefix p (PyStr.take n s) = String.prefix p s.
Proof.
  revert n s. induction p as [|c p IH]; intros n s Hn.
  - by destruct n, s.
  - destruct n as [|n]; [simpl in Hn; lia|].
    destruct s as [|d s]; [done|]. simpl.
    destruct (Ascii.ascii_dec c d); [|done]. apply IH. simpl in Hn. lia.
Qed.

Lemma endswith_app (s p : string) :
  PyStr.endswith s p = true <-> exists pre, s = pre +:+ p.
Proof.
  unfold PyStr.endswith. rewrite andb_true_iff, Nat.leb_le, String.eqb_eq. split.
  - intros [Hlen Hdrop]. exists (PyStr.take (String.length s - String.length p) s).
    rewrite <- Hdrop at 2. symmetry. apply take_drop.
  - intros [pre ->]. rewrite OsFacts.string_length_app. split; [lia|].
    replace (String.length pre + String.length p - String.length p)
      with (String.length pre) by lia.
    apply drop_app_length.
Qed.

Lemma endswith_contains (s p : string) :
  PyStr.endswith s p = true -> PyStr.contains p s = true.
Proof.
  rewrite endswith_app, contains_app. intros [pre ->].
  exists pre, EmptyString. by rewrite app_empty_r.
Qed.

Lemma endswith_app_suffix (a b p : string) :
  PyStr.endswith b p = true -> PyStr.endswith (a +:+ b) p = true.
Proof.
  rewrite !endswith_app. intros [pre ->]. exists (a +:+ pre). by rewrite app_assoc_str.
Qed.

Lemma lower_char_idem (c : ascii) :
  PyStr.lower_char (PyStr.lower_char c) = PyStr.lower_char c.
Proof. destruct c as [[] [] [] [] [] [] [] []]; reflexivity. Qed.

Lemma lower_idem (s : string) : PyStr.lower (PyStr.lower s) = PyStr.lower s.
Proof. induction s as [|c s IH]; [done|]. simpl. by rewrite lower_char_idem, IH. Qed.

(** Every element of a list is a slice of its concatenation. *)
Lemma concat_elem (x : string) (l : list string) :
  x ∈ l -> exists pre post, String.concat "" l = pre +:+ x +:+ post.
Proof.
  induction l as [|y l IH]; [by intros ?%elem_of_nil|].
  intros [->|Hx]%elem_of_cons.
  - exists EmptyString. destruct l as [|z l]; [exists EmptyString|].
    + simpl. by rewrite app_empty_r.
    + by exists (String.concat "" (z :: l)).
  - destruct (IH Hx) as (pre & post & Heq). destruct l as [|z l].
    + by apply elem_of_nil in Hx.
    + exists (y +:+ pre), post. change (String.concat "" (y :: z :: l))
        with (y +:+ "" +:+ String.concat "" (z :: l)).
      rewrite Heq. rewrite app_nil. by rewrite app_assoc_str.
Qed.

End SliceFacts.

(** ** Splitting, joining and the parts of a URL *)
Module UrlFacts.
Import StrFacts SliceFacts.

Lemma has_char_app (c : ascii) (a b : string) :
  PyStr.has_char c (a +:+ b) = PyStr.has_char c a || PyStr.has_char c b.
Proof.
  induction a as [|d a IH]; [done|]. rewrite app_cons. simpl.
  by rewrite IH, orb_assoc.
Qed.

Lemma split_nonempty (c : ascii) (s : string) : PyStr.split c s <> [].
Proof.
  destruct s as [|d s]; [done|]. simpl.
  destruct (PyStr.char_eqb c d); [done|]. by destruct (PyStr.split c s).
Qed.

(** The pieces of a split hold no separator, and no character that the
    whole did not hold. *)
Lemma split_pieces (c d : ascii) (s : string) :
  (d = c \/ PyStr.has_char d s = false) ->
  Forall (fun x => PyStr.has_char d x = false) (PyStr.split c s).
Proof.
  induction s as [|e s IH]; intros Hd; [by repeat constructor|].
  simpl. destruct (PyStr.char_eqb c e) eqn:Ece.
  - constructor; [done|]. apply IH. destruct Hd as [->|Hd]; [by left|right].
    simpl in Hd. by apply orb_false_iff in Hd as [_ ?].
  - assert (Hde : PyStr.char_eqb d e = false).
    { destruct Hd as [->|Hd]; [done|]. simpl in Hd. by apply orb_false_iff in Hd as [? _]. }
    assert (IH' : Forall (fun x => PyStr.has_char d x = false) (PyStr.split c s)).
    { apply IH. destruct Hd as [->|Hd]; [by left|right].
      simpl in Hd. by apply orb_false_iff in Hd as [_ ?]. }
    destruct (PyStr.split c s) as [|h t]; constructor; try done.
    + simpl. by rewrite Hde.
    + simpl. rewrite Hde. by inversion IH'.
    + by inversion IH'.
Qed.

Lemma split_without_sep (c : ascii) (s : string) :
  PyStr.has_char c s = false -> PyStr.split c s = [s].
Proof.
  induction s as [|d s IH]; [done|]. simpl. intros [Hd Hs]%orb_false_iff.
  by rewrite Hd, (IH Hs).
Qed.

Lemma split_app_sep (c : ascii) (a b : string) :
  PyStr.has_char c a = false ->
  PyStr.split c (a +:+ String c b) = a :: PyStr.split c b.
Proof.
  induction a as [|d a IH]; intros Ha.
  - rewrite app_nil. simpl. unfold PyStr.char_eqb. by rewrite Ascii.eqb_refl.
  - rewrite app_cons. simpl in *. apply orb_false_iff in Ha as [Hd Ha].
    by rewrite Hd, (IH Ha).
Qed.

Lemma remove_chars_app (p : ascii -> bool) (a b : string) :
  UrlParse.remove_chars p (a +:+ b) = UrlParse.remove_chars p a +:+ UrlParse.remove_chars p b.
Proof.
  induction a as [|c a IH]; [done|]. rewrite app_cons. simpl.
  destruct (p c); [done|]. by rewrite app_cons, IH.
Qed.

Lemma remove_chars_none (p : ascii -> bool) (s : string) :
  UrlParse.all_chars (fun c => negb (p c)) s = true -> UrlParse.remove_chars p s = s.
Proof.
  induction s as [|c s IH]; [done|]. simpl. intros [Hc Hs]%andb_true_iff.
  apply negb_true_iff in Hc. by rewrite Hc, (IH Hs).
Qed.

Lemma all_chars_impl (p q : ascii -> bool) (s : string) :
  (forall c, p c = true -> q c = true) ->
  UrlParse.all_chars p s = true -> UrlParse.all_chars q s = true.
Proof.
  intros Hpq. induction s as [|c s IH]; [done|]. simpl.
  intros [Hc Hs]%andb_true_iff. by rewrite (Hpq c Hc), (IH Hs).
Qed.

Lemma all_chars_has_char (p : ascii -> bool) (c : ascii) (s : string) :
  p c = false -> UrlParse.all_chars p s = true -> PyStr.has_char c s = false.
Proof.
  intros Hc. induction s as [|d s IH]; [done|]. simpl.
  intros [Hd Hs]%andb_true_iff. rewrite (IH Hs), orb_false_r.
  unfold PyStr.char_eqb. destruct (Ascii.eqb_spec c d) as [->|]; [congruence|done].
Qed.

(** The network location ends at the first delimiter. *)
Lemma splitnetloc_app (host rest : string) :
  UrlParse.all_chars (fun c => negb (UrlParse.is_netloc_delim c)) host = true ->
  (rest = EmptyString \/
   exists c rest', rest = String c rest' /\ UrlParse.is_netloc_delim c = true) ->
  UrlParse.splitnetloc (host +:+ rest) = (host, rest).
Proof.
  intros Hhost Hrest. induction host as [|c host IH].
  - rewrite app_nil. destruct Hrest as [->|(c & rest' & -> & Hc)]; [done|].
    simpl. by rewrite Hc.
  - rewrite app_cons. simpl in *. apply andb_true_iff in Hhost as [Hc Hhost].
    apply negb_true_iff in Hc. by rewrite Hc, (IH Hhost).
Qed.

End UrlFacts.

(** ** Links, seeds and the download of one document *)
Module LinkFacts.
Import Crawler Steps StepFacts StrFacts QuietFacts.

Lemma from_option_run {A} (name : string) (o : option A) (w : World) :
  from_option name o w
  = (match o with Some a => Ok a | None => Raise (Exn name) end, w).
Proof. by destruct o. Qed.

(** What [extract_links] returns: the world is untouched, the links come
    in page order out of the joined [href]s, and each has an http(s)
    scheme, a host and an allowed domain. *)
Lemma extract_links_from_run (env : Env) (hrefs : list string) (base_url : string)
    (w : World) :
  (extract_links_from env hrefs base_url w).2 = w /\
  forall links, (extract_links_from env hrefs base_url w).1 = Ok links ->
    links `sublist_of` omap (urljoin env base_url) hrefs /\
    Forall (fun link =>
              exists parsed domain,
                UrlParse.urlparse link = Some parsed /\
                PyStr.startswith (UrlParse.scheme parsed) "http" = true /\
                PyStr.nonempty (UrlParse.netloc parsed) = true /\
                Domain.get_domain link = Some domain /\
                domain ∈ allowed_domains w) links.
Proof.
  induction hrefs as [|href rest [IHw IHl]]; [by split; [|intros ? [= <-]]|].
  cbn [extract_links_from omap list_omap]. rewrite bind_eq, from_option_run.
  destruct (urljoin env base_url href) as [link|]; [|by split].
  rewrite bind_eq, from_option_run. cbn [option_fmap option_map].
  destruct (UrlParse.urlparse link) as [parsed|] eqn:Hparse; [|by split].
  rewrite bind_eq.
  set (keep := if negb _ then ret false else _).
  assert (Hkeep : keep w = (Ok false, w) \/
                  keep w = (Raise (Exn "ValueError"), w) \/
                  (keep w = (Ok true, w) /\
                   exists domain,
                     PyStr.startswith (UrlParse.scheme parsed) "http" = true /\
                     PyStr.nonempty (UrlParse.netloc parsed) = true /\
                     Domain.get_domain link = Some domain /\
                     domain ∈ allowed_domains w)).
  { subst keep.
    destruct (PyStr.startswith (UrlParse.scheme parsed) "http") eqn:Hhttp.
    2:{ destruct (PyStr.startswith (UrlParse.scheme parsed) "https") eqn:Hhttps; [|by left].
        apply prefix_app in Hhttps as [post Hs].
        assert (PyStr.startswith (UrlParse.scheme parsed) "http" = true); [|congruence].
        apply prefix_app. exists ("s" +:+ post). by rewrite Hs. }
    cbn [orb negb].
    destruct (PyStr.nonempty (UrlParse.netloc parsed)) eqn:Hloc; [|by left].
    cbn [negb orb].
    destruct (bool_decide _); [by left|].
    rewrite bind_eq. unfold get_domain_m. rewrite from_option_run.
    destruct (Domain.get_domain link) as [domain|] eqn:Hdom; [|by right; left].
    rewrite bind_eq. cbn [get_world ret].
    case_bool_decide; [|by left]. right; right. split; [done|]. by exists domain. }
  destruct Hkeep as [-> | [-> | [-> (domain & Hhttp & Hloc & Hdom & Hallowed)]]];
    [| by split |].
  - rewrite bind_eq. destruct (extract_links_from env rest base_url w) as [[links|e] w'].
    + cbn in IHw. subst w'. split; [done|]. intros ? [= <-].
      destruct (IHl links eq_refl) as [Hsub Hall]. split; [|done].
      by apply sublist_cons.
    + cbn in IHw. by subst w'.
  - rewrite bind_eq. destruct (extract_links_from env rest base_url w) as [[links|e] w'].
    + cbn in IHw. subst w'. split; [done|]. intros ? [= <-].
      destruct (IHl links eq_refl) as [Hsub Hall]. split.
      * by apply sublist_skip.
      * constructor; [|done]. by exists parsed, domain.
    + cbn in IHw. by subst w'.
Qed.

(** What [seed_domains] returns. *)
Lemma seed_domains_run (urls : list string) (w : World) :
  (seed_domains urls w).2 = w /\
  ((forall u, u ∈ urls -> PyStr.nonempty u = true -> is_Some (Domain.get_domain u)) ->
   exists domains : gset string,
     (seed_domains urls w).1 = Ok domains /\
     forall d, d ∈ domains <->
       exists u, u ∈ urls /\ PyStr.nonempty u = true /\ Domain.get_domain u = Some d) /\
  (forall u, u ∈ urls -> PyStr.nonempty u = true -> Domain.get_domain u = None ->
     (seed_domains urls w).1 = Raise (Exn "ValueError")).
Proof.
  induction urls as [|url rest (IHw & IHok & IHbad)].
  - split; [done|]. split.
    + intros _. exists ∅. split; [done|]. intros d. split; [by intros ?%not_elem_of_empty|].
      by intros (u & ?%elem_of_nil & _).
    + by intros u ?%elem_of_nil.
  - cbn [seed_domains]. destruct (PyStr.nonempty url) eqn:Hne.
    + rewrite bind_eq. unfold get_domain_m. rewrite from_option_run.
      destruct (Domain.get_domain url) as [d0|] eqn:Hd0.
      * rewrite bind_eq.
        destruct (seed_domains rest w) as [[ds|e] w'] eqn:Hrest; cbn in IHw; subst w'.
        -- split; [done|]. split.
           ++ intros Hall. destruct IHok as (ds' & [= <-] & Hds).
              { intros u Hu. apply Hall. by apply list_elem_of_further. }
              exists ({[d0]} ∪ ds). split; [done|]. intros d.
              rewrite elem_of_union, elem_of_singleton, Hds. split.
              ** intros [->|(u & Hu & Hn & Hd)].
                 --- exists url. split; [apply list_elem_of_here|done].
                 --- exists u. split; [by apply list_elem_of_further|done].
              ** intros (u & [->|Hu]%elem_of_cons & Hn & Hd).
                 --- left. congruence.
                 --- right. by exists u.
           ++ intros u [->|Hu]%elem_of_cons Hn Hd; [congruence|].
              by specialize (IHbad u Hu Hn Hd).
        -- split; [done|]. split.
           ++ intros Hall. destruct IHok as (ds' & Hds' & _); [|done].
              intros u0 Hu0. apply Hall. by apply list_elem_of_further.
           ++ intros u [->|Hu]%elem_of_cons Hn Hd; [congruence|].
              by specialize (IHbad u Hu Hn Hd).
      * split; [done|]. split; [|done].
        intros Hall. destruct (Hall url (list_elem_of_here _ _) Hne) as [? ?]. congruence.
    + split; [done|]. split.
      * intros Hall. destruct IHok as (ds & Hds & Hiff).
        { intros u Hu. apply Hall. by apply list_elem_of_further. }
        exists ds. split; [done|]. intros d. rewrite Hiff. split.
        -- intros (u & Hu & Hn & Hd). exists u. split; [by apply list_elem_of_further|done].
        -- intros (u & [->|Hu]%elem_of_cons & Hn & Hd); [congruence|]. by exists u.
      * intros u [->|Hu]%elem_of_cons Hn Hd; [congruence|]. by apply (IHbad u).
Qed.

End LinkFacts.

Module DownloadFacts.
Import Crawler Steps Frame StepFacts QuietFacts LinkFacts.

(** All the ways [download_pdf_direct] can end. *)
Lemma download_pdf_direct_cases (env : Env) (url domain : string) (w : World) :
  let r := download_pdf_direct env url domain w in
  (r = (Raise (Exn "RequestException"), after_get url w) /\
   session_get env (clock w) url = None) \/
  (r = (Ok false, after_get url w) /\
   exists response,
     session_get env (clock w) url = Some response /\
     (status_code response <> 200 \/
      should_download env url (default EmptyString (content_type_header response))
        (content response) = false)) \/
  (exists response,
     session_get env (clock w) url = Some response /\
     status_code response = 200 /\
     should_download env url (default EmptyString (content_type_header response))
       (content response) = true /\
     let saved := save_file env (content response) domain url
                    (default EmptyString (content_type_header response))
                    (after_get url w) in
     redis saved.2 = redis w /\ trace saved.2 = EvGet url :: trace w /\
     ((list_at (redis w) "downloaded_files" = None /\
       r.1 = Raise (Exn "ResponseError") /\
       redis r.2 = redis w /\ trace r.2 = EvGet url :: trace w /\ fs r.2 = fs saved.2) \/
      (exists saved_result log,
         saved.1 = Ok saved_result /\
         list_at (redis w) "downloaded_files" = Some log /\
         r.1 = Ok true /\
         redis r.2
         = <["downloaded_files" :=
               RList (json_dumps env
                        (mkLogEntry (now_isoformat env (clock saved.2)) url domain
                           saved_result.2 saved_result.1) :: log)]> (redis w) /\
         trace r.2
         = EvLPush "downloaded_files"
             (json_dumps env
                (mkLogEntry (now_isoformat env (clock saved.2)) url domain
                   saved_result.2 saved_result.1)) :: EvGet url :: trace w /\
         fs r.2 = fs saved.2))).
Proof.
  cbv zeta. unfold download_pdf_direct.
  rewrite bind_eq, session_get_url_run. fold (after_get url w).
  destruct (session_get env (clock w) url) as [response|] eqn:Hget; [|by left].
  right. destruct (Nat.eqb_spec (status_code response) 200) as [Hstatus|Hstatus].
  2:{ left. split; [done|]. exists response. split; [done|]. by left. }
  cbn [negb].
  destruct (should_download env url _ (content response)) eqn:Hgate.
  2:{ left. split; [done|]. exists response. split; [done|]. by right. }
  right. exists response. split; [done|]. split; [done|]. split; [done|].
  cbv zeta.
  split; [apply (quiet_save_file env _ _ _ _ (after_get url w))|].
  split; [apply (quiet_save_file env _ _ _ _ (after_get url w))|].
  rewrite bind_eq.
  pose proof (quiet_save_file env (content response) domain url
                  (default EmptyString (content_type_header response))
                  (after_get url w)) as [Hredis Htrace].
  cbn [after_get redis trace] in Hredis, Htrace.
  assert (Hsaved : exists sr, (save_file env (content response) domain url
                (default EmptyString (content_type_header response))
                (after_get url w)).1 = Ok sr).
  { unfold save_file. apply catch_ret_total. }
  destruct Hsaved as [sr Hsr].
  destruct (save_file env (content response) domain url
                (default EmptyString (content_type_header response))
                (after_get url w)) as [saved w2].
  cbn [fst snd] in *. subst saved.
  unfold log_download. rewrite !bind_eq. cbn [tick fst snd].
  destruct (list_at (redis w) "downloaded_files") as [log|] eqn:Hlog.
  - right. exists sr, log. split; [done|]. split; [done|].
      rewrite (lpush_run _ _ _ log) by (cbn [redis]; by rewrite Hredis).
      cbn [fst snd redis trace fs]. by rewrite Hredis, Htrace.
  - left. split; [done|].
      unfold Redis.lpush, bind, get_world. cbn [redis fst snd].
      unfold list_at in Hlog. rewrite Hredis.
      destruct (redis w !! "downloaded_files") as [[?|?]|]; try discriminate.
      cbn. by rewrite Htrace.
Qed.

(** The answer of [download_pdf_direct] and what it leaves behind. *)
Lemma download_pdf_direct_summary (env : Env) (url domain : string) (w : World)
    (log : list string) :
  list_at (redis w) "downloaded_files" = Some log ->
  let r := download_pdf_direct env url domain w in
  let accepted :=
    exists response,
      session_get env (clock w) url = Some response /\
      status_code response = 200 /\
      should_download env url (default EmptyString (content_type_header response))
        (content response) = true in
  (r.1 = Ok true <-> accepted) /\
  (r.1 = Ok true ->
   exists entry,
     redis r.2 = <["downloaded_files" := RList (entry :: log)]> (redis w) /\
     trace r.2 = EvLPush "downloaded_files" entry :: EvGet url :: trace w) /\
  (r.1 <> Ok true ->
   redis r.2 = redis w /\ trace r.2 = EvGet url :: trace w).
Proof.
  intros Hlog. cbv zeta.
  destruct (download_pdf_direct_cases env url domain w)
    as [[Hr Hget] | [[Hr (response & Hget & Hno)] | (response & Hget & Hst & Hgate & Hrest)]].
  - rewrite Hr. cbn [fst snd]. split; [|split].
    + split; [done|]. intros (response & Hget' & _). congruence.
    + done.
    + done.
  - rewrite Hr. cbn [fst snd]. split; [|split].
    + split; [done|]. intros (response' & Hget' & Hst & Hgate).
      assert (response' = response) as -> by congruence.
      destruct Hno; congruence.
    + done.
    + done.
  - cbv zeta in Hrest. destruct Hrest as (_ & _ & [(Hnone & _) | Hyes]); [congruence|].
    destruct Hyes as (sr & log' & _ & Hlog' & Hr & Hredis & Htrace & _).
    assert (log' = log) as -> by congruence.
    split; [|split].
    + split; [|done]. intros _. by exists response.
    + intros _. eexists. split; [exact Hredis | exact Htrace].
    + by intros [].
Qed.

End DownloadFacts.

(** ** Seeding *)
Module SeedFacts.
Import Crawler Steps Frame StepFacts QuietFacts LinkFacts.

(** One seed: skipped when blank or seen, otherwise pushed at the head
    when it ends in [.pdf] and at the tail when not. *)
Lemma seed_url_run (url : string) (w : World) (q : list string) (s : gset string) :
  list_at (redis w) "url_queue" = Some q ->
  set_at (redis w) "seen_urls" = Some s ->
  seed_url url w
  = if negb (PyStr.nonempty url) || bool_decide (url ∈ s) then (Ok tt, w)
    else (Ok tt,
          mkWorld (<["seen_urls" := RSet ({[url]} ∪ s)]>
                     (<["url_queue" := RList (pushed (is_pdf_url url) url q)]> (redis w)))
                  (fs w) (allowed_domains w) (clock w)
                  (EvSAdd "seen_urls" url :: push_event (is_pdf_url url) url :: trace w)).
Proof.
  intros Hq Hs. unfold seed_url.
  destruct (negb (PyStr.nonempty url)); [done|]. cbn [orb].
  rewrite bind_eq, sismember_run, Hs.
  case_bool_decide; [done|].
  exact (push_then_sadd (is_pdf_url url) url w q s Hq Hs).
Qed.

Ltac in_sets :=
  try (apply set_eq; intros ?);
  rewrite ?list_to_set_app, ?elem_of_union, ?elem_of_list_to_set, ?elem_of_app,
    ?elem_of_cons, ?elem_of_nil, ?elem_of_singleton in *;
  tauto.

(** The seeding loop from a frontier that holds the documents [P] ahead
    of the pages [O]. *)
Lemma seeding_run (urls : list string) :
  forall (P O : list string) (s : gset string) (w : World),
    list_at (redis w) "url_queue" = Some (P ++ O)%list ->
    set_at (redis w) "seen_urls" = Some s ->
    exists (P' O' : list string) (w' : World),
      for_each urls seed_url w = (Ok tt, w') /\
      list_at (redis w') "url_queue" = Some ((P' ++ P) ++ (O ++ O'))%list /\
      set_at (redis w') "seen_urls" = Some (list_to_set (P' ++ O')%list ∪ s) /\
      Forall (fun u => is_pdf_url u = true) P' /\
      Forall (fun u => is_pdf_url u = false) O' /\
      NoDup (P' ++ O')%list /\
      (forall u, u ∈ (P' ++ O')%list <-> u ∈ urls /\ PyStr.nonempty u = true /\ u ∉ s) /\
      O' `sublist_of` urls /\
      rev P' `sublist_of` urls /\
      (forall key, key <> "url_queue" -> key <> "seen_urls" ->
         redis w' !! key = redis w !! key) /\
      fs w' = fs w /\ allowed_domains w' = allowed_domains w /\ clock w' = clock w.
Proof.
  induction urls as [|url rest IH]; intros P O s w Hq Hs.
  - exists [], [], w. cbn [for_each ret app]. rewrite app_nil_r.
    split; [done|]. split; [done|].
    split; [by rewrite list_to_set_nil, union_empty_l_L|].
    split; [constructor|]. split; [constructor|]. split; [constructor|].
    split. { intros u. split; [by intros ?%elem_of_nil | by intros (?%elem_of_nil & _)]. }
    split; [constructor|]. split; [constructor|]. done.
  - cbn [for_each]. rewrite bind_eq, (seed_url_run url w (P ++ O) s Hq Hs).
    destruct (negb (PyStr.nonempty url) || bool_decide (url ∈ s)) eqn:Hskip.
    + destruct (IH P O s w Hq Hs)
        as (P' & O' & w' & Hrun & Hq' & Hs' & HP & HO & Hnd & Hmem & HsubO & HsubP & Hrest).
      exists P', O', w'. do 6 (split; [done|]). split.
      { intros u. split.
        - intros Hu. apply Hmem in Hu as (Hu & Hne & Hns).
          split; [by apply list_elem_of_further | done].
        - intros (Hu & Hne & Hns). apply Hmem. split; [|done].
          apply elem_of_cons in Hu as [-> | Hu]; [|done].
          apply orb_true_iff in Hskip as [Hb | Hb].
          + by rewrite Hne in Hb.
          + by apply bool_decide_eq_true_1 in Hb. }
      split; [by apply sublist_cons|]. split; [by apply sublist_cons|]. done.
    + apply orb_false_iff in Hskip as [Hne Hns].
      apply negb_false_iff in Hne. apply bool_decide_eq_false_1 in Hns.
      set (w1 := mkWorld _ _ _ _ _).
      assert (Hs1 : set_at (redis w1) "seen_urls" = Some ({[url]} ∪ s)).
      { unfold set_at, w1. cbn [redis]. by rewrite lookup_insert_eq. }
      assert (Hq1 : list_at (redis w1) "url_queue"
                    = Some (pushed (is_pdf_url url) url (P ++ O))).
      { unfold list_at, w1. cbn [redis].
        rewrite lookup_insert_ne by done. by rewrite lookup_insert_eq. }
      assert (Hkeys : forall key, key <> "url_queue" -> key <> "seen_urls" ->
                        redis w1 !! key = redis w !! key).
      { intros key H1 H2. unfold w1. cbn [redis]. by rewrite !lookup_insert_ne. }
      destruct (is_pdf_url url) eqn:Hpdf; cbn [pushed] in Hq1.
      * destruct (IH (url :: P) O ({[url]} ∪ s) w1 Hq1 Hs1)
          as (P' & O' & w' & Hrun & Hq' & Hs' & HP & HO & Hnd & Hmem & HsubO & HsubP
              & Hk & Hfs & Had & Hcl).
        assert (Hfresh : url ∉ (P' ++ O')%list).
        { intros (_ & _ & Hn)%Hmem. apply Hn, elem_of_union. left. by apply elem_of_singleton. }
        exists (P' ++ [url])%list, O', w'. split; [done|]. split.
        { rewrite Hq'. f_equal. by rewrite <- !app_assoc. }
        split.
        { rewrite Hs'. f_equal. in_sets. }
        split. { apply Forall_app. split; [done|]. by constructor. }
        split; [done|]. split.
        { rewrite <- app_assoc. cbn [app].
          apply NoDup_app in Hnd as (HndP & Hdisj & HndO).
          apply NoDup_app. split; [done|]. split.
          - intros u Hu [-> | Hin]%elem_of_cons.
            + apply Hfresh, elem_of_app. by left.
            + by apply (Hdisj u).
          - constructor; [|done]. intros Hin. apply Hfresh, elem_of_app. by right. }
        split.
        { intros u. rewrite <- app_assoc. cbn [app].
          rewrite elem_of_app, elem_of_cons, elem_of_cons.
          specialize (Hmem u). rewrite elem_of_app in Hmem.
          split.
          - intros [Hu | [-> | Hu]].
            + destruct (proj1 Hmem (or_introl Hu)) as (? & ? & Hn).
              split; [by right|]. split; [done|]. intros ?. apply Hn, elem_of_union. by right.
            + split; [by left|]. done.
            + destruct (proj1 Hmem (or_intror Hu)) as (? & ? & Hn).
              split; [by right|]. split; [done|]. intros ?. apply Hn, elem_of_union. by right.
          - intros ([-> | Hu] & Hne' & Hns'); [by right; left|].
            destruct (decide (u = url)) as [-> | Hneq]; [by right; left|].
            destruct (proj2 Hmem) as [? | ?]; [|by left|by right; right].
            split; [done|]. split; [done|]. rewrite elem_of_union, elem_of_singleton. tauto. }
        split; [by apply sublist_cons|]. split.
        { rewrite rev_app_distr. cbn [rev app]. by apply sublist_skip. }
        split. { intros key H1 H2. rewrite Hk by done. by apply Hkeys. }
        done.
      * rewrite <- app_assoc in Hq1.
        destruct (IH P (O ++ [url])%list ({[url]} ∪ s) w1 Hq1 Hs1)
          as (P' & O' & w' & Hrun & Hq' & Hs' & HP & HO & Hnd & Hmem & HsubO & HsubP
              & Hk & Hfs & Had & Hcl).
        assert (Hfresh : url ∉ (P' ++ O')%list).
        { intros (_ & _ & Hn)%Hmem. apply Hn, elem_of_union. left. by apply elem_of_singleton. }
        exists P', (url :: O'), w'. split; [done|]. split.
        { rewrite Hq'. f_equal. by rewrite <- !app_assoc. }
        split.
        { rewrite Hs'. f_equal. in_sets. }
        split; [done|]. split; [by constructor|]. split.
        { apply NoDup_app in Hnd as (HndP & Hdisj & HndO).
          apply NoDup_app. split; [done|]. split.
          - intros u Hu [-> | Hin]%elem_of_cons.
            + apply Hfresh, elem_of_app. by left.
            + by apply (Hdisj u).
          - constructor; [|done]. intros Hin. apply Hfresh, elem_of_app. by right. }
        split.
        { intros u. rewrite elem_of_app, elem_of_cons, elem_of_cons.
          specialize (Hmem u). rewrite elem_of_app in Hmem.
          split.
          - intros [Hu | [-> | Hu]].
            + destruct (proj1 Hmem (or_introl Hu)) as (? & ? & Hn).
              split; [by right|]. split; [done|]. intros ?. apply Hn, elem_of_union. by right.
            + split; [by left|]. done.
            + destruct (proj1 Hmem (or_intror Hu)) as (? & ? & Hn).
              split; [by right|]. split; [done|]. intros ?. apply Hn, elem_of_union. by right.
          - intros ([-> | Hu] & Hne' & Hns'); [by right; left|].
            destruct (decide (u = url)) as [-> | Hneq]; [by right; left|].
            destruct (proj2 Hmem) as [? | ?]; [|by left|by right; right].
            split; [done|]. split; [done|]. rewrite elem_of_union, elem_of_singleton. tauto. }
        split; [by apply sublist_skip|]. split; [by apply sublist_cons|].
        split. { intros key H1 H2. rewrite Hk by done. by apply Hkeys. }
        done.
Qed.

End SeedFacts.

(** ** Only the seeding assigns [allowed_domains] *)
Module ScopeFacts.
Import Crawler Steps Frame StepFacts QuietFacts LinkFacts.

Lemma scope_ret {A} (a : A) : keeps_scope (ret a).
Proof. by intros w. Qed.

Lemma scope_raise {A} (name : string) : keeps_scope (@raise A name).
Proof. by intros w. Qed.

Lemma scope_bind {A B} (m : M A) (k : A -> M B) :
  keeps_scope m -> (forall a, keeps_scope (k a)) -> keeps_scope (bind m k).
Proof.
  intros Hm Hk w. rewrite bind_eq. specialize (Hm w).
  destruct (m w) as [[a|e] w1]; cbn in *; [|done].
  by rewrite (Hk a w1).
Qed.

Lemma scope_catch {A} (m : M A) (h : exn -> M A) :
  keeps_scope m -> (forall e, keeps_scope (h e)) -> keeps_scope (catch m h).
Proof.
  intros Hm Hh w. unfold catch. specialize (Hm w).
  destruct (m w) as [[a|e] w1]; cbn in *; [done|].
  by rewrite (Hh e w1).
Qed.

Lemma scope_finally {A} (m : M A) (f : M unit) :
  keeps_scope m -> keeps_scope f -> keeps_scope (finally m f).
Proof.
  intros Hm Hf w. unfold finally. specialize (Hm w).
  destruct (m w) as [r w1]. specialize (Hf w1).
  destruct (f w1) as [[[]|e] w2]; cbn in *; congruence.
Qed.

Lemma scope_for_each {A} (l : list A) (body : A -> M unit) :
  (forall a, keeps_scope (body a)) -> keeps_scope (for_each l body).
Proof.
  intros Hb. induction l as [|a l IH]; [apply scope_ret|].
  cbn [for_each]. apply scope_bind; [apply Hb | by intros _].
Qed.

Lemma scope_from_option {A} (name : string) (o : option A) :
  keeps_scope (from_option name o).
Proof. by destruct o. Qed.

Ltac scope_step :=
  lazymatch goal with
  | |- keeps_scope (bind _ _) => apply scope_bind; [|intros ?]
  | |- keeps_scope (catch _ _) => apply scope_catch; [|intros ?]
  | |- keeps_scope (finally _ _) => apply scope_finally
  | |- keeps_scope (for_each _ _) => apply scope_for_each; intros ?
  | |- keeps_scope (ret _) => apply scope_ret
  | |- keeps_scope (raise _) => apply scope_raise
  | |- keeps_scope (from_option _ _) => apply scope_from_option
  | |- keeps_scope (if ?b then _ else _) => destruct b
  | |- keeps_scope (match ?x with _ => _ end) => destruct x
  | |- keeps_scope _ => by intros ?
  end.

Lemma scope_sismember (key val : string) : keeps_scope (Redis.sismember key val).
Proof. unfold Redis.sismember. repeat scope_step. Qed.

Lemma scope_sadd (key val : string) : keeps_scope (Redis.sadd key val).
Proof. unfold Redis.sadd. repeat scope_step. Qed.

Lemma scope_lpush (key val : string) : keeps_scope (Redis.lpush key val).
Proof. unfold Redis.lpush. repeat scope_step. Qed.

Lemma scope_rpush (key val : string) : keeps_scope (Redis.rpush key val).
Proof. unfold Redis.rpush. repeat scope_step. Qed.

Lemma scope_lpop (key : string) : keeps_scope (Redis.lpop key).
Proof. unfold Redis.lpop. repeat scope_step. Qed.

Lemma scope_delete (key : string) : keeps_scope (Redis.delete key).
Proof. unfold Redis.delete. repeat scope_step. Qed.

Section Scope.
Context (env : Env).

Lemma scope_save_file (data domain url content_type : string) :
  keeps_scope (save_file env data domain url content_type).
Proof.
  unfold save_file, Os.makedirs, Os.write_file, Os.getsize, Os.remove, Os.rename,
    extract_year_from_url.
  repeat scope_step.
Qed.

Lemma scope_download_pdf_direct (url domain : string) :
  keeps_scope (download_pdf_direct env url domain).
Proof.
  unfold download_pdf_direct, session_get_url, log_download.
  repeat first [ apply scope_save_file | apply scope_lpush | scope_step ].
Qed.

Lemma scope_extract_links (soup : Soup) (base_url : string) :
  keeps_scope (extract_links env soup base_url).
Proof.
  intros w. unfold extract_links.
  by rewrite (proj1 (extract_links_from_run env (anchor_hrefs soup) base_url w)).
Qed.

Lemma scope_embedded_from_srcs (srcs : list (option string)) (url : string) :
  keeps_scope (embedded_from_srcs env srcs url).
Proof.
  induction srcs as [|src rest IH]; [apply scope_ret|].
  cbn [embedded_from_srcs]. repeat first [ apply IH | scope_step ].
Qed.

Lemma scope_embedded_from_hrefs (hrefs : list string) (url : string) :
  keeps_scope (embedded_from_hrefs env hrefs url).
Proof.
  induction hrefs as [|href rest IH]; [apply scope_ret|].
  cbn [embedded_from_hrefs]. repeat first [ apply IH | scope_step ].
Qed.

Lemma scope_enqueue_link (link : string) : keeps_scope (enqueue_link link).
Proof.
  unfold enqueue_link.
  repeat first [ apply scope_sismember | apply scope_rpush | apply scope_sadd | scope_step ].
Qed.

Lemma scope_process_url_body (process : string -> M bool) (url : string) :
  (forall u, keeps_scope (process u)) ->
  keeps_scope (process_url_body env process url).
Proof.
  intros Hp.
  unfold process_url_body, get_domain_m, handle_javascript_content, session_get_url,
    check_for_embedded_documents.
  repeat first [ apply scope_download_pdf_direct | apply scope_extract_links
               | apply scope_enqueue_link | apply scope_embedded_from_srcs
               | apply scope_embedded_from_hrefs | apply scope_sismember
               | apply Hp | scope_step ].
Qed.

Lemma scope_process_url (depth : nat) (url : string) :
  keeps_scope (process_url env depth url).
Proof.
  revert url. induction depth as [|d IH]; intros url; cbn [process_url].
  - repeat scope_step.
  - apply scope_catch; [|intros ?; apply scope_ret].
    by apply scope_process_url_body.
Qed.

Lemma scope_crawl_step (depth : nat) : keeps_scope (crawl_step env depth).
Proof.
  unfold crawl_step.
  repeat first [ apply scope_lpop | apply scope_process_url | scope_step ].
Qed.

Lemma scope_crawl_loop (depth turns : nat) : keeps_scope (crawl_loop env depth turns).
Proof.
  induction turns as [|k IH]; [apply scope_ret|].
  cbn [crawl_loop]. apply scope_bind; [apply scope_crawl_step | by intros _].
Qed.

End Scope.

End ScopeFacts.

(** ** The start of a run *)
Module RunFacts.
Import Crawler Steps Frame StepFacts QuietFacts LinkFacts SeedFacts ScopeFacts.

Lemma reset_frontier_run (w : World) :
  reset_frontier w
  = (Ok tt,
     mkWorld (delete "seen_urls" (delete "url_queue" (redis w))) (fs w) (allowed_domains w)
       (clock w) (EvDelete "seen_urls" :: EvDelete "url_queue" :: trace w)).
Proof. reflexivity. Qed.

(** The world in which [run] enters its [try] block. *)
Lemma run_started (env : Env) (depth turns : nat) (w : World) :
  launch_browser env (clock w) = true ->
  run env depth turns w
  = finally (reset_frontier ;; seed_frontier env ;; crawl_loop env depth turns) cleanup
      (mkWorld (redis w) (fs w) (allowed_domains w) (S (clock w)) (trace w)).
Proof. intros H. unfold run. by rewrite bind_eq, init_browser_run, H. Qed.

Section Seeding.
Context (env : Env) (w : World).

Local Abbreviation urls_of lines := (shuffle env (clock w) (map PyStr.strip lines)).

(** Seeding from a frontier that was just reset. *)
Lemma seed_frontier_run (lines : list string) :
  read_seed_lines env (clock w) = Some lines ->
  (forall u, u ∈ urls_of lines -> PyStr.nonempty u = true ->
     is_Some (Domain.get_domain u)) ->
  list_at (redis w) "url_queue" = Some [] ->
  set_at (redis w) "seen_urls" = Some ∅ ->
  exists (pdfs others : list string) (w' : World),
    seed_frontier env w = (Ok tt, w') /\
    list_at (redis w') "url_queue" = Some (pdfs ++ others)%list /\
    set_at (redis w') "seen_urls" = Some (list_to_set (pdfs ++ others)%list) /\
    NoDup (pdfs ++ others)%list /\
    (forall u, u ∈ (pdfs ++ others)%list <->
       u ∈ urls_of lines /\ PyStr.nonempty u = true) /\
    Forall (fun u => is_pdf_url u = true) pdfs /\
    Forall (fun u => is_pdf_url u = false) others /\
    others `sublist_of` urls_of lines /\
    rev pdfs `sublist_of` urls_of lines /\
    (forall d, d ∈ allowed_domains w' <->
       exists u, u ∈ urls_of lines /\ PyStr.nonempty u = true /\
                 Domain.get_domain u = Some d) /\
    (forall key, key <> "url_queue" -> key <> "seen_urls" ->
       redis w' !! key = redis w !! key) /\
    fs w' = fs w.
Proof.
  intros Hread Hparse Hq Hs. unfold seed_frontier.
  rewrite bind_eq. cbn [tick]. rewrite bind_eq, from_option_run, Hread.
  set (w1 := mkWorld _ _ _ _ _).
  rewrite bind_eq.
  destruct (seed_domains_run (urls_of lines) w1) as (Hw & Hok & _).
  destruct (Hok Hparse) as (domains & Hdom & Hmem).
  destruct (seed_domains (urls_of lines) w1) as [r w2]. cbn [fst snd] in Hw, Hdom.
  subst r w2. rewrite bind_eq. cbn [set_allowed_domains].
  set (w2 := mkWorld _ _ _ _ _).
  destruct (seeding_run (urls_of lines) [] [] ∅ w2 Hq Hs)
    as (P & O & w' & Hrun & Hq' & Hs' & HP & HO & Hnd & Hin & HsubO & HsubP & Hk & Hfs
        & Had & _).
  exists P, O, w'. split; [done|].
  rewrite app_nil_r in Hq'. cbn [app] in Hq'. rewrite union_empty_r_L in Hs'.
  do 3 (split; [done|]). split.
  { intros u. rewrite Hin. split; [tauto|]. intros [? ?]. split; [done|]. split; [done|].
    apply not_elem_of_empty. }
  do 4 (split; [done|]). split; [by rewrite Had|]. done.
Qed.

(** Seeding stops at the seed file or at the first seed [urlparse]
    refuses, before anything is queued. *)
Lemma seed_frontier_fails (name : string) :
  match read_seed_lines env (clock w) with
  | None => name = "OSError"
  | Some lines =>
      name = "ValueError" /\
      exists bad, bad ∈ urls_of lines /\ PyStr.nonempty bad = true /\
                  Domain.get_domain bad = None
  end ->
  seed_frontier env w
  = (Raise (Exn name),
     mkWorld (redis w) (fs w) (allowed_domains w) (S (clock w)) (trace w)).
Proof.
  intros H. unfold seed_frontier.
  rewrite bind_eq. cbn [tick]. rewrite bind_eq, from_option_run.
  destruct (read_seed_lines env (clock w)) as [lines|]; [|by subst name].
  destruct H as (-> & bad & Hin & Hne & Hbad).
  set (w1 := mkWorld _ _ _ _ _).
  rewrite bind_eq.
  destruct (seed_domains_run (urls_of lines) w1) as (Hw & _ & Hraise).
  specialize (Hraise bad Hin Hne Hbad).
  destruct (seed_domains (urls_of lines) w1) as [r w2]. cbn [fst snd] in Hw, Hraise.
  by subst r w2.
Qed.

End Seeding.

End RunFacts.

(** ** What the actions leave alone *)
Module FrameFacts.
Import Crawler Steps Frame StepFacts QuietFacts RunFacts.

Lemma action_same_elsewhere w w' : action w w' -> same_elsewhere w w'.
Proof.
  intros Hact key Hkey.
  assert (Hq : key <> "url_queue").
  { intros ->. apply Hkey. apply list_elem_of_here. }
  assert (Hs : key <> "seen_urls").
  { intros ->. apply Hkey. apply list_elem_of_further, list_elem_of_here. }
  assert (Hl : key <> "downloaded_files").
  { intros ->. apply Hkey. do 2 apply list_elem_of_further. apply list_elem_of_here. }
  destruct Hact as [Hr _ | e _ Hr _ | entry log _ Hr _ | front url q s _ _ _ Hr _
                   | _ Hr _ | url q _ _ Hr _].
  - by rewrite Hr.
  - by rewrite Hr.
  - rewrite Hr. by rewrite lookup_insert_ne.
  - rewrite Hr. by rewrite !lookup_insert_ne.
  - by rewrite Hr.
  - by apply Hr.
Qed.

Lemma actions_same_elsewhere w w' : rtc action w w' -> same_elsewhere w w'.
Proof.
  induction 1 as [w | w w1 w2 Hact _ IH]; [by intros ? ?|].
  intros key Hkey. rewrite (IH key Hkey). by apply action_same_elsewhere.
Qed.

Lemma action_seen_grows w w' : action w w' -> seen_grows w w'.
Proof.
  intros Hact s0 Hs0. unfold set_at in *.
  destruct Hact as [Hr _ | e _ Hr _ | entry log _ Hr _ | front url q s _ Hs _ Hr _
                   | _ Hr _ | url q _ _ Hr _].
  - exists s0. by rewrite Hr.
  - exists s0. by rewrite Hr.
  - exists s0. rewrite Hr. by rewrite lookup_insert_ne.
  - exists ({[url]} ∪ s). rewrite Hr, lookup_insert_eq. split; [done|].
    unfold set_at in Hs. rewrite Hs0 in Hs. injection Hs as <-.
    intros x Hx. apply elem_of_union. by right.
  - exists s0. by rewrite Hr.
  - exists s0. by rewrite Hr.
Qed.

Lemma actions_seen_grows w w' : rtc action w w' -> seen_grows w w'.
Proof.
  induction 1 as [w | w w1 w2 Hact _ IH]; [intros s Hs; by exists s|].
  intros s Hs. destruct (action_seen_grows _ _ Hact s Hs) as (s1 & Hs1 & Hsub1).
  destruct (IH s1 Hs1) as (s2 & Hs2 & Hsub2).
  exists s2. split; [done|]. by etransitivity.
Qed.

(** A run whose browser started is the reset followed by actions. *)
Lemma run_actions (env : Env) (depth turns : nat) (w : World) :
  launch_browser env (clock w) = true ->
  rtc action
    (reset_frontier (mkWorld (redis w) (fs w) (allowed_domains w) (S (clock w)) (trace w))).2
    (run env depth turns w).2.
Proof.
  intros Hlaunch. rewrite run_started by done.
  set (w1 := mkWorld _ _ _ _ _).
  unfold finally. rewrite bind_eq.
  change (reset_frontier w1) with (Ok tt, (reset_frontier w1).2).
  cbv iota beta.
  set (w2 := (reset_frontier w1).2).
  pose proof (does_bind (seed_frontier env) (fun _ => crawl_loop env depth turns)
                (does_seed_frontier env) (fun _ => does_crawl_loop env depth turns) w2)
    as Hrest.
  destruct (bind (seed_frontier env) _ w2) as [r w3]. cbn [snd] in Hrest.
  pose proof (does_cleanup w3) as Hc.
  destruct (cleanup w3) as [[[]|e] w4]; cbn [snd] in *; by etransitivity.
Qed.

(** What the frontier invariant says of the store. *)
Lemma frontier_inv_pending t0 w :
  frontier_inv t0 w ->
  exists (q : list string) (s : gset string),
    list_at (redis w) "url_queue" = Some q /\
    set_at (redis w) "seen_urls" = Some s /\
    NoDup q /\
    forall url, url ∈ q -> url ∈ s.
Proof.
  intros (t & q & s & _ & Hq & Hs & Hnd & Hseen & Hperm).
  exists q, s. split; [done|]. split; [done|]. split.
  - rewrite Hperm in Hnd. by apply NoDup_app in Hnd as (_ & _ & ?).
  - intros url Hin. apply Hseen. rewrite Hperm. apply elem_of_app. by right.
Qed.

Lemma idle_turns_commute (k : nat) (t : list event) :
  (concat (replicate k idle_turn) ++ idle_turn ++ t)%list
  = (idle_turn ++ concat (replicate k idle_turn) ++ t)%list.
Proof.
  induction k as [|k IH]; [done|].
  cbn [replicate concat]. rewrite <- !app_assoc. by rewrite IH.
Qed.

End FrameFacts.

(** ** Requests and sleeps *)
Module PaceFacts.
Import Crawler Steps Frame StepFacts QuietFacts LinkFacts.

Lemma requests_app (t1 t2 : list event) : requests (t1 ++ t2) = requests t1 + requests t2.
Proof. unfold requests. by rewrite List.filter_app, length_app. Qed.

Lemma sleeps_app (t1 t2 : list event) : sleeps (t1 ++ t2) = sleeps t1 + sleeps t2.
Proof. unfold sleeps. by rewrite List.filter_app, length_app. Qed.

Lemma paced_weaken {A} (k k' : nat) (m : M A) : k <= k' -> paced k m -> paced k' m.
Proof.
  intros Hk Hm w. destruct (Hm w) as (t & Ht & Hn). exists t. split; [done|]. lia.
Qed.

Lemma paced_ret {A} (a : A) : paced 0 (ret a).
Proof. intros w. exists []. split; [done|]. cbn. lia. Qed.

Lemma paced_raise {A} (name : string) : paced 0 (@raise A name).
Proof. intros w. exists []. split; [done|]. cbn. lia. Qed.

Lemma paced_from_option {A} (name : string) (o : option A) : paced 0 (from_option name o).
Proof. destruct o; [apply paced_ret | apply paced_raise]. Qed.

Lemma paced_quiet {A} (m : M A) : quiet m -> paced 0 m.
Proof.
  intros Hm w. exists []. split; [apply Hm|]. cbn. lia.
Qed.

Lemma paced_bind {A B} (k1 k2 : nat) (m : M A) (f : A -> M B) :
  paced k1 m -> (forall a, paced k2 (f a)) -> paced (k1 + k2) (bind m f).
Proof.
  intros Hm Hf w. rewrite bind_eq. destruct (Hm w) as (t1 & Ht1 & Hn1).
  destruct (m w) as [[a|e] w1]; cbn [snd] in *.
  - destruct (Hf a w1) as (t2 & Ht2 & Hn2).
    exists (t2 ++ t1)%list. split; [by rewrite Ht2, Ht1, app_assoc|].
    rewrite requests_app, sleeps_app. lia.
  - exists t1. split; [done|]. lia.
Qed.

Lemma paced_catch {A} (k1 k2 : nat) (m : M A) (h : exn -> M A) :
  paced k1 m -> (forall e, paced k2 (h e)) -> paced (k1 + k2) (catch m h).
Proof.
  intros Hm Hh w. unfold catch. destruct (Hm w) as (t1 & Ht1 & Hn1).
  destruct (m w) as [[a|e] w1]; cbn [snd] in *.
  - exists t1. split; [done|]. lia.
  - destruct (Hh e w1) as (t2 & Ht2 & Hn2).
    exists (t2 ++ t1)%list. split; [by rewrite Ht2, Ht1, app_assoc|].
    rewrite requests_app, sleeps_app. lia.
Qed.

Lemma paced_finally {A} (m : M A) (f : M unit) :
  paced 0 m -> paced 0 f -> paced 0 (finally m f).
Proof.
  intros Hm Hf w. unfold finally. destruct (Hm w) as (t1 & Ht1 & Hn1).
  destruct (m w) as [r w1]. cbn [snd] in *.
  destruct (Hf w1) as (t2 & Ht2 & Hn2).
  exists (t2 ++ t1)%list. split.
  - destruct (f w1) as [[[]|e] w2]; cbn [snd] in *; by rewrite Ht2, Ht1, app_assoc.
  - rewrite requests_app, sleeps_app. lia.
Qed.

Lemma paced_for_each {A} (l : list A) (body : A -> M unit) :
  (forall a, paced 0 (body a)) -> paced 0 (for_each l body).
Proof.
  intros Hb. induction l as [|a l IH]; [apply paced_ret|].
  cbn [for_each]. apply (paced_bind 0 0); [apply Hb | by intros _].
Qed.

(** A sleep pays for the two requests that follow it. *)
Lemma paced_after_sleep {A} (m : M A) : paced 2 m -> paced 0 (emit EvSleep ;; m).
Proof.
  intros Hm w. rewrite bind_eq. cbn [emit].
  set (w1 := mkWorld _ _ _ _ _).
  destruct (Hm w1) as (t & Ht & Hn).
  exists (t ++ [EvSleep])%list. split.
  - rewrite Ht. unfold w1. cbn [trace]. by rewrite <- app_assoc.
  - rewrite requests_app, sleeps_app. cbn. lia.
Qed.

(** An event that is no request. *)
Lemma paced_emit (e : event) : is_fetch e = false -> paced 0 (emit e).
Proof.
  intros He w. exists [e]. split; [done|].
  unfold requests. cbn. rewrite He. cbn. lia.
Qed.

Lemma paced_state {A} (m : M A) : (forall w, trace (m w).2 = trace w) -> paced 0 m.
Proof. intros Hm w. exists []. split; [apply Hm|]. cbn. lia. Qed.

Ltac paced_step :=
  lazymatch goal with
  | |- paced 0 (bind _ _) => apply (paced_bind 0 0); [|intros ?]
  | |- paced 0 (catch _ _) => apply (paced_catch 0 0); [|intros ?]
  | |- paced 0 (for_each _ _) => apply paced_for_each; intros ?
  | |- paced 0 (ret _) => apply paced_ret
  | |- paced 0 (raise _) => apply paced_raise
  | |- paced 0 (from_option _ _) => apply paced_from_option
  | |- paced 0 (emit _) => apply paced_emit; reflexivity
  | |- paced 0 (if ?b then _ else _) => destruct b
  | |- paced 0 (match ?x with _ => _ end) => destruct x
  | |- paced 0 _ => apply paced_state; by intros ?
  end.

Lemma paced_sismember (key val : string) : paced 0 (Redis.sismember key val).
Proof. unfold Redis.sismember. repeat paced_step. Qed.

Lemma paced_sadd (key val : string) : paced 0 (Redis.sadd key val).
Proof. unfold Redis.sadd. repeat paced_step. Qed.

Lemma paced_lpush (key val : string) : paced 0 (Redis.lpush key val).
Proof. unfold Redis.lpush. repeat paced_step. Qed.

Lemma paced_rpush (key val : string) : paced 0 (Redis.rpush key val).
Proof. unfold Redis.rpush. repeat paced_step. Qed.

Lemma paced_lpop (key : string) : paced 0 (Redis.lpop key).
Proof. unfold Redis.lpop. repeat paced_step. Qed.

Lemma paced_delete (key : string) : paced 0 (Redis.delete key).
Proof. unfold Redis.delete. repeat paced_step. Qed.

Lemma paced_enqueue_link (link : string) : paced 0 (enqueue_link link).
Proof.
  unfold enqueue_link.
  repeat first [ apply paced_sismember | apply paced_rpush | apply paced_sadd | paced_step ].
Qed.

Lemma paced_seed_url (url : string) : paced 0 (seed_url url).
Proof.
  unfold seed_url.
  repeat first [ apply paced_sismember | apply paced_rpush | apply paced_lpush
               | apply paced_sadd | paced_step ].
Qed.

Lemma paced_seed_domains (urls : list string) : paced 0 (seed_domains urls).
Proof.
  apply paced_state. intros w. by rewrite (proj1 (seed_domains_run urls w)).
Qed.

Section Pace.
Context (env : Env).

Lemma paced_session_get_url (url : string) : paced 1 (session_get_url env url).
Proof.
  intros w. rewrite session_get_url_run. exists [EvGet url]. split; [done|]. cbn. lia.
Qed.

Lemma paced_handle_javascript_content (url : string) :
  paced 1 (handle_javascript_content env url).
Proof. intros w. exists [EvGoto url]. split; [done|]. cbn. lia. Qed.

Lemma paced_download_pdf_direct (url domain : string) :
  paced 1 (download_pdf_direct env url domain).
Proof.
  unfold download_pdf_direct, log_download.
  apply (paced_bind 1 0); [apply paced_session_get_url|]. intros response.
  repeat first [ apply paced_quiet, quiet_save_file | apply paced_lpush | paced_step ].
Qed.

Lemma paced_extract_links (soup : Soup) (base_url : string) :
  paced 0 (extract_links env soup base_url).
Proof.
  apply paced_state. intros w. unfold extract_links.
  by rewrite (proj1 (extract_links_from_run env (anchor_hrefs soup) base_url w)).
Qed.

Lemma paced_embedded_from_srcs (srcs : list (option string)) (url : string) :
  paced 0 (embedded_from_srcs env srcs url).
Proof.
  induction srcs as [|src rest IH]; [apply paced_ret|].
  cbn [embedded_from_srcs]. repeat first [ apply IH | paced_step ].
Qed.

Lemma paced_embedded_from_hrefs (hrefs : list string) (url : string) :
  paced 0 (embedded_from_hrefs env hrefs url).
Proof.
  induction hrefs as [|href rest IH]; [apply paced_ret|].
  cbn [embedded_from_hrefs]. repeat first [ apply IH | paced_step ].
Qed.

Lemma paced_check_for_embedded_documents (process : string -> M bool)
    (content : option string) (domain url : string) :
  (forall u, paced 0 (process u)) ->
  paced 0 (check_for_embedded_documents env process content domain url).
Proof.
  intros Hp. unfold check_for_embedded_documents.
  repeat first [ apply paced_embedded_from_srcs | apply paced_embedded_from_hrefs
               | apply paced_sismember | apply Hp | paced_step ].
Qed.

Lemma paced_process_url_body (process : string -> M bool) (url : string) :
  (forall u, paced 0 (process u)) ->
  paced 0 (process_url_body env process url).
Proof.
  intros Hp. unfold process_url_body, get_domain_m.
  apply (paced_bind 0 0); [apply paced_from_option|]. intros domain.
  apply paced_after_sleep.
  destruct (_ || _).
  - apply (paced_weaken 1); [lia | apply paced_download_pdf_direct].
  - apply (paced_bind 1 1); [apply paced_handle_javascript_content|]. intros html.
    apply (paced_bind 1 0).
    + destruct (match html with Some h => PyStr.nonempty h | None => false end).
      * apply (paced_weaken 0); [lia|]. repeat paced_step.
      * apply (paced_bind 1 0); [apply paced_session_get_url|]. intros response.
        repeat paced_step.
    + intros [soup|]; [|apply paced_ret].
      repeat first [ apply paced_extract_links | apply paced_enqueue_link
                   | apply paced_check_for_embedded_documents, Hp | paced_step ].
Qed.

Lemma paced_process_url (depth : nat) (url : string) :
  paced 0 (process_url env depth url).
Proof.
  revert url. induction depth as [|d IH]; intros url; cbn [process_url].
  - repeat paced_step.
  - apply (paced_catch 0 0); [|intros ?; apply paced_ret].
    by apply paced_process_url_body.
Qed.

Lemma paced_crawl_step (depth : nat) : paced 0 (crawl_step env depth).
Proof.
  unfold crawl_step.
  repeat first [ apply paced_lpop | apply paced_process_url | paced_step ].
Qed.

Lemma paced_crawl_loop (depth turns : nat) : paced 0 (crawl_loop env depth turns).
Proof.
  induction turns as [|k IH]; [apply paced_ret|].
  cbn [crawl_loop]. apply (paced_bind 0 0); [apply paced_crawl_step | by intros _].
Qed.

Lemma paced_run (depth turns : nat) : paced 0 (run env depth turns).
Proof.
  unfold run, init_browser, reset_frontier, seed_frontier, cleanup.
  apply (paced_bind 0 0); [repeat paced_step|]. intros _.
  apply paced_finally; [|repeat paced_step].
  repeat first [ apply paced_delete | apply paced_seed_domains | apply paced_seed_url
               | apply paced_crawl_loop | paced_step ].
Qed.

End Pace.

End PaceFacts.

(** ** The year printed by [strftime] *)
Module DecimalFacts.
Import Year StrFacts SliceFacts.

Lemma digits_of_app (fuel n : nat) (acc : string) :
  digits_of fuel n acc = digits_of fuel n EmptyString +:+ acc.
Proof.
  revert n acc. induction fuel as [|f IH]; intros n acc; cbn [digits_of].
  - by rewrite app_nil.
  - destruct (n / 10 =? 0).
    + by rewrite app_cons, app_nil.
    + rewrite (IH _ (String _ acc)), (IH _ (String _ EmptyString)).
      rewrite app_assoc_str. by rewrite app_cons, app_nil.
Qed.

Lemma value_from_app (a : nat) (s t : string) :
  value_from a (s +:+ t)
  = match value_from a s with Some v => value_from v t | None => None end.
Proof.
  revert a. induction s as [|c s IH]; intros a.
  - by rewrite app_nil.
  - rewrite app_cons. cbn [value_from]. destruct (PyStr.is_digit c); [apply IH | done].
Qed.

Lemma digit_char (k : nat) :
  k < 10 ->
  PyStr.is_digit (PyStr.chr (48 + k)) = true /\ PyStr.ord (PyStr.chr (48 + k)) - 48 = k.
Proof.
  intros Hk. unfold PyStr.is_digit, PyStr.ord, PyStr.chr.
  rewrite nat_ascii_embedding by lia. split; [|lia].
  apply andb_true_iff. split; apply Nat.leb_le; lia.
Qed.

(** [strftime('%Y')] prints the year number: read back as a decimal
    numeral it is the year, and it is never empty. *)
Lemma digits_of_value (fuel n : nat) :
  n < fuel ->
  value_from 0 (digits_of fuel n EmptyString) = Some n /\
  PyStr.nonempty (digits_of fuel n EmptyString) = true.
Proof.
  revert n. induction fuel as [|f IH]; intros n Hn; [lia|].
  cbn [digits_of].
  destruct (digit_char (n mod 10)) as [Hd Ho]; [by apply Nat.mod_upper_bound|].
  destruct (Nat.eqb_spec (n / 10) 0) as [Hz|Hz].
  - cbn [value_from]. rewrite Hd, Ho. split; [|done].
    f_equal. rewrite (Nat.div_mod_eq n 10) at 2. rewrite Hz. lia.
  - rewrite digits_of_app.
    assert (Hlt : n / 10 < f).
    { destruct (Nat.eq_dec n 0) as [->|Hpos]; [by elim Hz|].
      assert (n / 10 < n) by (apply Nat.div_lt; lia). lia. }
    destruct (IH (n / 10) Hlt) as [Hv Hne].
    split.
    + rewrite value_from_app, Hv. cbn [value_from]. rewrite Hd, Ho.
      f_equal. symmetry. apply Nat.div_mod_eq.
    + destruct (digits_of f (n / 10) EmptyString); [done|]. by rewrite app_cons.
Qed.

Lemma strftime_Y_value (year : nat) : decimal_value (strftime_Y year) = Some year.
Proof.
  unfold decimal_value, strftime_Y.
  destruct (digits_of_value (S year) year) as [Hv ->]; [lia | exact Hv].
Qed.
End DecimalFacts.

(** ** Hosts and their last two labels *)
Module HostFacts.
Import PyStr StrFacts SliceFacts UrlFacts.






End HostFacts.

(** ** When [process_url] answers [True] *)
Module OutcomeFacts.
Import Crawler Steps Frame StepFacts QuietFacts LinkFacts DownloadFacts.

Lemma process_url_out_of_stack (env : Env) (url : string) (w : World) :
  process_url env 0 url w = (Ok false, w).
Proof. reflexivity. Qed.

(** [process_url] answers [True] only if the URL parsed, the document or
    the page was fetched and, for a document, the accept gate let it
    through: a failure of any of these gives [False]. *)
Lemma process_url_true_only_if (env : Env) (depth : nat) (url : string) (w : World) :
  (process_url env depth url w).1 = Ok true -> fetched_and_accepted env url w.
Proof.
  destruct depth as [|d]; [by rewrite process_url_out_of_stack|].
  change (process_url env (S d) url)
    with (catch (process_url_body env (process_url env d) url) (fun _ => ret false)).
  unfold catch, process_url_body, get_domain_m, fetched_and_accepted.
  rewrite bind_eq, from_option_run.
  destruct (Domain.get_domain url) as [domain|]; [|done].
  rewrite bind_eq. cbn [emit].
  set (w1 := mkWorld _ _ _ _ _).
  intros Htrue. exists domain. split; [done|].
  unfold is_direct_document.
  destruct (PyStr.endswith (PyStr.lower url) ".pdf" || PyStr.endswith (PyStr.lower url) ".xml").
  - destruct (download_pdf_direct_cases env url domain w1)
      as [[Hr _] | [[Hr _] | (response & Hget & Hst & Hgate & _)]].
    + by rewrite Hr in Htrue.
    + by rewrite Hr in Htrue.
    + by exists response.
  - revert Htrue. unfold handle_javascript_content.
    repeat (progress (rewrite ?bind_eq;
                      cbn [emit tick ret redis fs allowed_domains clock trace w1])).
    unfold w1. cbn [clock].
    destruct (render_page env (clock w) url) as [html|] eqn:Hrender.
    + destruct (PyStr.nonempty html) eqn:Hne.
      * rewrite !bind_eq, from_option_run.
        destruct (BeautifulSoup env (Some html)) as [soup|] eqn:Hsoup; [|done].
        intros _. left. exists html. by rewrite Hsoup.
      * rewrite !bind_eq, session_get_url_run. cbn [clock].
        destruct (session_get env (S (clock w)) url) as [response|] eqn:Hget; [|done].
        destruct (Nat.eqb_spec (status_code response) 200) as [Hst|Hst]; [|done].
        cbn [negb]. rewrite !bind_eq, from_option_run.
        destruct (BeautifulSoup env (Some (text response))) as [soup|] eqn:Hsoup; [|done].
        intros _. right. exists response. by rewrite Hsoup.
    + rewrite !bind_eq, session_get_url_run. cbn [clock].
      destruct (session_get env (S (clock w)) url) as [response|] eqn:Hget; [|done].
      destruct (Nat.eqb_spec (status_code response) 200) as [Hst|Hst]; [|done].
      cbn [negb]. rewrite !bind_eq, from_option_run.
      destruct (BeautifulSoup env (Some (text response))) as [soup|] eqn:Hsoup; [|done].
      intros _. right. exists response. by rewrite Hsoup.
Qed.

End OutcomeFacts.

(** ** Sanity checks of the pure helpers *)

Example get_domain_plain :
  Domain.get_domain "http://www.example.com:8080/a/b;p?q#f" = Some "example.com".
Proof. reflexivity. Qed.

Example get_domain_single_label : Domain.get_domain "http://localhost/x" = Some "localhost".
Proof. reflexivity. Qed.

Example urlparse_path_of_document :
  UrlParse.path <$> UrlParse.urlparse "https://example.com/2022/doc.xml;v=1?x=1#top"
  = Some "/2022/doc.xml".
Proof. reflexivity. Qed.

Example resolve_year_ties_and_order :
  Year.resolve_year [None; Some "2021"; Some "1999"; Some "2021"] 2026 = "1999".
Proof. reflexivity. Qed.

Example check_copyright_upper : Crawler.check_copyright "ALL RIGHTS RESERVED." = true.
Proof. reflexivity. Qed.

Example check_copyright_clean : Crawler.check_copyright "Part 1: General requirements" = false.
Proof. reflexivity. Qed.

(** The metadata candidate is never a year: when the pattern matches,
    [group(2)] raises and the handler returns [None]. *)
Lemma extract_year_from_pdf_none (env : Env) (file : option string) :
  Crawler.extract_year_from_pdf env file = None.
Proof.
  unfold Crawler.extract_year_from_pdf.
  destruct (file ≫= fitz_open env) as [doc|]; [|done].
  destruct (is_encrypted doc); [done|].
  assert (H : forall keys, Crawler.metadata_year env (metadata doc) keys = None
                        \/ Crawler.metadata_year env (metadata doc) keys = Some None).
  { induction keys as [|key keys IH]; simpl; [by right|].
    destruct (metadata doc !! key) as [v|]; [|exact IH].
    destruct (PyStr.nonempty v); [|exact IH].
    destruct (re_search env _ false v); [by left | exact IH]. }
  by destruct (H ["creationDate"; "modDate"]) as [-> | ->].
Qed.

(** * The claims *)

Import Crawler Steps StepFacts Demo StrFacts YearFacts OsFacts SaveFacts QuietFacts.

(** C1.  Whatever the seed file, the pages and the links found on them,
    a run of the crawler (browser start, reset, seeding, any number of
    turns of the loop) pushes no URL twice on the pending queue and pops
    no URL twice from it, and every URL it pushed is in the seen set:
    each push is guarded by the membership test and followed by the
    insertion. *)
Theorem frontier_dedup (env : Env) (depth turns : nat) (w : World) :
  let w' := (run env depth turns w).2 in
  exists t : list event,
    trace w' = (t ++ trace w)%list /\
    NoDup (enqueued t) /\
    NoDup (dequeued t) /\
    (forall url, url ∈ enqueued t ->
       exists s, set_at (redis w') "seen_urls" = Some s /\ url ∈ s).
Proof.
  cbv zeta. destruct (run_shape env depth turns w) as [-> | Hacts].
  - exists []. repeat split; try constructor.
    intros url Hu. by apply elem_of_nil in Hu.
  - apply (frontier_inv_dedup (trace w)).
    eapply actions_frontier_inv; [exact Hacts|].
    apply (reset_frontier_inv (mkWorld (redis w) (fs w) (allowed_domains w)
                                 (S (clock w)) (trace w))).
Qed.

(** C2.  The resolved year is one of the candidates that are not [None]
    and no such candidate is smaller in the order of Python strings;
    among "2021", "2019" and "2023" it is "2019"; when every candidate is
    [None] it is the current year as [strftime('%Y')] prints it: the
    decimal numeral of the year number, whatever the year, which has
    four digits for the years 1000 to 9999. *)
Theorem resolve_year_is_smallest (candidates : list (option string)) (now : nat) :
  (forall c, Some c ∈ candidates ->
     Some (Year.resolve_year candidates now) ∈ candidates /\
     String.leb (Year.resolve_year candidates now) c = true) /\
  Year.resolve_year [Some "2021"; Some "2019"; Some "2023"] now = "2019" /\
  (Forall (fun c => c = None) candidates ->
     Year.resolve_year candidates now = Year.strftime_Y now /\
     Year.decimal_value (Year.resolve_year candidates now) = Some now /\
     (10 * 100 <= now < 100 * 100 ->
        Year.four_digits (Year.resolve_year candidates now) = true /\
        Year.four_digits (Year.strftime_Y now) = true)).
Proof.
  split; [|split].
  - intros c Hc. unfold Year.resolve_year, Year.not_none.
    assert (Hc' : c ∈ omap id candidates) by (apply list_elem_of_omap; eauto).
    destruct (omap id candidates) as [|y l] eqn:E; [by apply elem_of_nil in Hc'|].
    destruct (py_min_spec l y) as [Hin Hmin]. split.
    + rewrite <- E in Hin. apply list_elem_of_omap in Hin as (o & Ho & Hid).
      simpl in Hid. by subst o.
    + rewrite leb_ltb, (Hmin c Hc'). done.
  - reflexivity.
  - intros Hall.
    assert (Hnow : Year.resolve_year candidates now = Year.strftime_Y now).
    { unfold Year.resolve_year, Year.not_none.
      assert (omap id candidates = []) as ->; [|done].
      induction Hall as [|o l Ho _ IH]; [done|]. subst o. exact IH. }
    rewrite Hnow. split; [done|]. split; [apply DecimalFacts.strftime_Y_value|].
    intros Hrange. split; by apply strftime_Y_four_digits.
Qed.

Lemma resolve_year_is_smallest_witness :
  String.leb (Year.resolve_year [Some "2021"; None; Some "1998"; Some "2023"] 2026) "2021"
    = true /\
  Year.resolve_year [None; None; None; None] 2026 = Year.strftime_Y 2026 /\
  Year.decimal_value (Year.resolve_year [None; None; None; None] 1987) = Some 1987 /\
  Year.four_digits (Year.strftime_Y 2026) = true /\
  Year.strftime_Y 2026 = "2026" /\ Year.strftime_Y 1987 = "1987".
Proof.
  destruct (resolve_year_is_smallest [Some "2021"; None; Some "1998"; Some "2023"] 2026)
    as (H1 & _ & _).
  destruct (resolve_year_is_smallest [None; None; None; None] 2026) as (_ & _ & H3).
  destruct (resolve_year_is_smallest [None; None; None; None] 1987) as (_ & _ & H4).
  split; [|split; [|split; [|split]]].
  - apply (H1 "2021"). apply list_elem_of_here.
  - apply H3. repeat constructor.
  - apply H4. repeat constructor.
  - apply H3; [repeat constructor | lia].
  - split; vm_compute; reflexivity.
Defined.

(** C3.  [process_url] never consults the robots gate: the commands it
    sends contain no robots check, whatever the URL and the world, and
    neither do those of a whole run, while URLs are fetched.  On the
    document URL of the small world the trace is a sleep, the GET and
    the log entry. *)
Theorem process_url_sends_no_robots_check :
  (forall (env : Env) (depth : nat) (url : string) (w : World),
     exists t : list event,
       trace (process_url env depth url w).2 = (t ++ trace w)%list /\
       List.filter is_robots_check t = []) /\
  (forall (env : Env) (depth turns : nat) (w : World),
     exists t : list event,
       trace (run env depth turns w).2 = (t ++ trace w)%list /\
       List.filter is_robots_check t = []) /\
  (let r := process_url demo_env 1 small_xml empty_world in
   r.1 = Ok true /\
   List.filter is_fetch (trace r.2) = [EvGet small_xml] /\
   List.filter is_robots_check (trace r.2) = []).
Proof.
  split; [|split].
  - intros env depth url w. apply actions_no_robots, does_process_url.
  - apply run_no_robots.
  - vm_compute. done.
Qed.

(** The gate itself, when called, does ask for the robots file. *)
Example can_fetch_consults_robots :
  let r := can_fetch demo_env small_xml empty_world in
  r.1 = Ok (Some true) /\ trace r.2 = [EvRobots "https://example.com/robots.txt"].
Proof. vm_compute. done. Qed.

(** C4.  On a response of four bytes of XML the save is refused, and
    [download_pdf_direct] still records a log entry, with no year and no
    path, and reports success. *)
Theorem failed_save_is_logged :
  let r := download_pdf_direct demo_env small_xml "example.com" empty_world in
  (save_file demo_env "<a/>" "example.com" small_xml "text/xml" empty_world).1
    = Ok (None, None) /\
  r.1 = Ok true /\
  list_at (redis r.2) "downloaded_files"
    = Some [demo_json_dumps
              (mkLogEntry "2026-11-03T12:00:00" small_xml "example.com" None None)] /\
  files (fs r.2) = ∅.
Proof. vm_compute. done. Qed.

(** C5.  A link to a PDF found on a page joins the tail of the queue,
    behind the URL already waiting, while the same URL given as a seed
    goes to the head; a seed that ends in [.xml] goes to the tail as
    well. *)
Theorem linked_document_joins_the_tail :
  let r := process_url demo_env 2 page_url busy_world in
  PyStr.endswith (PyStr.lower linked_pdf) ".pdf" = true /\
  list_at (redis busy_world) "url_queue" = Some [other_url] /\
  list_at (redis r.2) "url_queue" = Some [other_url; linked_pdf] /\
  list_at (redis r.2) "url_queue" <> Some [linked_pdf; other_url] /\
  list_at (redis (seed_url linked_pdf busy_world).2) "url_queue"
    = Some [linked_pdf; other_url] /\
  list_at (redis (seed_url small_xml busy_world).2) "url_queue"
    = Some [other_url; small_xml].
Proof. vm_compute. done. Qed.

(** The two enqueueing loops in every world: a seed URL not yet seen
    goes to the head of the queue when its lower-cased form ends in
    [.pdf] and to the tail when it ends in no document extension; a link
    found while crawling and not yet seen always goes to the tail; a URL
    already seen is not enqueued. *)
Theorem enqueue_positions (url : string) (w : World) (q : list string) (s : gset string) :
  list_at (redis w) "url_queue" = Some q ->
  set_at (redis w) "seen_urls" = Some s ->
  PyStr.nonempty url = true ->
  (url ∉ s -> PyStr.endswith (PyStr.lower url) ".pdf" = true ->
     list_at (redis (seed_url url w).2) "url_queue" = Some (url :: q)) /\
  (url ∉ s -> PyStr.endswith (PyStr.lower url) ".pdf" = false ->
     PyStr.endswith (PyStr.lower url) ".xml" = false ->
     list_at (redis (seed_url url w).2) "url_queue" = Some (q ++ [url])%list) /\
  (url ∉ s ->
     list_at (redis (enqueue_link url w).2) "url_queue" = Some (q ++ [url])%list) /\
  (url ∈ s ->
     (seed_url url w).2 = w /\ (enqueue_link url w).2 = w).
Proof.
  intros Hq Hs Hne.
  assert (Hpush : forall front : bool, url ∉ s ->
    list_at (redis ((let* seen := Redis.sismember "seen_urls" url in
                     if seen then ret tt
                     else (if front then Redis.lpush "url_queue" url
                           else Redis.rpush "url_queue" url) ;;
                          Redis.sadd "seen_urls" url) w).2) "url_queue"
    = Some (pushed front url q)).
  { intros front Hin. rewrite bind_eq, sismember_run, Hs.
    rewrite bool_decide_eq_false_2 by done.
    rewrite (push_then_sadd front url w q s Hq Hs). cbn.
    unfold list_at. by rewrite lookup_insert_ne, lookup_insert_eq. }
  assert (Hskip : forall front : bool, url ∈ s ->
    ((let* seen := Redis.sismember "seen_urls" url in
      if seen then ret tt
      else (if front then Redis.lpush "url_queue" url
            else Redis.rpush "url_queue" url) ;;
           Redis.sadd "seen_urls" url) w).2 = w).
  { intros front Hin. rewrite bind_eq, sismember_run, Hs.
    by rewrite bool_decide_eq_true_2. }
  unfold seed_url, enqueue_link. rewrite Hne. cbn [negb].
  repeat split.
  - intros Hin ->. apply (Hpush true Hin).
  - intros Hin -> _. apply (Hpush false Hin).
  - intros Hin. apply (Hpush false Hin).
  - destruct (PyStr.endswith (PyStr.lower url) ".pdf"); [apply (Hskip true H)|apply (Hskip false H)].
  - apply (Hskip false H).
Qed.

Lemma enqueue_positions_witness :
  list_at (redis (seed_url linked_pdf busy_world).2) "url_queue"
    = Some [linked_pdf; other_url] /\
  list_at (redis (seed_url "https://example.com/news" busy_world).2) "url_queue"
    = Some [other_url; "https://example.com/news"] /\
  list_at (redis (enqueue_link linked_pdf busy_world).2) "url_queue"
    = Some [other_url; linked_pdf] /\
  (seed_url other_url busy_world).2 = busy_world.
Proof.
  pose proof (enqueue_positions linked_pdf busy_world [other_url] {[other_url; page_url]}
                eq_refl eq_refl eq_refl) as (H1 & _ & H3 & _).
  pose proof (enqueue_positions "https://example.com/news" busy_world [other_url]
                {[other_url; page_url]} eq_refl eq_refl eq_refl) as (_ & H2 & _ & _).
  pose proof (enqueue_positions other_url busy_world [other_url]
                {[other_url; page_url]} eq_refl eq_refl eq_refl) as (_ & _ & _ & H4).
  assert (Hpdf : linked_pdf ∉ ({[other_url; page_url]} : gset string)) by (by vm_compute).
  assert (Hnews : "https://example.com/news" ∉ ({[other_url; page_url]} : gset string))
    by (by vm_compute).
  assert (Hother : other_url ∈ ({[other_url; page_url]} : gset string)) by set_solver.
  split; [|split; [|split]].
  - exact (H1 Hpdf eq_refl).
  - exact (H2 Hnews eq_refl eq_refl).
  - exact (H3 Hpdf).
  - exact (proj1 (H4 Hother)).
Defined.

(** C6, as stated, fails: content declared as PDF that PyMuPDF cannot
    open is refused, although no document is encrypted and no page text
    holds a keyword. *)
Lemma unreadable_pdf_is_refused :
  ~ (forall (env : Env) (url : string) (content : bytes),
       (forall doc, fitz_open env content = Some doc ->
          is_encrypted doc = false /\
          forall pages, page_texts doc = Some pages ->
            check_copyright (first_pages_text pages) = false) ->
       should_download env url "application/pdf" content = true).
Proof.
  intros H.
  specialize (H demo_env small_xml "<html>Not Found</html>").
  assert (Hno : should_download demo_env small_xml "application/pdf" "<html>Not Found</html>"
                = false) by reflexivity.
  rewrite H in Hno; [discriminate|].
  intros doc Hdoc. discriminate Hdoc.
Qed.

(** C6, amended.  The gate accepts only a declared type of the supported
    set; content declared [application/pdf] is accepted exactly when
    PyMuPDF opens it, it is not encrypted, its pages can be read and the
    text of its first three pages holds none of the keywords up to case;
    any other supported type is accepted. *)
Theorem should_download_accepts (env : Env) (url content_type : string) (content : bytes) :
  (should_download env url content_type content = true ->
     content_type ∈ SUPPORTED_TYPES) /\
  (should_download env url content_type content = true <->
     content_type ∈ SUPPORTED_TYPES /\
     (content_type = "application/pdf" ->
        exists doc pages,
          fitz_open env content = Some doc /\
          is_encrypted doc = false /\
          page_texts doc = Some pages /\
          check_copyright (first_pages_text pages) = false)) /\
  (forall text : string,
     check_copyright text = true <->
     exists keyword,
       keyword ∈ ["copyright"; copyright_sign; "all rights reserved"] /\
       exists pre mid post,
         text = pre +:+ mid +:+ post /\ PyStr.lower mid = keyword).
Proof.
  assert (Hiff : should_download env url content_type content = true <->
     content_type ∈ SUPPORTED_TYPES /\
     (content_type = "application/pdf" ->
        exists doc pages,
          fitz_open env content = Some doc /\
          is_encrypted doc = false /\
          page_texts doc = Some pages /\
          check_copyright (first_pages_text pages) = false)).
  { unfold should_download.
    destruct (String.eqb_spec content_type "application/pdf") as [->|Hne].
    - destruct (fitz_open env content) as [doc|].
      2:{ split; [done|]. intros [_ H]. by destruct (H eq_refl) as (? & ? & ? & _). }
      destruct (is_encrypted doc) eqn:Eenc.
      { split; [done|]. intros [_ H].
        destruct (H eq_refl) as (? & ? & [= <-] & ? & _). congruence. }
      destruct (page_texts doc) as [pages|] eqn:Epages.
      2:{ split; [done|]. intros [_ H].
          destruct (H eq_refl) as (? & ? & [= <-] & _ & ? & _). congruence. }
      destruct (check_copyright (first_pages_text pages)) eqn:Ecopy.
      { split; [done|]. intros [_ H].
        destruct (H eq_refl) as (? & ? & [= <-] & _ & ? & ?). congruence. }
      rewrite bool_decide_eq_true. split.
      + intros Hin. split; [done|]. intros _. by exists doc, pages.
      + by intros [Hin _].
    - rewrite bool_decide_eq_true. split; [|by intros [? _]].
      intros Hin. split; [done|]. intros ->. by destruct Hne. }
  split; [|split; [exact Hiff|]].
  - intros H. by apply Hiff in H as [? _].
  - intros text. unfold check_copyright, copyright_keywords.
    rewrite existsb_exists. split.
    + intros (kw & Hkw & Hc). exists kw. split; [by apply list_elem_of_In|].
      by apply contains_lower.
    + intros (kw & Hkw & Hc). exists kw. split; [by apply list_elem_of_In|].
      by apply contains_lower.
Qed.

Lemma should_download_accepts_witness :
  "text/xml" ∈ SUPPORTED_TYPES /\
  check_copyright "Copyright 2020 ACME" = true.
Proof.
  destruct (should_download_accepts demo_env small_xml "text/xml" "<a/>") as (H1 & _ & H3).
  split.
  - apply H1. reflexivity.
  - apply H3. exists "copyright". split; [apply list_elem_of_here|].
    exists "", "Copyright", " 2020 ACME". split; reflexivity.
Defined.




(** C8.  Content below 50 bytes is refused in every world: the result is
    [(None, None)] and the only directories that may appear are the
    domain directory and the ones above it, none below it; when the
    temporary file could be written it is gone afterwards.  Content of 50
    bytes or more passes the floor: on a file system that lets the calls
    through, the year is resolved from the four candidates and the
    temporary file is renamed to [OUTPUT_DIR/domain/year/filename], which
    is returned with the year. *)
Theorem save_file_size_floor (env : Env) (data : string)
    (domain url content_type : string) (w : World) :
  let domain_dir := Path.join (OUTPUT_DIR env) domain in
  let temp_path := Path.join domain_dir "temp_download" in
  let r := save_file env data domain url content_type w in
  (String.length data < 50 ->
     r.1 = Ok (None, None) /\
     (forall d, d ∈ dirs (fs r.2) ->
        d ∈ dirs (fs w) \/
        (d ∈ Path.creates domain_dir /\ String.length d <= String.length domain_dir)) /\
     (is_Some (UrlParse.urlparse url) ->
      existsb (Os.is_file (fs w)) (Path.creates domain_dir) = false ->
      temp_path ∉ dirs (fs w) ->
      files (fs r.2) = delete temp_path (files (fs w)))) /\
  (50 <= String.length data ->
   forall parsed : UrlParse.ParseResult,
     UrlParse.urlparse url = Some parsed ->
     let filename := save_filename env parsed url content_type in
     let year :=
       Year.resolve_year
         [extract_year_from_pdf env (Some data); extract_year_from_content env (Some data);
          year_from_path env (UrlParse.path parsed);
          extract_year_from_filename env filename]
         (now_year env (clock w)) in
     let year_dir := Path.join domain_dir year in
     let final_path := Path.join year_dir filename in
     existsb (Os.is_file (fs w)) (Path.creates domain_dir) = false ->
     temp_path ∉ dirs (fs w) ->
     existsb (Os.is_file (fs w)) (Path.creates year_dir) = false ->
     temp_path ∉ Path.creates year_dir ->
     final_path ∉ dirs (fs w) ->
     final_path ∉ Path.creates domain_dir ->
     final_path ∉ Path.creates year_dir ->
     r.1 = Ok (Some final_path, Some year) /\
     files (fs r.2) = <[final_path := data]> (delete temp_path (files (fs w))) /\
     final_path
       = Path.join (Path.join (Path.join (OUTPUT_DIR env) domain) year) filename).
Proof.
  cbv zeta. split.
  - intros Hsmall.
    destruct (save_file_small_any env data domain url content_type w Hsmall) as [Hr Hd].
    split; [exact Hr|]. split.
    + intros d Hin. destruct (Hd d Hin) as [?|Hc]; [by left|right].
      split; [done | by apply creates_not_longer].
    + intros [parsed Hparse] Hmk Htemp.
      by rewrite (save_file_small_clean env data domain url content_type w parsed).
  - intros Hlarge parsed Hparse Hmk Htemp Hmk2 Htemp2 Hf1 Hf2 Hf3.
    by rewrite (save_file_large_clean env data domain url content_type w parsed).
Qed.

Lemma save_file_size_floor_witness :
  String.length fifty_bytes = 50 /\
  (save_file demo_env fifty_bytes "example.com" dated_xml "text/xml" empty_world).1
    = Ok (Some "/srv/data/raw/example.com/2022/doc.xml", Some "2022") /\
  String.length forty_nine_bytes = 49 /\
  (save_file demo_env forty_nine_bytes "example.com" dated_xml "text/xml" empty_world).1
    = Ok (None, None) /\
  files (fs (save_file demo_env forty_nine_bytes "example.com" dated_xml "text/xml"
               empty_world).2) = ∅.
Proof.
  destruct (save_file_size_floor demo_env fifty_bytes "example.com" dated_xml "text/xml"
              empty_world) as [_ Hlarge].
  destruct (save_file_size_floor demo_env forty_nine_bytes "example.com" dated_xml
              "text/xml" empty_world) as [Hsmall _].
  assert (H49 : String.length forty_nine_bytes < 50) by (vm_compute; lia).
  assert (H50 : 50 <= String.length fifty_bytes) by (vm_compute; lia).
  destruct (Hsmall H49) as (Hr & _ & Hfiles).
  split; [reflexivity|]. split; [|split; [reflexivity|split; [exact Hr|]]].
  - edestruct (Hlarge H50 _ eq_refl) as (H & _); [..|exact H];
      first [ reflexivity
            | apply not_elem_of_empty
            | refine (bool_decide_eq_false_1 _ _); vm_compute; reflexivity ].
  - rewrite Hfiles.
    + reflexivity.
    + by eexists.
    + reflexivity.
    + apply not_elem_of_empty.
Defined.

(** C9.  [process_url] returns a Boolean on every URL and in every
    world, whatever fails inside, and the failures of the fetch and of
    the classification give [False]: it answers [True] only when the
    URL parsed and the document or page was fetched with success and,
    for a document, let through by the accept gate.  The crawl loop
    therefore completes any number of turns without an exception, and
    after a URL is processed, with success or not, it goes on with its
    next turn.  A storage failure is not turned into [False]: with a
    regular file in the place of the domain directory [save_file] fails
    on [FileExistsError] and stores nothing, and [process_url] answers
    [True]. *)
Theorem process_url_contains_failures (env : Env) (depth : nat) :
  (forall (url : string) (w : World),
     exists success : bool, (process_url env depth url w).1 = Ok success) /\
  (forall (url : string) (w : World),
     (process_url env depth url w).1 = Ok true -> Frame.fetched_and_accepted env url w) /\
  (forall (url : string) (w : World),
     ~ Frame.fetched_and_accepted env url w -> (process_url env depth url w).1 = Ok false) /\
  (forall (turns : nat) (w : World),
     is_Some (list_at (redis w) "url_queue") ->
     (crawl_loop env depth turns w).1 = Ok tt) /\
  (forall (turns : nat) (w : World) (u : string) (q : list string),
     redis w !! "url_queue" = Some (RList (u :: q)) ->
     PyStr.nonempty u = true ->
     exists (w1 : World) (success : bool) (w2 : World),
       Redis.lpop "url_queue" w = (Ok (Some u), w1) /\
       process_url env depth (PyStr.strip u) w1 = (Ok success, w2) /\
       crawl_loop env depth (S turns) w = crawl_loop env depth turns w2) /\
  (let r := process_url demo_env 1 small_xml blocked_world in
   Os.makedirs (Path.join (OUTPUT_DIR demo_env) "example.com") blocked_world
   = (Raise (Exn "FileExistsError"), blocked_world) /\
   (save_file demo_env "<a/>" "example.com" small_xml "text/xml" blocked_world).1
   = Ok (None, None) /\
   r.1 = Ok true /\
   fs r.2 = fs blocked_world).
Proof.
  split; [|split; [|split; [|split; [|split]]]].
  - intros url w. apply process_url_returns.
  - intros url w. apply OutcomeFacts.process_url_true_only_if.
  - intros url w Hnot.
    destruct (process_url_returns env depth url w) as [[|] Hb]; [|done].
    destruct Hnot. by apply (OutcomeFacts.process_url_true_only_if env depth).
  - intros turns w. apply crawl_loop_run.
  - intros turns w u q Hq Hu.
    destruct (lpop_run w (u :: q)) as [w1 Hpop].
    { unfold list_at. by rewrite Hq. }
    cbn [List.head] in Hpop.
    destruct (process_url_returns env depth (PyStr.strip u) w1) as [b Hb].
    destruct (process_url env depth (PyStr.strip u) w1) as [r w2] eqn:Hp.
    cbn in Hb. subst r.
    exists w1, b, w2. repeat split; try done.
    cbn [crawl_loop]. rewrite bind_eq. unfold crawl_step.
    rewrite bind_eq, Hpop, Hu, bind_eq, Hp. done.
  - vm_compute. done.
Qed.

Lemma process_url_contains_failures_witness :
  (process_url demo_env 1 other_url busy_world).1 = Ok false /\
  (crawl_loop demo_env 1 3 busy_world).1 = Ok tt.
Proof.
  destruct (process_url_contains_failures demo_env 1) as (_ & _ & Hfalse & Hloop & _).
  split.
  - apply Hfalse. intros (domain & _ & H).
    change (Frame.is_direct_document other_url) with false in H.
    destruct H as [(html & Hrender & _) | (response & Hget & _)].
    + discriminate Hrender.
    + discriminate Hget.
  - apply Hloop. by exists [other_url].
Defined.

(** C10.  The reset at the top of [run] removes the keys [url_queue] and
    [seen_urls] and changes no other key, so the value of
    [downloaded_files] is the one of before; a whole run only ever adds
    entries at the head of that log. *)
Theorem reset_keeps_download_log (w : World) :
  let w' := (reset_frontier w).2 in
  redis w' !! "url_queue" = None /\
  redis w' !! "seen_urls" = None /\
  redis w' !! "downloaded_files" = redis w !! "downloaded_files" /\
  (forall key, key <> "url_queue" -> key <> "seen_urls" ->
     redis w' !! key = redis w !! key) /\
  (forall (env : Env) (depth turns : nat),
     log_extends (redis w) (redis (run env depth turns w).2)).
Proof.
  cbn. repeat split.
  - by rewrite lookup_delete_ne, lookup_delete_eq.
  - by rewrite lookup_delete_eq.
  - by rewrite !lookup_delete_ne.
  - intros key H1 H2. by rewrite !lookup_delete_ne.
  - intros env depth turns.
    destruct (run_shape env depth turns w) as [-> | Hacts]; [apply log_extends_refl|].
    eapply actions_log_extends; [exact Hacts|].
    unfold log_extends, list_at. cbn. rewrite !lookup_delete_ne by done.
    destruct (redis w !! "downloaded_files") as [[l|s]|]; try done; by exists [].
Qed.

Lemma reset_keeps_download_log_witness :
  redis (reset_frontier logged_world).2 !! "downloaded_files" = Some (RList ["{}"]) /\
  redis (reset_frontier logged_world).2 !! "url_queue" = None.
Proof.
  destruct (reset_keeps_download_log logged_world) as (Hq & _ & _ & H & _).
  split; [|exact Hq].
  rewrite (H "downloaded_files"); [reflexivity | discriminate | discriminate].
Defined.

(** * Further properties of the crawler *)

Import CrawlerAux Frame SliceFacts UrlFacts LinkFacts DownloadFacts SeedFacts ScopeFacts
  RunFacts FrameFacts PaceFacts.

(** X1.  [detect_content_type] looks at the first 100 bytes only, answers
    one of four values, and every answer but "unknown" is a supported
    type; a signature at the very start decides whatever follows. *)
Theorem detect_content_type_sniffs_the_head (content : string) :
  detect_content_type content = detect_content_type (PyStr.take 100 content) /\
  detect_content_type content
    ∈ ["application/pdf"; "application/xml"; "text/html"; "unknown"] /\
  (detect_content_type content <> "unknown" ->
     detect_content_type content ∈ SUPPORTED_TYPES) /\
  (forall rest, detect_content_type ("%PDF-" +:+ rest) = "application/pdf") /\
  (forall rest, detect_content_type ("<?xml" +:+ rest) = "application/xml") /\
  (forall rest, detect_content_type ("<html" +:+ rest) = "text/html").
Proof.
  split; [|split; [|split]].
  - unfold detect_content_type, PyStr.startswith.
    rewrite !prefix_take, take_take by (simpl; lia). reflexivity.
  - unfold detect_content_type.
    repeat match goal with |- context [if ?b then _ else _] => destruct b end;
      eauto 6 using list_elem_of_here, list_elem_of_further.
  - unfold detect_content_type, SUPPORTED_TYPES.
    repeat match goal with |- context [if ?b then _ else _] => destruct b end;
      intros H; try done; eauto 6 using list_elem_of_here, list_elem_of_further.
  - assert (Hp : forall p rest, PyStr.startswith (p +:+ rest) p = true).
    { intros p rest. apply prefix_app. by exists rest. }
    unfold detect_content_type. repeat split; intros rest.
    + by rewrite Hp.
    + rewrite (Hp "<?xml"). reflexivity.
    + rewrite (Hp "<html"). reflexivity.
Qed.

Lemma detect_content_type_sniffs_the_head_witness :
  detect_content_type "<xml><a/></xml>" ∈ SUPPORTED_TYPES.
Proof.
  destruct (detect_content_type_sniffs_the_head "<xml><a/></xml>") as (_ & _ & H & _).
  apply H. discriminate.
Defined.

(** X2.  [is_open_access_ieee] matches its keywords whatever the case of
    the page: it is true exactly when some slice of the page and some
    keyword have the same lower-cased form, and lower-casing the page
    changes nothing. *)
Theorem is_open_access_ieee_ignores_case (html : string) :
  (is_open_access_ieee html = true <->
     exists keyword,
       keyword ∈ ["open access"; "Creative Commons"; "CC BY"; "free to read"] /\
       exists pre mid post,
         html = pre +:+ mid +:+ post /\ PyStr.lower mid = PyStr.lower keyword) /\
  is_open_access_ieee (PyStr.lower html) = is_open_access_ieee html.
Proof.
  split.
  - unfold is_open_access_ieee, open_access_keywords. rewrite existsb_exists. split.
    + intros (kw & Hkw & Hc). exists kw. split; [by apply list_elem_of_In|].
      by apply contains_lower.
    + intros (kw & Hkw & Hc). exists kw. split; [by apply list_elem_of_In|].
      by apply contains_lower.
  - unfold is_open_access_ieee. by rewrite lower_idem.
Qed.

(** X3.  Whatever its arguments, a link made by [generate_etsi_pdf_link]
    has the domain [etsi.org] and ends in [.pdf], so [process_url] takes
    it for a direct document and the embedded-document scan for a
    document. *)
Theorem generate_etsi_pdf_link_is_direct_document
    (standard_type number_range number version format : string) :
  let link := generate_etsi_pdf_link standard_type number_range number version format in
  Domain.get_domain link = Some "etsi.org" /\
  PyStr.endswith (PyStr.lower link) ".pdf" = true /\
  mentions_document link = true.
Proof.
  cbv zeta. split; [|split].
  - vm_compute. reflexivity.
  - unfold generate_etsi_pdf_link. rewrite !lower_app.
    repeat apply endswith_app_suffix. reflexivity.
  - unfold mentions_document. cbn [existsb]. apply orb_true_iff. left.
    apply endswith_contains.
    unfold generate_etsi_pdf_link. rewrite !lower_app.
    repeat apply endswith_app_suffix. reflexivity.
Qed.

(** X4.  Every URL that [process_url] sends to the direct-download tier
    (its lower-cased form ends in [.pdf] or [.xml]) is also a document
    for the embedded-document scan, which looks for the extension
    anywhere in the text. *)
Theorem direct_documents_are_mentioned (url : string) :
  PyStr.endswith (PyStr.lower url) ".pdf" || PyStr.endswith (PyStr.lower url) ".xml" = true ->
  mentions_document url = true.
Proof.
  unfold mentions_document. cbn [existsb]. rewrite orb_false_r.
  intros [H|H]%orb_true_iff; apply orb_true_iff; [left|right];
    by apply endswith_contains.
Qed.

Lemma direct_documents_are_mentioned_witness :
  mentions_document "https://example.com/Specs/A-1.PDF" = true.
Proof. apply direct_documents_are_mentioned. reflexivity. Defined.

(** X5.  A derived domain never holds a colon (the port is gone) and has
    at most two labels. *)
Theorem derived_domain_shape (url domain : string) :
  Domain.get_domain url = Some domain ->
  PyStr.has_char ":" domain = false /\ List.length (PyStr.split "." domain) <= 2.
Proof.
  unfold Domain.get_domain. destruct (UrlParse.urlparse url) as [parsed|]; [|done].
  intros [= <-]. unfold Domain.domain_of_netloc.
  set (loc := PyStr.replace "www." "" (UrlParse.netloc parsed)).
  pose proof (split_pieces ":" ":" loc (or_introl eq_refl)) as Hcolon.
  pose proof (split_nonempty ":" loc) as Hne.
  destruct (PyStr.split ":" loc) as [|host others]; [done|].
  apply Forall_cons in Hcolon as [Hhost _]. clear Hne.
  pose proof (split_pieces "." ":" host (or_intror Hhost)) as Hparts_colon.
  pose proof (split_pieces "." "." host (or_introl eq_refl)) as Hparts_dot.
  destruct (Nat.leb_spec 2 (List.length (PyStr.split "." host))) as [Hlen|Hlen];
    [|split; [done|lia]].
  unfold Domain.last_two.
  assert (exists a b, List.skipn (List.length (PyStr.split "." host) - 2)
                        (PyStr.split "." host) = [a; b]
                      /\ a ∈ PyStr.split "." host /\ b ∈ PyStr.split "." host)
    as (a & b & -> & Ha & Hb).
  { generalize dependent (PyStr.split "." host). intros parts _ _ Hlen.
    destruct (List.skipn (List.length parts - 2) parts) as [|a [|b [|c l]]] eqn:E.
    - apply (f_equal List.length) in E. rewrite length_skipn in E. simpl in E. lia.
    - apply (f_equal List.length) in E. rewrite length_skipn in E. simpl in E. lia.
    - exists a, b. split; [done|].
      assert (Hsub : forall x, x ∈ [a; b] -> x ∈ parts).
      { intros x Hx. rewrite <- E in Hx. by apply (subseteq_drop _ parts) in Hx. }
      split; apply Hsub; eauto using list_elem_of_here, list_elem_of_further.
    - apply (f_equal List.length) in E. rewrite length_skipn in E. simpl in E. lia. }
  rewrite Forall_forall in Hparts_colon, Hparts_dot.
  cbn [PyStr.join_with]. split.
  - rewrite !has_char_app, (Hparts_colon a Ha), (Hparts_colon b Hb). reflexivity.
  - change ("." +:+ b) with (String "." b).
    rewrite (split_app_sep "." a b (Hparts_dot a Ha)).
    rewrite (split_without_sep "." b (Hparts_dot b Hb)). simpl. lia.
Qed.

Lemma derived_domain_shape_witness :
  PyStr.has_char ":" "example.org" = false /\
  List.length (PyStr.split "." "example.org") <= 2.
Proof.
  apply (derived_domain_shape "http://user@www.docs.example.org:8080/a.b.c/d?e=f.g").
  reflexivity.
Defined.

(** X6.  The derived domain of an http(s) URL depends on the host part
    alone: whatever path, query or fragment follows, it is the domain of
    the network location. *)
Theorem get_domain_ignores_path (host rest : string) :
  UrlParse.all_chars
    (fun c => negb (UrlParse.is_netloc_delim c) && negb (UrlParse.is_unsafe c)
              && negb (PyStr.char_eqb "[" c) && negb (PyStr.char_eqb "]" c)) host = true ->
  (rest = EmptyString \/
   exists c rest', rest = String c rest' /\ UrlParse.is_netloc_delim c = true) ->
  Domain.get_domain ("https://" +:+ host +:+ rest) = Some (Domain.domain_of_netloc host) /\
  Domain.get_domain ("http://" +:+ host +:+ rest) = Some (Domain.domain_of_netloc host).
Proof.
  intros Hhost Hrest.
  assert (Hdelim : UrlParse.all_chars (fun c => negb (UrlParse.is_netloc_delim c)) host = true).
  { revert Hhost. apply all_chars_impl. intros c H.
    by apply andb_true_iff in H as [[[? _]%andb_true_iff _]%andb_true_iff _]. }
  assert (Hunsafe : UrlParse.all_chars (fun c => negb (UrlParse.is_unsafe c)) host = true).
  { revert Hhost. apply all_chars_impl. intros c H.
    by apply andb_true_iff in H as [[[_ ?]%andb_true_iff _]%andb_true_iff _]. }
  assert (Hopen : PyStr.has_char "[" host = false).
  { eapply all_chars_has_char; [|exact Hhost]. reflexivity. }
  assert (Hclose : PyStr.has_char "]" host = false).
  { eapply all_chars_has_char; [|exact Hhost]. reflexivity. }
  assert (Hrest' : UrlParse.remove_chars UrlParse.is_unsafe rest = EmptyString \/
                   exists c rest', UrlParse.remove_chars UrlParse.is_unsafe rest = String c rest'
                                   /\ UrlParse.is_netloc_delim c = true).
  { destruct Hrest as [->|(c & rest' & -> & Hc)]; [by left|right].
    exists c, (UrlParse.remove_chars UrlParse.is_unsafe rest'). split; [|done].
    simpl. assert (UrlParse.is_unsafe c = false) as ->; [|done].
    revert Hc. unfold UrlParse.is_netloc_delim, UrlParse.is_unsafe.
    generalize (PyStr.ord c). intros n.
    rewrite !orb_true_iff, !Nat.eqb_eq. intros [[->| ->]| ->]; reflexivity. }
  assert (Hparse : forall scheme_text,
    scheme_text = "https" \/ scheme_text = "http" ->
    Domain.get_domain (scheme_text +:+ "://" +:+ host +:+ rest)
    = Some (Domain.domain_of_netloc host)).
  { intros scheme_text Hs. unfold Domain.get_domain, UrlParse.urlparse.
    assert (Hstrip : UrlParse.remove_chars UrlParse.is_unsafe
              (PyStr.lstrip_by UrlParse.is_c0_or_space
                 (scheme_text +:+ "://" +:+ host +:+ rest))
            = scheme_text +:+ "://" +:+ host
              +:+ UrlParse.remove_chars UrlParse.is_unsafe rest).
    { destruct Hs as [-> | ->];
        match goal with
        | |- context [PyStr.lstrip_by ?p ?u] =>
            change (PyStr.lstrip_by p u) with u
        end;
        rewrite !remove_chars_app, (remove_chars_none _ host Hunsafe); reflexivity. }
    rewrite Hstrip.
    assert (Hscheme : UrlParse.split_scheme
              (scheme_text +:+ "://" +:+ host
               +:+ UrlParse.remove_chars UrlParse.is_unsafe rest)
            = (scheme_text, "//" +:+ host
                            +:+ UrlParse.remove_chars UrlParse.is_unsafe rest)).
    { destruct Hs as [-> | ->]; reflexivity. }
    rewrite Hscheme.
    assert (PyStr.startswith
              ("//" +:+ host +:+ UrlParse.remove_chars UrlParse.is_unsafe rest) "//" = true)
      as -> by (apply prefix_app; by eexists).
    change (PyStr.drop 2 ("//" +:+ host +:+ UrlParse.remove_chars UrlParse.is_unsafe rest))
      with (host +:+ UrlParse.remove_chars UrlParse.is_unsafe rest).
    cbv iota. rewrite (splitnetloc_app host _ Hdelim Hrest'), Hopen, Hclose. reflexivity. }
  split.
  - exact (Hparse "https" (or_introl eq_refl)).
  - exact (Hparse "http" (or_intror eq_refl)).
Qed.

Lemma get_domain_ignores_path_witness :
  Domain.get_domain ("https://" +:+ "www.iso.org" +:+ "/standard/1.pdf?x=[1]#top")
  = Some (Domain.domain_of_netloc "www.iso.org") /\
  Domain.domain_of_netloc "www.iso.org" = "iso.org".
Proof.
  split; [|vm_compute; reflexivity].
  refine (proj1 (get_domain_ignores_path "www.iso.org" "/standard/1.pdf?x=[1]#top" _ _)).
  - vm_compute. reflexivity.
  - right. exists "/"%char, "standard/1.pdf?x=[1]#top". split; vm_compute; reflexivity.
Defined.

(** X7.  A PDF is refused as soon as one of its first three pages holds a
    copyright keyword, and text from the fourth page on is never looked
    at: if the first three pages are clean the PDF is accepted whatever
    the later pages say. *)
Theorem copyright_check_covers_three_pages (env : Env) (url : string) (content : string)
    (doc : PdfDoc) (pages : list string) :
  fitz_open env content = Some doc ->
  page_texts doc = Some pages ->
  (forall (i : nat) (page : string),
     i < 3 -> pages !! i = Some page -> check_copyright page = true ->
     should_download env url "application/pdf" content = false) /\
  (forall (p1 p2 p3 : string) (later : list string),
     pages = p1 :: p2 :: p3 :: later ->
     is_encrypted doc = false ->
     check_copyright (p1 +:+ p2 +:+ p3) = false ->
     should_download env url "application/pdf" content = true).
Proof.
  intros Hopen Hpages. split.
  - intros i page Hi Hpage Hcopy. unfold should_download.
    rewrite Hopen, Hpages. cbn [String.eqb Ascii.eqb Bool.eqb].
    destruct (is_encrypted doc); [done|].
    assert (check_copyright (first_pages_text pages) = true) as ->; [|done].
    assert (Hin : page ∈ List.firstn 3 pages).
    { apply list_elem_of_lookup. exists i. rewrite lookup_take_lt by done. exact Hpage. }
    destruct (concat_elem page _ Hin) as (pre & post & Heq).
    unfold first_pages_text. rewrite Heq.
    unfold check_copyright in *. apply existsb_exists in Hcopy as (kw & Hkw & Hc).
    apply existsb_exists. exists kw. split; [done|].
    apply contains_lower in Hc as (a & mid & b & -> & Hmid).
    apply contains_lower. exists (pre +:+ a), mid, (b +:+ post).
    split; [|done]. by rewrite !app_assoc_str.
  - intros p1 p2 p3 later -> Henc Hclean. unfold should_download.
    rewrite Hopen, Hpages, Henc. cbn [String.eqb Ascii.eqb Bool.eqb].
    change (first_pages_text (p1 :: p2 :: p3 :: later)) with (p1 +:+ "" +:+ p2 +:+ "" +:+ p3).
    rewrite !app_nil, Hclean. reflexivity.
Qed.

Lemma copyright_check_covers_three_pages_witness :
  should_download four_page_env linked_pdf "application/pdf" "%PDF-1.7" = true /\
  check_copyright "Copyright ACME" = true.
Proof.
  split; [|reflexivity].
  apply (proj2 (copyright_check_covers_three_pages four_page_env linked_pdf "%PDF-1.7"
                  (mkPdfDoc false ∅ (Some ["Title"; "Scope"; "Terms"; "Copyright ACME"]))
                  ["Title"; "Scope"; "Terms"; "Copyright ACME"] eq_refl eq_refl)
          "Title" "Scope" "Terms" ["Copyright ACME"]); reflexivity.
Defined.

(** X8.  The metadata candidate of the year is never produced: when the
    date pattern matches, [group(2)] does not exist and the handler
    returns [None], so the resolved year is the one of the other
    candidates. *)
Theorem metadata_year_is_never_used (env : Env) (file : option string)
    (others : list (option string)) (now : nat) :
  extract_year_from_pdf env file = None /\
  Year.resolve_year (extract_year_from_pdf env file :: others) now
  = Year.resolve_year others now.
Proof.
  pose proof (extract_year_from_pdf_none env file) as H.
  by rewrite H.
Qed.

(** X9.  [extract_links] changes nothing in the world, and the links it
    returns are, in page order, joined [href]s of the page whose scheme
    starts with [http], whose host is not empty and whose domain is in
    [allowed_domains]. *)
Theorem extract_links_stays_in_scope (env : Env) (soup : Soup) (base_url : string)
    (w : World) (links : list string) :
  (extract_links env soup base_url w).1 = Ok links ->
  (extract_links env soup base_url w).2 = w /\
  links `sublist_of` omap (urljoin env base_url) (anchor_hrefs soup) /\
  forall link, link ∈ links ->
    exists parsed domain,
      UrlParse.urlparse link = Some parsed /\
      PyStr.startswith (UrlParse.scheme parsed) "http" = true /\
      PyStr.nonempty (UrlParse.netloc parsed) = true /\
      Domain.get_domain link = Some domain /\
      domain ∈ allowed_domains w.
Proof.
  intros Hok. unfold extract_links in *.
  destruct (extract_links_from_run env (anchor_hrefs soup) base_url w) as [Hw Hl].
  destruct (Hl links Hok) as [Hsub Hall].
  split; [done|]. split; [done|].
  intros link Hin. by apply (proj1 (Forall_forall _ _) Hall).
Qed.

Lemma extract_links_stays_in_scope_witness :
  (extract_links demo_env (mkSoup ["/a.pdf"; "mailto:x@example.com"; "https://other.org/b"] [])
     page_url busy_world).1 = Ok [linked_pdf] /\
  (extract_links demo_env (mkSoup ["/a.pdf"; "mailto:x@example.com"; "https://other.org/b"] [])
     page_url busy_world).2 = busy_world.
Proof.
  split; [vm_compute; reflexivity|].
  apply (extract_links_stays_in_scope demo_env
           (mkSoup ["/a.pdf"; "mailto:x@example.com"; "https://other.org/b"] [])
           page_url busy_world [linked_pdf]).
  vm_compute; reflexivity.
Defined.

(** X10.  [download_pdf_direct] sends one GET and nothing else to the
    network, and it answers [True] exactly when the response has status
    200 and passes [should_download], whatever [save_file] then does: in
    that case one entry is put at the head of the download log, and in
    every other case the store is left as it was. *)
Theorem download_pdf_direct_outcome (env : Env) (url domain : string) (w : World)
    (log : list string) :
  list_at (redis w) "downloaded_files" = Some log ->
  let r := download_pdf_direct env url domain w in
  let accepted :=
    exists response,
      session_get env (clock w) url = Some response /\
      status_code response = 200 /\
      should_download env url (default EmptyString (content_type_header response))
        (content response) = true in
  (r.1 = Ok true <-> accepted) /\
  (r.1 = Ok true ->
   exists entry,
     redis r.2 = <["downloaded_files" := RList (entry :: log)]> (redis w) /\
     trace r.2 = EvLPush "downloaded_files" entry :: EvGet url :: trace w) /\
  (r.1 <> Ok true ->
   redis r.2 = redis w /\ trace r.2 = EvGet url :: trace w).
Proof. exact (download_pdf_direct_summary env url domain w log). Qed.

Lemma download_pdf_direct_outcome_witness :
  (download_pdf_direct demo_env small_xml "example.com" empty_world).1 = Ok true.
Proof.
  apply (proj1 (download_pdf_direct_outcome demo_env small_xml "example.com" empty_world []
                  eq_refl)).
  exists (mkResponse 200 (Some "text/xml") "<a/>" "<a/>").
  split; [reflexivity|]. split; reflexivity.
Defined.

(** X11.  A URL that ends in [.pdf] or [.xml] is never rendered and never
    parsed for links: [process_url] sleeps, sends one GET and at most one
    log entry, and leaves the pending queue and the seen set as they
    were.  It answers [True] exactly when the URL parses and the response
    has status 200 and passes [should_download]; [allowed_domains] is
    not consulted. *)
Theorem direct_document_is_fetched_not_rendered (env : Env) (depth : nat) (url : string)
    (w : World) (log : list string) :
  is_direct_document url = true ->
  list_at (redis w) "downloaded_files" = Some log ->
  let r := process_url env (S depth) url w in
  (r.1 = Ok true <->
   exists domain response,
     Domain.get_domain url = Some domain /\
     session_get env (clock w) url = Some response /\
     status_code response = 200 /\
     should_download env url (default EmptyString (content_type_header response))
       (content response) = true) /\
  (exists t, trace r.2 = (t ++ trace w)%list /\
     (t = [] \/ t = [EvGet url; EvSleep] \/
      exists entry, t = [EvLPush "downloaded_files" entry; EvGet url; EvSleep])) /\
  redis r.2 !! "url_queue" = redis w !! "url_queue" /\
  redis r.2 !! "seen_urls" = redis w !! "seen_urls".
Proof.
  intros Hdirect Hlog. cbv zeta.
  change (process_url env (S depth) url)
    with (catch (process_url_body env (process_url env depth) url) (fun _ => ret false)).
  unfold catch, process_url_body, get_domain_m.
  rewrite bind_eq, from_option_run.
  destruct (Domain.get_domain url) as [domain|] eqn:Hdom.
  2:{ cbn [ret fst snd]. split; [|split; [|done]].
      - split; [done|]. by intros (? & ? & ? & _).
      - exists []. split; [done|]. by left. }
  rewrite bind_eq. cbn [emit].
  unfold is_direct_document in Hdirect. rewrite Hdirect.
  set (w1 := mkWorld _ _ _ _ _).
  pose proof (download_pdf_direct_summary env url domain w1 log Hlog) as Haux.
  destruct Haux as (Hiff & Hyes & Hno).
  destruct (download_pdf_direct env url domain w1) as [[b|e] w2] eqn:Hrun; cbn [fst snd] in *.
  - destruct b.
    + destruct (Hyes eq_refl) as (entry & Hredis & Htrace).
      split; [|split; [|split]].
      * split; [|done]. intros _. destruct (proj1 Hiff eq_refl) as (response & ?).
        by exists domain, response.
      * exists [EvLPush "downloaded_files" entry; EvGet url; EvSleep].
        split; [by rewrite Htrace|]. right; right. by exists entry.
      * rewrite Hredis. by rewrite lookup_insert_ne.
      * rewrite Hredis. by rewrite lookup_insert_ne.
    + destruct Hno as [Hredis Htrace]; [done|].
      split; [|split; [|split]].
      * split; [done|]. intros (domain' & response & [= <-] & Hrest).
        assert (Ok false = Ok true) by (apply Hiff; by exists response). done.
      * exists [EvGet url; EvSleep]. split; [by rewrite Htrace|]. right; by left.
      * by rewrite Hredis.
      * by rewrite Hredis.
  - destruct Hno as [Hredis Htrace]; [done|]. cbn [ret fst snd].
    split; [|split; [|split]].
    + split; [done|]. intros (domain' & response & [= <-] & Hrest).
      assert (Raise e = Ok true) by (apply Hiff; by exists response). done.
    + exists [EvGet url; EvSleep]. split; [by rewrite Htrace|]. right; by left.
    + by rewrite Hredis.
    + by rewrite Hredis.
Qed.

Lemma direct_document_is_fetched_not_rendered_witness :
  is_direct_document small_xml = true /\
  (process_url demo_env 1 small_xml empty_world).1 = Ok true /\
  redis (process_url demo_env 1 small_xml empty_world).2 !! "seen_urls" = None.
Proof.
  split; [reflexivity|].
  destruct (direct_document_is_fetched_not_rendered demo_env 0 small_xml empty_world []
              eq_refl eq_refl) as (Hiff & _ & _ & Hseen).
  split; [|exact Hseen].
  apply Hiff. exists "example.com", (mkResponse 200 (Some "text/xml") "<a/>" "<a/>").
  split; [reflexivity|]. split; [reflexivity|]. split; reflexivity.
Defined.

(** X12.  Seeding, after the reset, from any earlier state of the store:
    when the seed file can be read and every seed parses, the pending
    queue holds each non-blank seed once, the seeds that end in [.pdf]
    ahead of all the others; the others stand in the order of the
    shuffled file and the [.pdf] seeds in the reverse of it, each having
    been pushed at the head; the seen set is the set of the queued
    seeds. *)
Theorem seeds_are_queued_documents_first (env : Env) (w : World) (lines : list string) :
  let urls := shuffle env (clock w) (map PyStr.strip lines) in
  read_seed_lines env (clock w) = Some lines ->
  (forall u, u ∈ urls -> PyStr.nonempty u = true -> is_Some (Domain.get_domain u)) ->
  let r := (reset_frontier ;; seed_frontier env) w in
  r.1 = Ok tt /\
  exists pdfs others : list string,
    list_at (redis r.2) "url_queue" = Some (pdfs ++ others)%list /\
    set_at (redis r.2) "seen_urls" = Some (list_to_set (pdfs ++ others)%list) /\
    NoDup (pdfs ++ others)%list /\
    (forall u, u ∈ (pdfs ++ others)%list <-> u ∈ urls /\ PyStr.nonempty u = true) /\
    Forall (fun u => is_pdf_url u = true) pdfs /\
    Forall (fun u => is_pdf_url u = false) others /\
    others `sublist_of` urls /\
    rev pdfs `sublist_of` urls.
Proof.
  intros urls Hread Hparse. cbv zeta. rewrite bind_eq, reset_frontier_run.
  set (w1 := mkWorld _ _ _ _ _).
  destruct (seed_frontier_run env w1 lines Hread Hparse)
    as (pdfs & others & w' & Hrun & Hq & Hs & Hnd & Hmem & HP & HO & HsO & HsP & _).
  { unfold list_at, w1. cbn [redis]. rewrite lookup_delete_ne by done.
    by rewrite lookup_delete_eq. }
  { unfold set_at, w1. cbn [redis]. by rewrite lookup_delete_eq. }
  rewrite Hrun. cbn [fst snd]. split; [done|]. by exists pdfs, others.
Qed.

Lemma seeds_are_queued_documents_first_witness :
  ((reset_frontier ;; seed_frontier demo_env) busy_world).1 = Ok tt /\
  list_at (redis ((reset_frontier ;; seed_frontier demo_env) busy_world).2) "url_queue"
  = Some [linked_pdf; page_url].
Proof.
  split; [|vm_compute; reflexivity].
  refine (proj1 (seeds_are_queued_documents_first demo_env busy_world
                   [page_url; page_url; linked_pdf] eq_refl _)).
  intros u Hu _. change (u ∈ [page_url; page_url; linked_pdf]) in Hu.
  rewrite !elem_of_cons, elem_of_nil in Hu.
  destruct Hu as [-> | [-> | [-> | []]]]; by eexists.
Defined.

(** X13.  When the browser started and the seed file cannot be read, or
    one of its non-blank lines is refused by [urlparse], [run] ends with
    that exception after the reset: the old queue and seen set are
    gone, nothing is queued, nothing is fetched, [allowed_domains] is
    not assigned, and the browser is closed. *)
Theorem run_aborts_on_bad_seeds (env : Env) (depth turns : nat) (w : World)
    (name : string) :
  launch_browser env (clock w) = true ->
  (read_seed_lines env (S (clock w)) = None /\ name = "OSError") \/
  (exists lines bad,
     read_seed_lines env (S (clock w)) = Some lines /\ name = "ValueError" /\
     bad ∈ shuffle env (S (clock w)) (map PyStr.strip lines) /\
     PyStr.nonempty bad = true /\ Domain.get_domain bad = None) ->
  let r := run env depth turns w in
  r.1 = Raise (Exn name) /\
  redis r.2 = delete "seen_urls" (delete "url_queue" (redis w)) /\
  trace r.2
  = ([EvBrowserClose; EvDelete "seen_urls"; EvDelete "url_queue"] ++ trace w)%list /\
  allowed_domains r.2 = allowed_domains w.
Proof.
  intros Hlaunch Hbad. cbv zeta. rewrite run_started by done.
  unfold finally. rewrite bind_eq, reset_frontier_run, bind_eq.
  set (w1 := mkWorld _ _ _ _ _).
  rewrite (seed_frontier_fails env w1 name); [done|].
  change (clock w1) with (S (clock w)).
  destruct Hbad as [[-> ->] | (lines & bad & -> & -> & Hrest)]; [done|].
  split; [done|]. by exists bad.
Qed.

Lemma run_aborts_on_bad_seeds_witness :
  (run bad_seed_env 3 5 busy_world).1 = Raise (Exn "ValueError") /\
  redis (run bad_seed_env 3 5 busy_world).2 = ∅.
Proof.
  destruct (run_aborts_on_bad_seeds bad_seed_env 3 5 busy_world "ValueError" eq_refl)
    as (Hr & Hredis & _).
  - right. exists [page_url; bad_seed], bad_seed.
    split; [reflexivity|]. split; [reflexivity|].
    split; [|split; reflexivity].
    change (bad_seed ∈ [page_url; bad_seed]). apply list_elem_of_further, list_elem_of_here.
  - split; [exact Hr|]. rewrite Hredis. vm_compute. reflexivity.
Defined.

(** X14.  When the browser started, the seed file was read and every
    seed parsed, [allowed_domains] is, after any number of turns of the
    loop, the set of the domains [get_domain] derives from the non-blank
    seeds; what was in it before the run is gone. *)
Theorem allowed_domains_are_the_seed_domains (env : Env) (depth turns : nat) (w : World)
    (lines : list string) :
  let urls := shuffle env (S (clock w)) (map PyStr.strip lines) in
  launch_browser env (clock w) = true ->
  read_seed_lines env (S (clock w)) = Some lines ->
  (forall u, u ∈ urls -> PyStr.nonempty u = true -> is_Some (Domain.get_domain u)) ->
  forall d,
    d ∈ allowed_domains (run env depth turns w).2 <->
    exists u, u ∈ urls /\ PyStr.nonempty u = true /\ Domain.get_domain u = Some d.
Proof.
  intros urls Hlaunch Hread Hparse d. rewrite run_started by done.
  set (w1 := mkWorld (redis w) (fs w) (allowed_domains w) (S (clock w)) (trace w)).
  assert (Hfin : allowed_domains
                   (finally (reset_frontier ;; seed_frontier env ;; crawl_loop env depth turns)
                      cleanup w1).2
                 = allowed_domains (seed_frontier env (reset_frontier w1).2).2).
  { unfold finally. rewrite bind_eq, reset_frontier_run. cbn [snd].
    set (w2 := mkWorld _ _ _ _ _). rewrite bind_eq.
    destruct (seed_frontier env w2) as [[[]|e] w3]; cbn [snd].
    - pose proof (scope_crawl_loop env depth turns w3) as Hloop.
      destruct (crawl_loop env depth turns w3) as [r w4]. by cbn [snd] in *.
    - done. }
  rewrite Hfin, reset_frontier_run. cbn [snd].
  set (w2 := mkWorld _ _ _ _ _).
  destruct (seed_frontier_run env w2 lines Hread Hparse)
    as (pdfs & others & w' & Hrun & _ & _ & _ & _ & _ & _ & _ & _ & Hdom & _).
  { unfold list_at, w2. cbn [redis]. rewrite lookup_delete_ne by done.
    by rewrite lookup_delete_eq. }
  { unfold set_at, w2. cbn [redis]. by rewrite lookup_delete_eq. }
  rewrite Hrun. cbn [snd]. apply Hdom.
Qed.

Lemma allowed_domains_are_the_seed_domains_witness :
  "example.com" ∈ allowed_domains (run demo_env 2 4 empty_world).2.
Proof.
  refine (proj2 (allowed_domains_are_the_seed_domains demo_env 2 4 empty_world
                   [page_url; page_url; linked_pdf] eq_refl eq_refl _ "example.com") _).
  - intros u Hu _. change (u ∈ [page_url; page_url; linked_pdf]) in Hu.
    rewrite !elem_of_cons, elem_of_nil in Hu.
    destruct Hu as [-> | [-> | [-> | []]]]; by eexists.
  - exists page_url. split; [apply list_elem_of_here|]. split; reflexivity.
Defined.

(** X15.  Nothing but the seeding assigns [allowed_domains]: processing
    a URL, with everything it calls, and any number of turns of the loop
    leave it as it was. *)
Theorem only_seeding_assigns_allowed_domains (env : Env) (depth turns : nat)
    (url : string) (w : World) :
  allowed_domains (process_url env depth url w).2 = allowed_domains w /\
  allowed_domains (crawl_loop env depth turns w).2 = allowed_domains w.
Proof.
  split; [apply scope_process_url | apply scope_crawl_loop].
Qed.

(** X16.  The loop has no exit of its own: while the pending queue is
    empty, each turn is one pop that finds nothing and one sleep, for
    any number of turns, and nothing else is touched. *)
Theorem empty_queue_is_only_polled (env : Env) (depth turns : nat) (w : World) :
  list_at (redis w) "url_queue" = Some [] ->
  crawl_loop env depth turns w
  = (Ok tt,
     mkWorld (redis w) (fs w) (allowed_domains w) (clock w)
       (concat (replicate turns [EvSleep; EvLPop "url_queue" None]) ++ trace w)%list).
Proof.
  revert w. induction turns as [|k IH]; intros w Hq.
  - by destruct w.
  - cbn [crawl_loop]. rewrite bind_eq.
    assert (Hstep : crawl_step env depth w
                    = (Ok tt, mkWorld (redis w) (fs w) (allowed_domains w) (clock w)
                                ([EvSleep; EvLPop "url_queue" None] ++ trace w)%list)).
    { unfold crawl_step, list_at in *. rewrite bind_eq.
      unfold Redis.lpop. rewrite bind_eq. cbn [get_world].
      destruct (redis w !! "url_queue") as [[[|x l]|s]|]; try discriminate; reflexivity. }
    rewrite Hstep. cbv beta iota. rewrite IH by exact Hq.
    cbn [redis fs allowed_domains clock trace].
    f_equal. f_equal. cbn [replicate concat].
    rewrite <- app_assoc. apply (idle_turns_commute k (trace w)).
Qed.

Lemma empty_queue_is_only_polled_witness :
  trace (crawl_loop demo_env 3 2 empty_world).2
  = [EvSleep; EvLPop "url_queue" None; EvSleep; EvLPop "url_queue" None].
Proof.
  by rewrite (empty_queue_is_only_polled demo_env 3 2 empty_world eq_refl).
Defined.

(** X17.  The crawler reads and writes three keys of the Redis store and
    no other: after a whole run, and after processing any URL, every key
    but [url_queue], [seen_urls] and [downloaded_files] holds what it
    held before. *)
Theorem crawler_touches_three_keys (env : Env) (depth turns : nat) (url : string)
    (w : World) (key : string) :
  key ∉ ["url_queue"; "seen_urls"; "downloaded_files"] ->
  redis (run env depth turns w).2 !! key = redis w !! key /\
  redis (process_url env depth url w).2 !! key = redis w !! key.
Proof.
  intros Hkey. split.
  - destruct (run_shape env depth turns w) as [-> | Hacts]; [done|].
    rewrite (actions_same_elsewhere _ _ Hacts key Hkey).
    rewrite reset_frontier_run. cbn [snd redis].
    rewrite !lookup_delete_ne; [done|..]; intros <-; apply Hkey.
    + apply list_elem_of_here.
    + apply list_elem_of_further, list_elem_of_here.
  - exact (actions_same_elsewhere _ _ (does_process_url env depth url w) key Hkey).
Qed.

Lemma crawler_touches_three_keys_witness :
  redis (run demo_env 2 4
           (mkWorld (<["sessions" := RList ["a"]]> ∅) (mkFS ∅ ∅) ∅ 0 [])).2 !! "sessions"
  = Some (RList ["a"]).
Proof.
  refine (eq_trans
            (proj1 (crawler_touches_three_keys demo_env 2 4 page_url
                      (mkWorld (<["sessions" := RList ["a"]]> ∅) (mkFS ∅ ∅) ∅ 0 [])
                      "sessions" _)) _).
  - rewrite !not_elem_of_cons. repeat split; try discriminate. apply not_elem_of_nil.
  - reflexivity.
Defined.

(** X18.  During the crawl the seen set only grows: whatever is in it
    before a URL is processed, or before any number of turns of the
    loop, is in it afterwards.  Only the reset at the start of [run]
    empties it. *)
Theorem seen_urls_only_grow (env : Env) (depth turns : nat) (url : string) (w : World)
    (s : gset string) :
  set_at (redis w) "seen_urls" = Some s ->
  (exists s', set_at (redis (process_url env depth url w).2) "seen_urls" = Some s' /\
              s ⊆ s') /\
  (exists s', set_at (redis (crawl_loop env depth turns w).2) "seen_urls" = Some s' /\
              s ⊆ s').
Proof.
  intros Hs. split.
  - exact (actions_seen_grows _ _ (does_process_url env depth url w) s Hs).
  - exact (actions_seen_grows _ _ (does_crawl_loop env depth turns w) s Hs).
Qed.

Lemma seen_urls_only_grow_witness :
  exists s', set_at (redis (crawl_loop demo_env 2 3 busy_world).2) "seen_urls" = Some s' /\
             {[other_url; page_url]} ⊆ s'.
Proof.
  exact (proj2 (seen_urls_only_grow demo_env 2 3 page_url busy_world
                  {[other_url; page_url]} eq_refl)).
Defined.

(** X19.  After a run whose browser started, the queue key holds a list
    and the seen key a set, whatever they held before; no URL waits
    twice in the queue, and every waiting URL is in the seen set. *)
Theorem pending_urls_are_seen_once (env : Env) (depth turns : nat) (w : World) :
  launch_browser env (clock w) = true ->
  exists (q : list string) (s : gset string),
    list_at (redis (run env depth turns w).2) "url_queue" = Some q /\
    set_at (redis (run env depth turns w).2) "seen_urls" = Some s /\
    NoDup q /\
    forall url, url ∈ q -> url ∈ s.
Proof.
  intros Hlaunch. apply (frontier_inv_pending (trace w)).
  eapply actions_frontier_inv; [exact (run_actions env depth turns w Hlaunch)|].
  apply (reset_frontier_inv (mkWorld (redis w) (fs w) (allowed_domains w)
                               (S (clock w)) (trace w))).
Qed.

Lemma pending_urls_are_seen_once_witness :
  exists (q : list string) (s : gset string),
    list_at (redis (run demo_env 2 1 logged_world).2) "url_queue" = Some q /\
    set_at (redis (run demo_env 2 1 logged_world).2) "seen_urls" = Some s /\
    NoDup q /\
    forall url, url ∈ q -> url ∈ s.
Proof. exact (pending_urls_are_seen_once demo_env 2 1 logged_world eq_refl). Defined.

(** X20.  A page the browser could not render and the plain GET then
    fetched is reported as failed although its links are queued: the
    links of the response are enqueued as for a rendered page, then
    [check_for_embedded_documents] is handed the [None] of the failed
    rendering, the parser raises on it and [process_url] answers
    [False]. *)
Theorem fallback_page_is_reported_failed (env : Env) (depth : nat) (url domain : string)
    (w : World) (response : Response) (soup : Soup) :
  is_direct_document url = false ->
  Domain.get_domain url = Some domain ->
  render_page env (clock w) url = None ->
  session_get env (S (clock w)) url = Some response ->
  status_code response = 200 ->
  BeautifulSoup env (Some (text response)) = Some soup ->
  BeautifulSoup env None = None ->
  let fetched :=
    mkWorld (redis w) (fs w) (allowed_domains w) (S (S (clock w)))
      (EvGet url :: EvGoto url :: EvSleep :: trace w) in
  let queueing :=
    (let* all_links := extract_links env soup url in
     for_each all_links enqueue_link) fetched in
  process_url env (S depth) url w = (Ok false, queueing.2).
Proof.
  intros Hdirect Hdom Hrender Hget Hstatus Hsoup Hnone. cbv zeta.
  change (process_url env (S depth) url)
    with (catch (process_url_body env (process_url env depth) url) (fun _ => ret false)).
  unfold catch, process_url_body, get_domain_m.
  rewrite bind_eq, from_option_run, Hdom, bind_eq. cbn [emit].
  unfold is_direct_document in Hdirect. rewrite Hdirect.
  unfold handle_javascript_content.
  repeat (progress (rewrite ?bind_eq;
                    cbn [emit tick ret redis fs allowed_domains clock trace])).
  rewrite Hrender.
  rewrite !bind_eq, session_get_url_run. cbn [clock]. rewrite Hget, Hstatus.
  cbn [Nat.eqb negb]. rewrite bind_eq, from_option_run, Hsoup. cbn [ret].
  cbn [redis fs allowed_domains trace].
  set (fetched := mkWorld _ _ _ _ _).
  rewrite !bind_eq.
  destruct (extract_links env soup url fetched) as [[links|e] w1]; [|done].
  rewrite !bind_eq.
  destruct (for_each links enqueue_link w1) as [[[]|e] w2]; [|done].
  unfold check_for_embedded_documents.
  by rewrite !bind_eq, from_option_run, Hnone.
Qed.

Lemma fallback_page_is_reported_failed_witness :
  (process_url fallback_env 1 page_url busy_world).1 = Ok false /\
  list_at (redis (process_url fallback_env 1 page_url busy_world).2) "url_queue"
  = Some [other_url; linked_pdf].
Proof.
  rewrite (fallback_page_is_reported_failed fallback_env 0 page_url "example.com" busy_world
             (mkResponse 200 (Some "text/html") page_markup page_markup)
             (mkSoup ["/a.pdf"] []) eq_refl eq_refl eq_refl eq_refl eq_refl eq_refl eq_refl).
  split; [reflexivity|]. vm_compute. reflexivity.
Defined.

(** X21.  The crawler never sends more than two requests for each
    sleep: in the events of a whole run, of any number of turns of the
    loop and of the processing of one URL with all the documents
    embedded in it, the GETs and browser navigations number at most
    twice the sleeps, each processed URL sleeping once before its
    rendering and its fallback GET. *)
Theorem two_requests_per_sleep (env : Env) (depth turns : nat) (url : string) (w : World) :
  (exists t, trace (run env depth turns w).2 = (t ++ trace w)%list /\
             requests t <= 2 * sleeps t) /\
  (exists t, trace (crawl_loop env depth turns w).2 = (t ++ trace w)%list /\
             requests t <= 2 * sleeps t) /\
  (exists t, trace (process_url env depth url w).2 = (t ++ trace w)%list /\
             requests t <= 2 * sleeps t).
Proof.
  split; [|split].
  - destruct (paced_run env depth turns w) as (t & Ht & Hn). exists t. split; [done|]. lia.
  - destruct (paced_crawl_loop env depth turns w) as (t & Ht & Hn).
    exists t. split; [done|]. lia.
  - destruct (paced_process_url env depth url w) as (t & Ht & Hn).
    exists t. split; [done|]. lia.
Qed.

(** X22.  In every state of the file system [save_file] returns a pair
    and only adds directories.  When it returns a path, the body has at
    least 50 bytes, a year comes with the path, the file at that path
    holds the whole body, and no other file but [temp_download] of the
    domain directory has changed; when it returns [(None, None)], after
    a refusal or any failure, no file but [temp_download] has
    changed. *)
Theorem save_file_touches_two_paths (env : Env) (data : string)
    (domain url content_type : string) (w : World) :
  let temp_path := Path.join (Path.join (OUTPUT_DIR env) domain) "temp_download" in
  let r := save_file env data domain url content_type w in
  exists saved : option string * option string,
    r.1 = Ok saved /\
    dirs (fs w) ⊆ dirs (fs r.2) /\
    match saved.1 with
    | Some final_path =>
        is_Some saved.2 /\ 50 <= String.length data /\
        files (fs r.2) !! final_path = Some data /\
        forall p, p <> temp_path -> p <> final_path ->
          files (fs r.2) !! p = files (fs w) !! p
    | None =>
        saved.2 = None /\
        forall p, p <> temp_path -> files (fs r.2) !! p = files (fs w) !! p
    end.
Proof.
  cbv zeta.
  set (temp_path := Path.join (Path.join (OUTPUT_DIR env) domain) "temp_download").
  assert (Hsub : forall (a b : gset string), b ⊆ a ∪ b) by (intros; apply union_subseteq_r).
  assert (Hsub2 : forall (a b c : gset string), c ⊆ a ∪ (b ∪ c)).
  { intros a b c x Hx. apply elem_of_union. right. apply elem_of_union. by right. }
  unfold save_file, catch.
  rewrite bind_eq, makedirs_run.
  destruct (existsb _ _).
  { exists (None, None). by cbn. }
  rewrite bind_eq, from_option_run.
  destruct (UrlParse.urlparse url) as [parsed|] eqn:Hparse.
  2:{ exists (None, None). cbn. split; [done|]. split; [apply Hsub | done]. }
  rewrite bind_eq, write_file_run.
  destruct (Os.is_dir _ _).
  { exists (None, None). cbn. split; [done|]. split; [apply Hsub | done]. }
  rewrite bind_eq, getsize_run. world_norm. rewrite lookup_insert_eq.
  destruct (String.length data <? 50) eqn:Hsize.
  { rewrite bind_eq, remove_run. world_norm. rewrite lookup_insert_eq.
    exists (None, None). cbn. split; [done|]. split; [apply Hsub|]. split; [done|].
    intros p Hp. fold temp_path. rewrite lookup_delete_ne by done.
    by rewrite lookup_insert_ne. }
  apply Nat.ltb_ge in Hsize.
  rewrite bind_eq, getsize_run. world_norm. rewrite lookup_insert_eq.
  rewrite bind_eq. world_norm. rewrite lookup_insert_eq.
  rewrite bind_eq. unfold extract_year_from_url. rewrite bind_eq, Hparse. world_norm.
  rewrite bind_eq. world_norm.
  set (year := Year.resolve_year _ _).
  set (filename := save_filename env parsed url content_type).
  rewrite bind_eq, makedirs_run. world_norm.
  destruct (existsb _ _).
  { exists (None, None). cbn. split; [done|]. split; [apply Hsub|]. split; [done|].
    intros p Hp. fold temp_path. by rewrite lookup_insert_ne. }
  rewrite bind_eq, rename_run. world_norm. rewrite lookup_insert_eq.
  destruct (Os.is_dir _ _).
  { exists (None, None). cbn. split; [done|]. split; [apply Hsub2|]. split; [done|].
    intros p Hp. fold temp_path. by rewrite lookup_insert_ne. }
  eexists (Some _, Some year). cbn. split; [reflexivity|]. split; [apply Hsub2|].
  split; [by eexists|]. split; [done|]. split; [by rewrite lookup_insert_eq|].
  intros p Hp Hf. fold temp_path. rewrite lookup_insert_ne by done.
  rewrite lookup_delete_ne by done. by rewrite lookup_insert_ne.
Qed.
